(** * LUM raster driver: header codec and dataset adapter

    A shallow embedding of [frmts/lum/lumdataset.cpp]: the byte-swap helper,
    the format sniffer [Identify], the header parser [Open], the header
    writer [Create] and the geotransform accessor, over an explicit model of
    the virtual file layer the driver calls into.

    Layout: machine integers and memory, the framework types and calls the
    driver uses, the driver itself, then the lemmas and the properties. *)

From Stdlib Require Import ZArith Lia List String Bool.
From Stdlib Require Import Floats.SpecFloat.
From coqutil Require Import Byte Word.LittleEndianList Z.bitblast.
From stdpp Require Import gmap strings.
Import ListNotations.

Local Open Scope Z_scope.

(** ** Machine integers *)

Module CInt.

(** [uint32_t] / [GUInt32]: values in [0, 2^32), arithmetic wraps. *)
Definition wrap32 (z : Z) : Z := z mod 2 ^ 32.

(** Conversion of a 32-bit pattern to [int] (two's complement). *)
Definition to_int (z : Z) : Z :=
  let u := wrap32 z in if u <? 2 ^ 31 then u else u - 2 ^ 32.

Definition INT_MAX : Z := 2147483647.
Definition INT_MIN : Z := -2147483648.

Definition is_int (z : Z) : Prop := INT_MIN <= z <= INT_MAX.
Definition is_uint32 (z : Z) : Prop := 0 <= z < 2 ^ 32.

End CInt.

(** ** swapByteOrder

    [ui = (ui >> 24) | ((ui << 8) & 0x00FF0000) | ((ui >> 8) & 0x0000FF00)
          | (ui << 24)] on a [uint32_t]; the left shifts wrap at 32 bits. *)

Definition swapByteOrder (ui : Z) : Z :=
  Z.lor (Z.lor (Z.lor (Z.shiftr ui 24)
                      (Z.land (CInt.wrap32 (Z.shiftl ui 8)) 0x00FF0000))
               (Z.land (Z.shiftr ui 8) 0x0000FF00))
        (CInt.wrap32 (Z.shiftl ui 24)).

(** ** Host memory representation of a 32-bit integer

    [CPL_LSB] is the build-time macro of [cpl_port.h]: defined on a
    little-endian host. Every definition that depends on it takes it as a
    boolean argument ([true]: the [#ifdef CPL_LSB] branch is compiled). *)

Module Mem.

(** The four bytes that [&v] points to for a [GUInt32 v]. *)
Definition store_u32 (CPL_LSB : bool) (v : Z) : list byte :=
  if CPL_LSB then le_split 4 v else rev (le_split 4 v).

(** The value of [*p] for a [uint32_t *p] over the four bytes [bs]. *)
Definition load_u32 (CPL_LSB : bool) (bs : list byte) : Z :=
  if CPL_LSB then le_combine bs else le_combine (rev bs).

(** [p[i]] in a zero-filled buffer: bytes past the end read as NUL. *)
Definition byte_at (buf : list byte) (i : nat) : byte := nth i buf Byte.x00.

(** The [n] bytes starting at [p + off]. *)
Definition sub (buf : list byte) (off n : nat) : list byte :=
  map (byte_at buf) (seq off n).

(** [((uint32_t * )p)[i]]. *)
Definition u32_at (CPL_LSB : bool) (buf : list byte) (i : nat) : Z :=
  load_u32 CPL_LSB (sub buf (4 * i) 4).

End Mem.

(** ** C strings *)

(** Modelled from the spec: the macros [STARTS_WITH_CI] and [EQUAL] of
    [cpl_port.h] and the C library's [snprintf], none of which is under
    src/. The spec has the tags match case-insensitively; the macros are
    [strncasecmp(a, b, strlen(b)) == 0] and [strcasecmp(a, b) == 0]. *)
Module CStr.

Definition tolower (c : byte) : byte :=
  let n := byte.unsigned c in
  if (65 <=? n) && (n <=? 90) then byte.of_Z (n + 32) else c.

Definition char_eq_ci (a b : byte) : bool :=
  Byte.eqb (tolower a) (tolower b).

(** [strncasecmp(a, lit, strlen(lit)) == 0]; the end of the buffer [a]
    reads as the terminating NUL, which no literal character equals. *)
Fixpoint starts_with_ci (a lit : list byte) {struct lit} : bool :=
  match lit with
  | [] => true
  | cl :: lit' =>
      match a with
      | [] => false
      | ca :: a' => char_eq_ci ca cl && starts_with_ci a' lit'
      end
  end.

(** Modelled from the spec: [STARTS_WITH_CI(a, lit)], the case-insensitive
    tag match. *)
Definition STARTS_WITH_CI (a : list byte) (lit : string) : bool :=
  starts_with_ci a (list_byte_of_string lit).

(** [strcasecmp(a, b) == 0]. *)
Fixpoint equal_ci (a b : list byte) : bool :=
  match a, b with
  | [], [] => true
  | ca :: a', cb :: b' => char_eq_ci ca cb && equal_ci a' b'
  | _, _ => false
  end.

(** Modelled from the spec: [EQUAL(a, b)], the case-insensitive comparison
    of the file name extension. *)
Definition EQUAL (a b : string) : bool :=
  equal_ci (list_byte_of_string a) (list_byte_of_string b).

Definition digit (d : Z) : byte := byte.of_Z (48 + d).

(** The conversion [%02d] for [0 <= n < 100]. *)
Definition fmt_02d (n : Z) : list byte := [digit (n / 10); digit (n mod 10)].

(** [snprintf(buf, size, "%02d<suffix>", n)]: at most [size - 1]
    characters are stored before the NUL. *)
Definition snprintf_02d (size : nat) (suffix : string) (n : Z) : list byte :=
  firstn (size - 1) (fmt_02d n ++ list_byte_of_string suffix).

(** [p + k] for a pointer into a buffer. *)
Definition advance (k : nat) (p : list byte) : list byte := skipn k p.

End CStr.

(** ** Framework enumerations *)

(** Modelled from the spec: the enumerations of [gdal.h] and [cpl_error.h]
    (pixel types, access modes, error classes and numbers, colour
    interpretations); src/ uses them but does not declare them. *)
Inductive GDALDataType : Set :=
| GDT_Unknown | GDT_Byte | GDT_UInt16 | GDT_Int16 | GDT_UInt32 | GDT_Int32
| GDT_Float32 | GDT_Float64 | GDT_CInt16 | GDT_CInt32 | GDT_CFloat32
| GDT_CFloat64.

#[global] Instance GDALDataType_eq_dec : EqDecision GDALDataType.
Proof. solve_decision. Defined.

(** Modelled from the spec: the pixel-size table of the framework. The
    spec fixes the two sizes this driver needs: 1 byte for the 8-bit
    unsigned type and 2 bytes for the 16-bit unsigned type. *)
Definition GDALGetDataTypeSizeBytes (t : GDALDataType) : Z :=
  match t with
  | GDT_Unknown => 0
  | GDT_Byte => 1
  | GDT_UInt16 | GDT_Int16 => 2
  | GDT_UInt32 | GDT_Int32 | GDT_Float32 | GDT_CInt16 => 4
  | GDT_Float64 | GDT_CInt32 | GDT_CFloat32 => 8
  | GDT_CFloat64 => 16
  end.

Definition GDALGetDataTypeName (t : GDALDataType) : string :=
  match t with
  | GDT_Unknown => "Unknown" | GDT_Byte => "Byte" | GDT_UInt16 => "UInt16"
  | GDT_Int16 => "Int16" | GDT_UInt32 => "UInt32" | GDT_Int32 => "Int32"
  | GDT_Float32 => "Float32" | GDT_Float64 => "Float64"
  | GDT_CInt16 => "CInt16" | GDT_CInt32 => "CInt32"
  | GDT_CFloat32 => "CFloat32" | GDT_CFloat64 => "CFloat64"
  end.

Inductive GDALAccess : Set := GA_ReadOnly | GA_Update.

Inductive GDALColorInterp : Set := GCI_Undefined | GCI_GrayIndex.

Inductive CPLErr : Set := CE_None | CE_Debug | CE_Warning | CE_Failure | CE_Fatal.

Inductive CPLErrorNum : Set := CPLE_AppDefined | CPLE_FileIO | CPLE_OpenFailed.

Inductive CPLArg : Set := ArgInt (n : Z) | ArgStr (s : string).

(** One call of [CPLError(class, number, format, args...)]. *)
Record CPLErrorEvent : Set := mkEvent {
  err_class : CPLErr;
  err_no : CPLErrorNum;
  err_fmt : string;
  err_args : list CPLArg
}.

(** A [double]; the driver only stores and copies the constants 0.0 and
    1.0, never computes with them. *)
Definition double : Set := spec_float.
Definition d0_0 : double := S754_zero false.
Definition d1_0 : double := S754_finite false 4503599627370496 (-52).

(** ** The virtual file layer and the error log *)

(** Modelled from the spec: [VSIFOpenL], [VSIFWriteL], [VSIFCloseL] and
    [CPLError] belong to the framework's portability library, which is not
    under src/. The spec has [Create] open the destination truncate-create,
    write to it and close it, each of which can fail. The world records the
    file contents, the open handles, the calls of [CPLError] (most recent
    first), and what the environment answers to each I/O call:
    [vsi_faults w k] is the outcome of the [k]-th call. [IO_fail k] is a
    call that is reported failed with [k] bytes transferred (all of them
    when there are no more than [k]); nothing is assumed about how many of its bytes a write that is reported
    failed has left in the file. *)
Definition VSILFILE : Set := nat.

Inductive IOOutcome : Set :=
| IO_ok
| IO_fail (partial : nat).

Record World := mkWorld {
  vsi_files : gmap string (list byte);
  vsi_handles : gmap nat string;
  vsi_next : VSILFILE;
  vsi_faults : nat -> IOOutcome;
  vsi_calls : nat;
  cpl_errors : list CPLErrorEvent
}.

Module VSI.

(** The environment's answer to the next I/O call. *)
Definition io_next (w : World) : IOOutcome * World :=
  (vsi_faults w (vsi_calls w),
   mkWorld (vsi_files w) (vsi_handles w) (vsi_next w) (vsi_faults w)
           (S (vsi_calls w)) (cpl_errors w)).

Definition set_files (fs : gmap string (list byte)) (w : World) : World :=
  mkWorld fs (vsi_handles w) (vsi_next w) (vsi_faults w) (vsi_calls w)
          (cpl_errors w).

Definition set_handles (hs : gmap nat string) (w : World) : World :=
  mkWorld (vsi_files w) hs (vsi_next w) (vsi_faults w) (vsi_calls w)
          (cpl_errors w).

(** A fresh handle on [name]. *)
Definition alloc (name : string) (w : World) : VSILFILE * World :=
  (vsi_next w,
   mkWorld (vsi_files w) (<[vsi_next w := name]> (vsi_handles w))
           (S (vsi_next w)) (vsi_faults w) (vsi_calls w) (cpl_errors w)).

(** Modelled from the spec: [VSIFOpenL(name, "wb")], the truncate-create
    open. NULL on failure, else the file is created or truncated to empty. *)
Definition VSIFOpenL_wb (name : string) (w : World)
  : option VSILFILE * World :=
  let '(o, w) := io_next w in
  match o with
  | IO_fail _ => (None, w)
  | IO_ok =>
      let '(fp, w) := alloc name (set_files (<[name := []]> (vsi_files w)) w) in
      (Some fp, w)
  end.

(** The bytes of [data] that reach the file. *)
Definition written (o : IOOutcome) (data : list byte) : list byte :=
  match o with
  | IO_ok => data
  | IO_fail k => firstn k data
  end.

(** Modelled from the spec: [VSIFWriteL(data, length data, 1, fp)] on a
    handle opened for writing. It returns the number of whole objects
    written, 1 or 0. The bytes are appended (the driver only writes
    sequentially from offset 0). *)
Definition VSIFWriteL (data : list byte) (fp : VSILFILE) (w : World)
  : Z * World :=
  let '(o, w) := io_next w in
  match vsi_handles w !! fp with
  | None => (0, w)
  | Some name =>
      let w' :=
        set_files (alter (fun old => old ++ written o data) name (vsi_files w)) w in
      (match o with IO_ok => 1 | IO_fail _ => 0 end, w')
  end.

(** Modelled from the spec: [VSIFCloseL(fp)]. 0 on success; the handle is
    gone either way. *)
Definition VSIFCloseL (fp : VSILFILE) (w : World) : Z * World :=
  let '(o, w) := io_next w in
  (match o with IO_ok => 0 | IO_fail _ => -1 end,
   set_handles (delete fp (vsi_handles w)) w).

(** Modelled from the spec: [CPLError], which reports a failure or a
    warning; the call is recorded in the log. *)
Definition CPLError (c : CPLErr) (n : CPLErrorNum) (fmt : string)
           (args : list CPLArg) (w : World) : World :=
  mkWorld (vsi_files w) (vsi_handles w) (vsi_next w) (vsi_faults w)
          (vsi_calls w) (mkEvent c n fmt args :: cpl_errors w).

End VSI.

(** ** The open-probe record *)

(** Modelled from the spec: [GDALOpenInfo] of [gdal_priv.h], not under src/;
    the spec describes it as the byte buffer and stream handle supplied at
    open-probe time. *)
Record GDALOpenInfo := mkOpenInfo {
  pszFilename : string;
  eAccess : GDALAccess;
  nHeaderBytes : Z;
  pabyHeader : list byte;
  fpL : option VSILFILE
}.

(** Modelled from the spec: the constructor of the probe record. It opens
    the file, reads up to 1024 header bytes into a zero-filled buffer and
    records how many were read. *)
Definition GDALOpenInfo_ctor (name : string) (acc : GDALAccess) (w : World)
  : GDALOpenInfo * World :=
  let '(o, w) := VSI.io_next w in
  match o, vsi_files w !! name with
  | IO_ok, Some content =>
      let '(fp, w) := VSI.alloc name w in
      let '(r, w) := VSI.io_next w in
      let avail := firstn 1024 content in
      let header :=
        match r with
        | IO_ok => avail
        | IO_fail k => firstn k avail
        end in
      (mkOpenInfo name acc (Z.of_nat (length header)) header (Some fp), w)
  | _, _ => (mkOpenInfo name acc 0 [] None, w)
  end.

(** Modelled from the spec: the destructor of the probe record. It closes
    the stream if the driver did not take it. *)
Definition GDALOpenInfo_dtor (oi : GDALOpenInfo) (w : World) : World :=
  match fpL oi with
  | None => w
  | Some fp => snd (VSI.VSIFCloseL fp w)
  end.

(** ** The raster band and the dataset *)

(** Modelled from the spec: the ownership flag of [RawRasterBand]. *)
Inductive OwnFP : Set := OwnFP_NO | OwnFP_YES.

(** Modelled from the spec: [RawRasterBand] of [rawdataset.h], not under
    src/. The spec lists what the generic strided reader is given, in this
    order: stream, band index, byte offset, pixel stride, line stride,
    sample type, byte order, ownership flag. The record keeps the
    constructor's arguments in the constructor's parameter order (after the
    owning dataset), then the colour interpretation set afterwards. *)
Record RawRasterBand := mkBand {
  nBand : Z;
  fpRaw : option VSILFILE;
  nImgOffset : Z;
  nPixelOffset : Z;
  nLineOffset : Z;
  eDataType : GDALDataType;
  bNativeOrder : bool;
  bOwnsFP : OwnFP;
  eInterp : GDALColorInterp
}.

(** Modelled from the spec: the band's colour-interpretation setter. *)
Definition SetColorInterpretation (c : GDALColorInterp) (b : RawRasterBand)
  : RawRasterBand :=
  mkBand (nBand b) (fpRaw b) (nImgOffset b) (nPixelOffset b) (nLineOffset b)
         (eDataType b) (bNativeOrder b) (bOwnsFP b) c.

(** [LUMDataset] with the members of its base classes that [Open] sets:
    raster size, access mode, bands, description. *)
Record LUMDataset := mkDS {
  fpImage : option VSILFILE;
  bGeoTransformValid : bool;
  adfGeoTransform : list double;
  nRasterXSize : Z;
  nRasterYSize : Z;
  ds_eAccess : GDALAccess;
  papoBands : list RawRasterBand;
  ds_description : string
}.

(** [LUMDataset::LUMDataset()]; the base class starts at 512 x 512,
    read-only, without bands. *)
Definition LUMDataset_ctor : LUMDataset :=
  mkDS None false [d0_0; d1_0; d0_0; d0_0; d0_0; d1_0]
       512 512 GA_ReadOnly [] EmptyString.

(** [LUMDataset::~LUMDataset()]: [FlushCache()] has nothing to write in the
    states modelled here; then the stream is closed if there is one. *)
Definition LUMDataset_dtor (poDS : LUMDataset) (w : World) : World :=
  match fpImage poDS with
  | None => w
  | Some fp =>
      let '(r, w) := VSI.VSIFCloseL fp w in
      if negb (r =? 0)
      then VSI.CPLError CE_Failure CPLE_FileIO "I/O error" [] w
      else w
  end.

(** [LUMDataset::GetGeoTransform(double * )]: on success the six values are
    copied over the first six cells of the caller's buffer. *)
Definition GetGeoTransform (poDS : LUMDataset) (padfTransform : list double)
  : CPLErr * list double :=
  if bGeoTransformValid poDS
  then (CE_None, firstn 6 (adfGeoTransform poDS) ++ skipn 6 padfTransform)
  else (CE_Failure, padfTransform).

(** ** The driver *)

Definition is_null {A : Type} (p : option A) : bool :=
  match p with None => true | Some _ => false end.

(** [LUMDataset::Identify], lines 113-144. *)
Definition Identify (poOpenInfo : GDALOpenInfo) : bool :=
  if (nHeaderBytes poOpenInfo <? 12) || is_null (fpL poOpenInfo) then false
  else
    let psHeader := pabyHeader poOpenInfo in
    let p := CStr.advance 8 psHeader in
    if negb (CStr.STARTS_WITH_CI p "08BI") &&
       negb (CStr.STARTS_WITH_CI p "09BI") &&
       negb (CStr.STARTS_WITH_CI p "10BI") &&
       negb (CStr.STARTS_WITH_CI p "11BI") &&
       negb (CStr.STARTS_WITH_CI p "12BI") &&
       negb (CStr.STARTS_WITH_CI p "13BI") &&
       negb (CStr.STARTS_WITH_CI p "14BI") &&
       negb (CStr.STARTS_WITH_CI p "15BI") &&
       negb (CStr.STARTS_WITH_CI p "16BI") &&
       negb (CStr.STARTS_WITH_CI p "08LI") &&
       negb (CStr.STARTS_WITH_CI p "09LI") &&
       negb (CStr.STARTS_WITH_CI p "10LI") &&
       negb (CStr.STARTS_WITH_CI p "11LI") &&
       negb (CStr.STARTS_WITH_CI p "12LI") &&
       negb (CStr.STARTS_WITH_CI p "13LI") &&
       negb (CStr.STARTS_WITH_CI p "14LI") &&
       negb (CStr.STARTS_WITH_CI p "15LI") &&
       negb (CStr.STARTS_WITH_CI p "16LI") &&
       negb (CStr.STARTS_WITH_CI p "FLOL")
    then false
    else true.

(** [Open], lines 175-187 and again 206-224: the test that selects the
    byte-swapped reading of the header, per build. *)
Definition tagged_foreign (CPL_LSB : bool) (psHeader : list byte) : bool :=
  if CPL_LSB
  then CStr.STARTS_WITH_CI (CStr.advance 10 psHeader) "BI"
  else CStr.STARTS_WITH_CI (CStr.advance 10 psHeader) "LI".

(** [Open], lines 169-187: [nWidth] and [nHeight] after the optional swap. *)
Definition Open_dimensions (CPL_LSB : bool) (pabyHeader : list byte) : Z * Z :=
  let nWidth := Mem.u32_at CPL_LSB pabyHeader 0 in
  let nHeight := Mem.u32_at CPL_LSB pabyHeader 1 in
  if tagged_foreign CPL_LSB pabyHeader
  then (swapByteOrder nWidth, swapByteOrder nHeight)
  else (nWidth, nHeight).

(** [Open], lines 204-224: the flag passed to the band as its byte order. *)
Definition Open_bMSBFirst (CPL_LSB : bool) (psHeader : list byte) : bool :=
  if tagged_foreign CPL_LSB psHeader then false else true.

(** [Open], lines 226-234. *)
Definition Open_eDataType (psHeader : list byte) : GDALDataType :=
  if CStr.STARTS_WITH_CI (CStr.advance 8 psHeader) "08"
  then GDT_Byte
  else GDT_UInt16.

Definition take_stream (poOpenInfo : GDALOpenInfo) : GDALOpenInfo :=
  mkOpenInfo (pszFilename poOpenInfo) (eAccess poOpenInfo)
             (nHeaderBytes poOpenInfo) (pabyHeader poOpenInfo) None.

(** [LUMDataset::Open], lines 150-285. The result is the dataset (or null),
    the probe record as the driver leaves it, and the world. Both null
    returns after the stream is taken are modelled in full. On the success
    path the calls into the framework (the constructor of [RawRasterBand],
    [SetBand], [TryLoadXML] and [oOvManager.Initialize], lines 245-282) are
    not under src/: the model keeps what they store in the dataset (the
    band's arguments, the colour interpretation, the description) and
    leaves out what they do to the files, the handles and the log, such as
    the look-up of a sidecar file. The world a successful [Open] returns
    is therefore the world of the driver's own statements only. *)
Definition Open (CPL_LSB : bool) (poOpenInfo : GDALOpenInfo) (w : World)
  : option LUMDataset * GDALOpenInfo * World :=
  if negb (Identify poOpenInfo) then (None, poOpenInfo, w)
  else
    match fpL poOpenInfo with
    | None => (None, poOpenInfo, w)
    | Some fp =>
        let poDS := LUMDataset_ctor in
        let poDS :=
          mkDS (Some fp) (bGeoTransformValid poDS) (adfGeoTransform poDS)
               (nRasterXSize poDS) (nRasterYSize poDS) (ds_eAccess poDS)
               (papoBands poDS) (ds_description poDS) in
        let psHeader := pabyHeader poOpenInfo in
        let poOpenInfo := take_stream poOpenInfo in
        let '(nWidth, nHeight) := Open_dimensions CPL_LSB psHeader in
        let poDS :=
          mkDS (fpImage poDS) (bGeoTransformValid poDS) (adfGeoTransform poDS)
               (CInt.to_int nWidth) (CInt.to_int nHeight) (ds_eAccess poDS)
               (papoBands poDS) (ds_description poDS) in
        if (nRasterXSize poDS <=? 0) || (nRasterYSize poDS <=? 0) then
          let w := VSI.CPLError CE_Failure CPLE_AppDefined
                     "Invalid dimensions : %d x %d"
                     [ArgInt (nRasterXSize poDS); ArgInt (nRasterYSize poDS)] w in
          let w := LUMDataset_dtor poDS w in
          (None, poOpenInfo, w)
        else
          let poDS :=
            mkDS (fpImage poDS) (bGeoTransformValid poDS) (adfGeoTransform poDS)
                 (nRasterXSize poDS) (nRasterYSize poDS) (eAccess poOpenInfo)
                 (papoBands poDS) (ds_description poDS) in
          let bMSBFirst := Open_bMSBFirst CPL_LSB psHeader in
          let eDataType := Open_eDataType psHeader in
          let iPixelSize := GDALGetDataTypeSizeBytes eDataType in
          if nWidth >? CInt.wrap32 (Z.quot CInt.INT_MAX iPixelSize) then
            let w := VSI.CPLError CE_Failure CPLE_AppDefined
                       "Int overflow occurred." [] w in
            let w := LUMDataset_dtor poDS w in
            (None, poOpenInfo, w)
          else
            let band :=
              mkBand 1 (fpImage poDS)
                     (CInt.wrap32 (nWidth * iPixelSize))
                     iPixelSize
                     (CInt.to_int (nWidth * iPixelSize))
                     eDataType bMSBFirst OwnFP_NO GCI_Undefined in
            let band := SetColorInterpretation GCI_GrayIndex band in
            let poDS :=
              mkDS (fpImage poDS) true (adfGeoTransform poDS)
                   (nRasterXSize poDS) (nRasterYSize poDS) (ds_eAccess poDS)
                   [band] (pszFilename poOpenInfo) in
            (Some poDS, poOpenInfo, w)
    end.

(** The header tag [Create] builds, lines 347-367. *)
Definition Create_szHeader (CPL_LSB : bool) (eType : GDALDataType) : list byte :=
  if CPL_LSB then
    if bool_decide (eType = GDT_Byte)
    then CStr.snprintf_02d 5 "LI" 8
    else CStr.snprintf_02d 5 "LI" 12
  else
    if bool_decide (eType = GDT_Byte)
    then CStr.snprintf_02d 5 "BI" 8
    else CStr.snprintf_02d 5 "BI" 12.

(** [LUMDataset::Create], lines 291-379. [CPLGetExtension] is the
    framework's path helper, taken as a parameter. The results of the first
    two writes are not looked at (lines 344-345). *)
Definition Create (CPL_LSB : bool) (CPLGetExtension : string -> string)
           (pszFilename : string) (nXSize nYSize nBands : Z)
           (eType : GDALDataType) (papszOptions : list string) (w : World)
  : option LUMDataset * World :=
  if negb (bool_decide (eType = GDT_Byte)) &&
     negb (bool_decide (eType = GDT_UInt16)) then
    (None,
     VSI.CPLError CE_Failure CPLE_AppDefined
       "Attempt to create LUM dataset with an illegal data type (%s), only Byte and UInt16 supported."
       [ArgStr (GDALGetDataTypeName eType)] w)
  else if negb (nBands =? 1) then
    (None,
     VSI.CPLError CE_Failure CPLE_AppDefined
       "Attempt to create PNM dataset with an illegal numberof bands (%d).  Must be 1 (greyscale)."
       [ArgInt nBands] w)
  else
    let osExt := CPLGetExtension pszFilename in
    let w :=
      if negb (CStr.EQUAL osExt "LUM")
      then VSI.CPLError CE_Warning CPLE_AppDefined
             "Extension for lum file should be .lum" [] w
      else w in
    match VSI.VSIFOpenL_wb pszFilename w with
    | (None, w) =>
        (None,
         VSI.CPLError CE_Failure CPLE_OpenFailed
           "Attempt to create file `%s' failed." [ArgStr pszFilename] w)
    | (Some fp, w) =>
        let nImageWidth := CInt.wrap32 nXSize in
        let nImageHeight := CInt.wrap32 nYSize in
        let '(_, w) := VSI.VSIFWriteL (Mem.store_u32 CPL_LSB nImageWidth) fp w in
        let '(_, w) := VSI.VSIFWriteL (Mem.store_u32 CPL_LSB nImageHeight) fp w in
        let szHeader := Create_szHeader CPL_LSB eType in
        let '(n, w) := VSI.VSIFWriteL szHeader fp w in
        let bOK := n =? 1 in
        let '(c, w) := VSI.VSIFCloseL fp w in
        let bOK := if negb (c =? 0) then false else bOK in
        if negb bOK then (None, w)
        else
          let '(oOpenInfo, w) := GDALOpenInfo_ctor pszFilename GA_Update w in
          let '(poDS, oOpenInfo, w) := Open CPL_LSB oOpenInfo w in
          (poDS, GDALOpenInfo_dtor oOpenInfo w)
    end.

(** ** The specification's vocabulary

    Definitions that follow the words of the specification rather than the
    code, to compare the code against. *)

Module Spec.

Definition toupper (c : byte) : byte :=
  let n := byte.unsigned c in
  if (97 <=? n) && (n <=? 122) then byte.of_Z (n - 32) else c.

(** The bytes [bs] read as the text [tag], letter case ignored. *)
Definition same_text_ci (bs : list byte) (tag : string) : Prop :=
  map toupper bs = map toupper (list_byte_of_string tag).

(** The 19 recognised four-character tags. *)
Definition recognised_tags : list string :=
  ["08BI"; "09BI"; "10BI"; "11BI"; "12BI"; "13BI"; "14BI"; "15BI"; "16BI";
   "08LI"; "09LI"; "10LI"; "11LI"; "12LI"; "13LI"; "14LI"; "15LI"; "16LI";
   "FLOL"]%string.

(** Bytes 8 through 11 of a header buffer. *)
Definition tag_bytes (hdr : list byte) : list byte := Mem.sub hdr 8 4.

Inductive ByteOrder : Set := BigEndian | LittleEndian.

Definition native_order (CPL_LSB : bool) : ByteOrder :=
  if CPL_LSB then LittleEndian else BigEndian.

Definition opposite (o : ByteOrder) : ByteOrder :=
  match o with BigEndian => LittleEndian | LittleEndian => BigEndian end.

Definition order_text (o : ByteOrder) : string :=
  match o with BigEndian => "BI" | LittleEndian => "LI" end.

(** The order tag at bytes 10-11 denotes the byte order [o]. *)
Definition tag_denotes (hdr : list byte) (o : ByteOrder) : Prop :=
  same_text_ci (Mem.sub hdr 10 2) (order_text o).

(** The value whose four bytes are those of [v] in reverse. *)
Definition byte_reversed (v : Z) : Z := le_combine (rev (le_split 4 v)).

(** The raw 32-bit values stored at offsets 0 and 4, read as the host
    reads them. *)
Definition raw_width (CPL_LSB : bool) (hdr : list byte) : Z :=
  Mem.load_u32 CPL_LSB (Mem.sub hdr 0 4).
Definition raw_height (CPL_LSB : bool) (hdr : list byte) : Z :=
  Mem.load_u32 CPL_LSB (Mem.sub hdr 4 4).

Definition identity_geotransform : list double :=
  [d0_0; d1_0; d0_0; d0_0; d0_0; d1_0].

(** The two depth characters the writer uses. *)
Definition depth_text (t : GDALDataType) : string :=
  match t with GDT_Byte => "08" | _ => "12" end.

(** The 12-byte header of the on-disk format for a native-order file. *)
Definition header (CPL_LSB : bool) (width height : Z) (t : GDALDataType)
  : list byte :=
  Mem.store_u32 CPL_LSB width ++ Mem.store_u32 CPL_LSB height ++
  list_byte_of_string (depth_text t ++ order_text (native_order CPL_LSB)).

(** Every I/O call from now on succeeds. *)
Definition io_reliable (w : World) : Prop :=
  forall k, (vsi_calls w <= k)%nat -> vsi_faults w k = IO_ok.

(** The I/O calls number [vsi_calls w] to [vsi_calls w + n - 1] succeed. *)
Definition io_reliable_for (n : nat) (w : World) : Prop :=
  forall k, (vsi_calls w <= k < vsi_calls w + n)%nat -> vsi_faults w k = IO_ok.

Definition supported (t : GDALDataType) : Prop := t = GDT_Byte \/ t = GDT_UInt16.

(** The unwinding order in the specification's words: the adapter that
    fails mid-open releases its stream, and then the failure is reported. *)
Definition release_then_report (poDS : LUMDataset) (report : CPLErrorEvent)
           (w : World) : World :=
  VSI.CPLError (err_class report) (err_no report) (err_fmt report)
               (err_args report) (LUMDataset_dtor poDS w).

End Spec.

(** ** Driver registration *)

(** Modelled from the spec: [GDALDriver] of [gdal_priv.h], not under src/.
    The spec has the format registry accept a format name, capability
    flags, a long name, the supported creation pixel types and the three
    entry points. The record keeps the description, the metadata items set
    through [SetMetadataItem], and the entry points. *)
Record GDALDriver := mkDriver {
  drv_description : string;
  drv_metadata : gmap string string;
  pfnOpen :
    option (GDALOpenInfo -> World -> option LUMDataset * GDALOpenInfo * World);
  pfnCreate :
    option (string -> Z -> Z -> Z -> GDALDataType -> list string -> World ->
            option LUMDataset * World);
  pfnIdentify : option (GDALOpenInfo -> bool)
}.

Module Drv.

(** Modelled from the spec: the metadata keys of [gdal.h]. *)
Definition GDAL_DCAP_RASTER : string := "DCAP_RASTER".
Definition GDAL_DMD_LONGNAME : string := "DMD_LONGNAME".
Definition GDAL_DMD_HELPTOPIC : string := "DMD_HELPTOPIC".
Definition GDAL_DMD_EXTENSION : string := "DMD_EXTENSION".
Definition GDAL_DMD_CREATIONDATATYPES : string := "DMD_CREATIONDATATYPES".
Definition GDAL_DCAP_VIRTUALIO : string := "DCAP_VIRTUALIO".

(** [new GDALDriver()]. *)
Definition new_GDALDriver : GDALDriver := mkDriver EmptyString ∅ None None None.

Definition SetDescription (s : string) (d : GDALDriver) : GDALDriver :=
mkDriver s (drv_metadata d) (pfnOpen d) (pfnCreate d) (pfnIdentify d).

Definition SetMetadataItem (k v : string) (d : GDALDriver) : GDALDriver :=
mkDriver (drv_description d) (<[k := v]> (drv_metadata d)) (pfnOpen d)
         (pfnCreate d) (pfnIdentify d).

(** Modelled from the spec: [GDALGetDriverByName], the look-up in the
    process-wide registry keyed by format name (letter case ignored); the
    registry is the list of drivers in registration order. *)
Fixpoint GDALGetDriverByName (name : string) (dm : list GDALDriver)
  : option GDALDriver :=
match dm with
| [] => None
| d :: rest =>
    if CStr.EQUAL (drv_description d) name then Some d
    else GDALGetDriverByName name rest
end.

(** Modelled from the spec: [GDALDriverManager::RegisterDriver]. A driver
    whose name is already registered is not added again. *)
Definition RegisterDriver (d : GDALDriver) (dm : list GDALDriver)
  : list GDALDriver :=
match GDALGetDriverByName (drv_description d) dm with
| Some _ => dm
| None => dm ++ [d]
end.

End Drv.

(** [GDALRegister_LUM], lines 385-405, on the registry [dm]. *)
Definition GDALRegister_LUM (CPL_LSB : bool) (CPLGetExtension : string -> string)
           (dm : list GDALDriver) : list GDALDriver :=
if negb (is_null (Drv.GDALGetDriverByName "LUM" dm)) then dm
else
  let poDriver := Drv.new_GDALDriver in
  let poDriver := Drv.SetDescription "LUM" poDriver in
  let poDriver := Drv.SetMetadataItem Drv.GDAL_DCAP_RASTER "YES" poDriver in
  let poDriver := Drv.SetMetadataItem Drv.GDAL_DMD_LONGNAME "LUM (.lum)" poDriver in
  let poDriver :=
    Drv.SetMetadataItem Drv.GDAL_DMD_HELPTOPIC "frmt_various.html#LUM" poDriver in
  let poDriver := Drv.SetMetadataItem Drv.GDAL_DMD_EXTENSION "lum" poDriver in
  let poDriver :=
    Drv.SetMetadataItem Drv.GDAL_DMD_CREATIONDATATYPES "Byte UInt16" poDriver in
  let poDriver := Drv.SetMetadataItem Drv.GDAL_DCAP_VIRTUALIO "YES" poDriver in
  let poDriver :=
    mkDriver (drv_description poDriver) (drv_metadata poDriver)
             (Some (Open CPL_LSB)) (pfnCreate poDriver) (pfnIdentify poDriver) in
  let poDriver :=
    mkDriver (drv_description poDriver) (drv_metadata poDriver)
             (pfnOpen poDriver) (Some (Create CPL_LSB CPLGetExtension))
             (pfnIdentify poDriver) in
  let poDriver :=
    mkDriver (drv_description poDriver) (drv_metadata poDriver)
             (pfnOpen poDriver) (pfnCreate poDriver) (Some Identify) in
  Drv.RegisterDriver poDriver dm.

(** ** Proof devices and sample inputs *)

(** Every byte, for exhaustive checks of character-level facts. *)
Definition all_bytes : list byte :=
  map (fun n => byte.of_Z (Z.of_nat n)) (seq 0 256).

(** A literal none of whose characters is NUL. *)
Definition plain_text (t : string) : Prop :=
  Forall (fun c => Spec.toupper c <> Byte.x00) (list_byte_of_string t).

Module Examples.
Definition bytes_of (l : list Z) : list byte := map byte.of_Z l.

(** A little-endian 4 x 3 header with 8-bit samples. *)
Definition header_4x3_08LI : list byte :=
  bytes_of [4; 0; 0; 0; 3; 0; 0; 0] ++ list_byte_of_string "08LI".
(** The same dimensions stored big-endian. *)
Definition header_4x3_12BI : list byte :=
  bytes_of [0; 0; 0; 4; 0; 0; 0; 3] ++ list_byte_of_string "12bi".
Definition header_0x3_08LI : list byte :=
  bytes_of [0; 0; 0; 0; 3; 0; 0; 0] ++ list_byte_of_string "08LI".

Definition probe (hdr : list byte) : GDALOpenInfo :=
  mkOpenInfo "test.lum" GA_ReadOnly 12 hdr (Some 0%nat).

(** One file, one open handle on it, reliable I/O, empty log. *)
Definition world_of (hdr : list byte) : World :=
  mkWorld {[ "test.lum"%string := hdr ]} {[ 0%nat := "test.lum"%string ]}
          1%nat (fun _ => IO_ok) 0%nat [].

Definition empty_world : World :=
  mkWorld ∅ ∅ 0%nat (fun _ => IO_ok) 0%nat [].
End Examples.

(** ** Phases of [Create], named for the statements below *)

Module Phase.

(** The extension check of lines 319-324: at most a warning is logged. *)
Definition warn_extension (CPLGetExtension : string -> string)
           (pszFilename : string) (w : World) : World :=
  if negb (CStr.EQUAL (CPLGetExtension pszFilename) "LUM")
  then VSI.CPLError CE_Warning CPLE_AppDefined
         "Extension for lum file should be .lum" [] w
  else w.

(** Lines 377-378 and the end of the probe record's scope: open the file
    in update mode through [Open]. *)
Definition reopen (CPL_LSB : bool) (pszFilename : string) (w : World)
  : option LUMDataset * World :=
  let '(oOpenInfo, w) := GDALOpenInfo_ctor pszFilename GA_Update w in
  let '(poDS, oOpenInfo, w) := Open CPL_LSB oOpenInfo w in
  (poDS, GDALOpenInfo_dtor oOpenInfo w).

(** The outcome of the [i]-th I/O call counted from world [w]. *)
Definition outcome (w : World) (i : nat) : IOOutcome :=
  vsi_faults w (vsi_calls w + i)%nat.

Definition failed (o : IOOutcome) : Prop := o <> IO_ok.

(** What [VSIFWriteL] returns for one object. *)
Definition write_result (o : IOOutcome) : Z :=
  match o with IO_ok => 1 | IO_fail _ => 0 end.

(** What lines 341-369 leave in the file, given the outcomes of the
    three writes. *)
Definition written_header (CPL_LSB : bool) (nXSize nYSize : Z)
           (eType : GDALDataType) (o1 o2 o3 : IOOutcome) : list byte :=
  VSI.written o1 (Mem.store_u32 CPL_LSB (CInt.wrap32 nXSize)) ++
  VSI.written o2 (Mem.store_u32 CPL_LSB (CInt.wrap32 nYSize)) ++
  VSI.written o3 (Create_szHeader CPL_LSB eType).

(** The world once the header is written and the file closed. *)
Definition after_close (pszFilename : string) (content : list byte)
           (w : World) : World :=
  mkWorld (<[pszFilename := content]> (vsi_files w))
          (delete (vsi_next w) (vsi_handles w))
          (S (vsi_next w)) (vsi_faults w) (vsi_calls w + 5)%nat
          (cpl_errors w).

(** The world [w] with another error log. *)
Definition with_log (es : list CPLErrorEvent) (w : World) : World :=
  mkWorld (vsi_files w) (vsi_handles w) (vsi_next w) (vsi_faults w)
          (vsi_calls w) es.

(** [f] reads nothing from the error log and only adds to it. *)
Definition log_frame {A : Type} (f : World -> A * World) : Prop :=
  forall w, exists new,
    forall es, f (with_log es w) =
               (fst (f w), with_log (new ++ es) (snd (f w))).

End Phase.

(** Powers of two as literals, for linear arithmetic. *)
Ltac pow_lits :=
  change (2 ^ 8) with 256 in *; change (2 ^ 16) with 65536 in *;
  change (2 ^ 24) with 16777216 in *; change (2 ^ 32) with 4294967296 in *.

(** ** Further sample inputs *)

Module Samples.


(** The 4 x 3 8-bit header followed by six bytes of pixel data. *)
Definition file_4x3_with_pixels : list byte :=
Examples.header_4x3_08LI ++ Examples.bytes_of [9; 8; 7; 6; 5; 4].

(** The same header with its tag in lower case. *)
Definition header_4x3_08li : list byte :=
Examples.bytes_of [4; 0; 0; 0; 3; 0; 0; 0] ++ list_byte_of_string "08li".

(** A world whose every I/O call fails. *)
Definition broken_world : World :=
mkWorld ∅ ∅ 0%nat (fun _ => IO_fail 0) 0%nat [].

(** A world in which only the [k]-th I/O call fails, storing nothing. *)
Definition world_failing_at (k : nat) : World :=
mkWorld ∅ ∅ 0%nat (fun i => if Nat.eqb i k then IO_fail 0 else IO_ok) 0%nat [].

(** A world in which only the [k]-th I/O call is reported failed, although
    the four bytes of a write made by that call do reach the file. *)
Definition world_misreporting_at (k : nat) : World :=
mkWorld ∅ ∅ 0%nat (fun i => if Nat.eqb i k then IO_fail 4 else IO_ok) 0%nat [].

(** One file, one open handle on it, and a file layer whose every call,
    the close included, is reported failed. *)
Definition world_close_fails (hdr : list byte) : World :=
mkWorld {[ "test.lum"%string := hdr ]} {[ 0%nat := "test.lum"%string ]}
        1%nat (fun _ => IO_fail 0) 0%nat [].

End Samples.

(** ** Invariants of the world *)

Module Inv.

(** Handles are handed out in increasing order: none at or above the next
    fresh one is open. *)
Definition handles_fresh (w : World) : Prop :=
forall h, (vsi_next w <= h)%nat -> vsi_handles w !! h = None.

(** The driver that lines 390-402 of [GDALRegister_LUM] build. *)
Definition LUM_driver (CPL_LSB : bool) (CPLGetExtension : string -> string)
  : GDALDriver :=
mkDriver "LUM"
  (<[Drv.GDAL_DCAP_VIRTUALIO := "YES"%string]>
     (<[Drv.GDAL_DMD_CREATIONDATATYPES := "Byte UInt16"%string]>
        (<[Drv.GDAL_DMD_EXTENSION := "lum"%string]>
           (<[Drv.GDAL_DMD_HELPTOPIC := "frmt_various.html#LUM"%string]>
              (<[Drv.GDAL_DMD_LONGNAME := "LUM (.lum)"%string]>
                 (<[Drv.GDAL_DCAP_RASTER := "YES"%string]> ∅))))))
  (Some (Open CPL_LSB)) (Some (Create CPL_LSB CPLGetExtension)) (Some Identify).

End Inv.

(** ** Lemmas: machine integers and byte order *)

Section IntegerFacts.

Lemma wrap32_range z : CInt.is_uint32 (CInt.wrap32 z).
Proof. unfold CInt.is_uint32, CInt.wrap32. apply Z.mod_pos_bound. lia. Qed.

Lemma wrap32_small z : CInt.is_uint32 z -> CInt.wrap32 z = z.
Proof. unfold CInt.is_uint32, CInt.wrap32. intros H. apply Z.mod_small. lia. Qed.

Lemma to_int_range z : CInt.is_int (CInt.to_int z).
Proof.
  unfold CInt.is_int, CInt.to_int, CInt.INT_MIN, CInt.INT_MAX.
  pose proof (wrap32_range z) as H. unfold CInt.is_uint32 in H.
  destruct (Z.ltb_spec (CInt.wrap32 z) (2 ^ 31)); lia.
Qed.

(** An [int] cast to [GUInt32] and back is unchanged. *)
Lemma to_int_wrap32 z : CInt.to_int (CInt.wrap32 z) = CInt.to_int z.
Proof.
  unfold CInt.to_int. rewrite (wrap32_small (CInt.wrap32 z)); [reflexivity|].
  apply wrap32_range.
Qed.

Lemma to_int_of_int z : CInt.is_int z -> CInt.to_int z = z.
Proof.
  unfold CInt.is_int, CInt.INT_MIN, CInt.INT_MAX, CInt.to_int, CInt.wrap32.
  intros H. destruct (Z_lt_le_dec z 0) as [Hneg | Hpos].
  - replace (z mod 2 ^ 32) with (z + 2 ^ 32).
    + destruct (Z.ltb_spec (z + 2 ^ 32) (2 ^ 31)); lia.
    + apply Z.mod_unique with (q := -1); lia.
  - rewrite Z.mod_small by lia.
    destruct (Z.ltb_spec z (2 ^ 31)); lia.
Qed.

(** A 32-bit pattern that reads as a positive [int] is that [int]. *)
Lemma to_int_pos z : CInt.is_uint32 z -> 0 < CInt.to_int z -> CInt.to_int z = z.
Proof.
  unfold CInt.is_uint32, CInt.to_int. intros Hz.
  rewrite (wrap32_small z) by exact Hz.
  destruct (Z.ltb_spec z (2 ^ 31)); lia.
Qed.

Lemma to_int_high z : CInt.is_uint32 z -> CInt.INT_MAX < z -> CInt.to_int z <= 0.
Proof.
  unfold CInt.is_uint32, CInt.to_int, CInt.INT_MAX. intros Hz Hhi.
  rewrite (wrap32_small z) by exact Hz.
  destruct (Z.ltb_spec z (2 ^ 31)); lia.
Qed.

End IntegerFacts.

Section ByteOrderFacts.

Lemma lor_low_high k a b :
  0 <= k -> 0 <= a < 2 ^ k -> Z.lor a (b * 2 ^ k) = a + b * 2 ^ k.
Proof.
  intros Hk Ha. apply Z.or_to_plus.
  apply Z.bits_inj'. intros n Hn.
  rewrite Z.land_spec, Z.bits_0.
  destruct (Z.ltb_spec n k).
  - rewrite Z.mul_pow2_bits_low by lia. apply andb_false_r.
  - replace a with (a mod 2 ^ k) by (apply Z.mod_small; lia).
    rewrite Z.mod_pow2_bits_high by lia. reflexivity.
Qed.

Lemma land_mask_byte k y :
  0 <= k -> Z.land y (255 * 2 ^ k) = ((y / 2 ^ k) mod 256) * 2 ^ k.
Proof.
  intros Hk. change 255 with (Z.ones 8). change 256 with (2 ^ 8).
  rewrite <- Z.land_ones by lia. rewrite <- Z.shiftr_div_pow2 by lia.
  rewrite <- !Z.shiftl_mul_pow2 by lia.
  Z.bitblast.
Qed.

Lemma le_combine_4 b0 b1 b2 b3 :
  le_combine [b0; b1; b2; b3] =
  byte.unsigned b0 + byte.unsigned b1 * 2 ^ 8 + byte.unsigned b2 * 2 ^ 16
  + byte.unsigned b3 * 2 ^ 24.
Proof.
  cbv [le_combine].
  pose proof (byte.unsigned_range b0). pose proof (byte.unsigned_range b1).
  pose proof (byte.unsigned_range b2). pose proof (byte.unsigned_range b3).
  rewrite !Z.shiftl_mul_pow2 by lia.
  rewrite !lor_low_high by lia. lia.
Qed.

(** The shifts and masks of [swapByteOrder], byte by byte. *)
Lemma swapByteOrder_bytes x0 x1 x2 x3 :
  0 <= x0 < 256 -> 0 <= x1 < 256 -> 0 <= x2 < 256 -> 0 <= x3 < 256 ->
  swapByteOrder (x0 + x1 * 2 ^ 8 + x2 * 2 ^ 16 + x3 * 2 ^ 24) =
  x3 + x2 * 2 ^ 8 + x1 * 2 ^ 16 + x0 * 2 ^ 24.
Proof.
  intros H0 H1 H2 H3. unfold swapByteOrder, CInt.wrap32.
  set (v := x0 + x1 * 2 ^ 8 + x2 * 2 ^ 16 + x3 * 2 ^ 24).
  change 16711680 with (255 * 2 ^ 16). change 65280 with (255 * 2 ^ 8).
  rewrite !land_mask_byte by lia.
  rewrite !Z.shiftl_mul_pow2, !Z.shiftr_div_pow2 by lia.
  assert (A : v / 2 ^ 24 = x3)
    by (subst v; pow_lits; Z.div_mod_to_equations; lia).
  assert (B : (v * 2 ^ 8) mod 2 ^ 32 / 2 ^ 16 mod 256 = x1)
    by (subst v; pow_lits; Z.div_mod_to_equations; lia).
  assert (C : v / 2 ^ 8 / 2 ^ 8 mod 256 = x2)
    by (subst v; pow_lits; Z.div_mod_to_equations; lia).
  assert (D : (v * 2 ^ 24) mod 2 ^ 32 = x0 * 2 ^ 24)
    by (subst v; pow_lits; Z.div_mod_to_equations; lia).
  rewrite A, B, C, D.
  rewrite <- !Z.lor_assoc.
  rewrite (Z.lor_assoc (x1 * 2 ^ 16)), (Z.lor_comm (x1 * 2 ^ 16)), <- Z.lor_assoc.
  rewrite (lor_low_high 24 (x1 * 2 ^ 16)) by lia.
  replace (x1 * 2 ^ 16 + x0 * 2 ^ 24) with ((x1 + x0 * 2 ^ 8) * 2 ^ 16) by lia.
  rewrite (lor_low_high 16) by lia.
  replace (x2 * 2 ^ 8 + (x1 + x0 * 2 ^ 8) * 2 ^ 16)
    with ((x2 + x1 * 2 ^ 8 + x0 * 2 ^ 16) * 2 ^ 8) by lia.
  rewrite (lor_low_high 8) by lia. lia.
Qed.

Lemma swapByteOrder_le_combine b0 b1 b2 b3 :
  swapByteOrder (le_combine [b0; b1; b2; b3]) = le_combine [b3; b2; b1; b0].
Proof.
  rewrite !le_combine_4.
  pose proof (byte.unsigned_range b0). pose proof (byte.unsigned_range b1).
  pose proof (byte.unsigned_range b2). pose proof (byte.unsigned_range b3).
  apply swapByteOrder_bytes; pow_lits; lia.
Qed.

Lemma le_combine_4_range b0 b1 b2 b3 :
  CInt.is_uint32 (le_combine [b0; b1; b2; b3]).
Proof.
  unfold CInt.is_uint32.
  pose proof (le_combine_bound [b0; b1; b2; b3]) as B. exact B.
Qed.

(** Swapping a value read from four bytes is reading the reversed bytes,
    on either host. *)
Lemma swapByteOrder_load lsb b0 b1 b2 b3 :
  swapByteOrder (Mem.load_u32 lsb [b0; b1; b2; b3]) =
  Mem.load_u32 lsb [b3; b2; b1; b0].
Proof.
  unfold Mem.load_u32. destruct lsb; cbn [rev app];
    apply swapByteOrder_le_combine.
Qed.

Lemma load_u32_range lsb b0 b1 b2 b3 :
  CInt.is_uint32 (Mem.load_u32 lsb [b0; b1; b2; b3]).
Proof.
  unfold Mem.load_u32. destruct lsb; cbn [rev app]; apply le_combine_4_range.
Qed.

Lemma load_store_u32 lsb v :
  Mem.load_u32 lsb (Mem.store_u32 lsb v) = CInt.wrap32 v.
Proof.
  unfold Mem.load_u32, Mem.store_u32, CInt.wrap32. destruct lsb.
  - now rewrite le_combine_split.
  - now rewrite rev_involutive, le_combine_split.
Qed.

Lemma length_store_u32 lsb v : length (Mem.store_u32 lsb v) = 4%nat.
Proof.
  unfold Mem.store_u32. destruct lsb.
  - apply length_le_split.
  - rewrite length_rev. apply length_le_split.
Qed.

(** [swapByteOrder] is the four-byte reversal of the specification. *)
Lemma swapByteOrder_reverses v :
  CInt.is_uint32 v -> swapByteOrder v = Spec.byte_reversed v.
Proof.
  intros Hv. unfold Spec.byte_reversed.
  assert (E : v = le_combine (le_split 4 v)).
  { rewrite le_combine_split. symmetry. apply Z.mod_small. exact Hv. }
  rewrite E at 1. cbn [le_split rev app].
  apply swapByteOrder_le_combine.
Qed.

Lemma swapByteOrder_range v : CInt.is_uint32 v -> CInt.is_uint32 (swapByteOrder v).
Proof.
  intros Hv. rewrite swapByteOrder_reverses by exact Hv.
  unfold Spec.byte_reversed. cbn [le_split rev app].
  apply le_combine_4_range.
Qed.

End ByteOrderFacts.

(** ** Lemmas: text comparison *)

Section TextFacts.

Lemma in_all_bytes (b : byte) : In b all_bytes.
Proof.
  unfold all_bytes. apply in_map_iff.
  exists (Z.to_nat (byte.unsigned b)).
  pose proof (byte.unsigned_range b) as R. split.
  - rewrite Z2Nat.id by lia. apply byte.of_Z_unsigned.
  - apply in_seq. change (2 ^ 8) with 256 in R. lia.
Qed.

(** The comparison of [strncasecmp] and equality after upper-casing
    agree on every pair of bytes. *)
Lemma char_eq_ci_toupper a b :
  CStr.char_eq_ci a b = true <-> Spec.toupper a = Spec.toupper b.
Proof.
  assert (H : forallb (fun x => forallb (fun y =>
             Bool.eqb (CStr.char_eq_ci x y)
                      (Byte.eqb (Spec.toupper x) (Spec.toupper y)))
             all_bytes) all_bytes = true) by (vm_compute; reflexivity).
  rewrite forallb_forall in H. specialize (H a (in_all_bytes a)).
  rewrite forallb_forall in H. specialize (H b (in_all_bytes b)).
  apply Bool.eqb_prop in H. rewrite H.
  split.
  - intros E. apply Byte.byte_dec_bl in E. exact E.
  - intros E. rewrite E. apply Byte.byte_dec_lb. reflexivity.
Qed.

Lemma skipn_nil_byte_at (buf : list byte) k :
  skipn k buf = [] -> Mem.byte_at buf k = Byte.x00.
Proof.
  intros H. unfold Mem.byte_at. apply nth_overflow.
  revert buf H. induction k as [|k IH]; intros [|b buf] H; simpl in *;
    try lia; try discriminate.
  apply IH in H. lia.
Qed.

Lemma skipn_cons_byte_at (buf : list byte) k c rest :
  skipn k buf = c :: rest ->
  Mem.byte_at buf k = c /\ skipn (S k) buf = rest.
Proof.
  unfold Mem.byte_at. revert buf.
  induction k as [|k IH]; intros [|b buf] H; simpl in *; try discriminate.
  - inversion H. split; reflexivity.
  - apply IH in H. exact H.
Qed.

Lemma sub_succ buf k n :
  Mem.sub buf k (S n) = Mem.byte_at buf k :: Mem.sub buf (S k) n.
Proof. reflexivity. Qed.

(** [strncasecmp] at [buf + k] against a literal without NUL is the
    comparison of the bytes [k .. k + strlen - 1], letter case ignored. *)
Lemma starts_with_ci_sub lit : forall buf k,
  Forall (fun c => Spec.toupper c <> Byte.x00) lit ->
  CStr.starts_with_ci (CStr.advance k buf) lit = true <->
  map Spec.toupper (Mem.sub buf k (length lit)) = map Spec.toupper lit.
Proof.
  unfold CStr.advance.
  induction lit as [|cl lit IH]; intros buf k Hnz.
  - simpl. tauto.
  - inversion Hnz as [|? ? Hcl Hrest]; subst.
    cbn [CStr.starts_with_ci map length]. rewrite sub_succ. cbn [map].
    destruct (skipn k buf) as [|ca rest] eqn:E.
    + apply skipn_nil_byte_at in E. rewrite E. split; [discriminate|].
      intros H. inversion H as [[H1 H2]]. exfalso. apply Hcl.
      rewrite <- H1. reflexivity.
    + apply skipn_cons_byte_at in E. destruct E as [E1 E2].
      rewrite E1, <- E2. rewrite andb_true_iff, char_eq_ci_toupper.
      rewrite (IH buf (S k) Hrest). split.
      * intros [H1 H2]. now rewrite H1, H2.
      * intros H. inversion H. split; reflexivity || assumption.
Qed.

Lemma STARTS_WITH_CI_spec buf k (t : string) :
  plain_text t ->
  CStr.STARTS_WITH_CI (CStr.advance k buf) t = true <->
  Spec.same_text_ci (Mem.sub buf k (length (list_byte_of_string t))) t.
Proof. intros H. unfold CStr.STARTS_WITH_CI. now apply starts_with_ci_sub. Qed.

Lemma recognised_tags_plain :
  Forall (fun t => plain_text t /\ length (list_byte_of_string t) = 4%nat)
         Spec.recognised_tags.
Proof.
  unfold Spec.recognised_tags, plain_text.
  repeat (constructor;
          [split; [repeat (constructor; [vm_compute; discriminate|]); constructor
                  | reflexivity]|]).
  constructor.
Qed.

(** The chain of nineteen tests of [Identify] as one search. *)
Lemma Identify_existsb oi :
  Identify oi =
  negb ((nHeaderBytes oi <? 12) || is_null (fpL oi)) &&
  existsb (CStr.STARTS_WITH_CI (CStr.advance 8 (pabyHeader oi)))
          Spec.recognised_tags.
Proof.
  unfold Identify.
  destruct ((nHeaderBytes oi <? 12) || is_null (fpL oi)); [reflexivity|].
  cbn [negb andb existsb Spec.recognised_tags].
  repeat (match goal with
          | |- context [CStr.STARTS_WITH_CI ?p ?t] =>
              destruct (CStr.STARTS_WITH_CI p t); [reflexivity|]
          end; cbn [negb andb orb]).
  reflexivity.
Qed.

End TextFacts.

Section OpenFacts.

Variable CPL_LSB : bool.

Lemma sub_4 buf k :
  Mem.sub buf k 4 =
  [Mem.byte_at buf k; Mem.byte_at buf (S k); Mem.byte_at buf (S (S k));
   Mem.byte_at buf (S (S (S k)))].
Proof. reflexivity. Qed.

Lemma u32_at_range buf i : CInt.is_uint32 (Mem.u32_at CPL_LSB buf i).
Proof. unfold Mem.u32_at. rewrite sub_4. apply load_u32_range. Qed.

Lemma Open_dimensions_range hdr :
  CInt.is_uint32 (fst (Open_dimensions CPL_LSB hdr)) /\
  CInt.is_uint32 (snd (Open_dimensions CPL_LSB hdr)).
Proof.
  unfold Open_dimensions.
  destruct (tagged_foreign CPL_LSB hdr); cbn [fst snd]; split;
    try apply swapByteOrder_range; apply u32_at_range.
Qed.

(** What a successful [Open] tested and built. *)
Lemma Open_Some oi w ds oi' w' :
  Open CPL_LSB oi w = (Some ds, oi', w') ->
  exists fp,
    let hdr := pabyHeader oi in
    let nWidth := fst (Open_dimensions CPL_LSB hdr) in
    let nHeight := snd (Open_dimensions CPL_LSB hdr) in
    let eDataType := Open_eDataType hdr in
    let iPixelSize := GDALGetDataTypeSizeBytes eDataType in
    Identify oi = true /\ fpL oi = Some fp /\
    0 < CInt.to_int nWidth /\ 0 < CInt.to_int nHeight /\
    nWidth <= CInt.wrap32 (Z.quot CInt.INT_MAX iPixelSize) /\
    ds = mkDS (Some fp) true [d0_0; d1_0; d0_0; d0_0; d0_0; d1_0]
              (CInt.to_int nWidth) (CInt.to_int nHeight) (eAccess oi)
              [mkBand 1 (Some fp) (CInt.wrap32 (nWidth * iPixelSize))
                      iPixelSize (CInt.to_int (nWidth * iPixelSize))
                      eDataType (Open_bMSBFirst CPL_LSB hdr) OwnFP_NO
                      GCI_GrayIndex]
              (pszFilename oi) /\
    oi' = take_stream oi /\ w' = w.
Proof.
  unfold Open. intros H.
  destruct (Identify oi) eqn:Hid; cbn [negb] in H; [|discriminate].
  destruct (fpL oi) as [fp|] eqn:Hfp; [|discriminate].
  exists fp. cbv zeta.
  destruct (Open_dimensions CPL_LSB (pabyHeader oi)) as [nW nH] eqn:Hdim.
  cbn [fst snd nRasterXSize nRasterYSize fpImage bGeoTransformValid
       adfGeoTransform ds_eAccess papoBands ds_description] in H |- *.
  destruct ((CInt.to_int nW <=? 0) || (CInt.to_int nH <=? 0)) eqn:Hpos;
    [discriminate|].
  apply orb_false_elim in Hpos. destruct Hpos as [Hw Hh].
  apply Z.leb_gt in Hw, Hh.
  destruct (nW >? _) eqn:Hov; [discriminate|].
  inversion H; subst. clear H.
  rewrite Z.gtb_ltb in Hov. apply Z.ltb_ge in Hov.
  repeat split; try assumption; reflexivity.
Qed.

Lemma Open_rejects oi w :
  Identify oi = false -> Open CPL_LSB oi w = (None, oi, w).
Proof. intros H. unfold Open. rewrite H. reflexivity. Qed.

End OpenFacts.

Section WorldFacts.

Lemma VSIFCloseL_world fp w :
  let w' := snd (VSI.VSIFCloseL fp w) in
  vsi_files w' = vsi_files w /\
  vsi_handles w' = delete fp (vsi_handles w) /\
  vsi_next w' = vsi_next w /\
  vsi_faults w' = vsi_faults w /\
  vsi_calls w' = S (vsi_calls w) /\
  cpl_errors w' = cpl_errors w.
Proof. cbv zeta. unfold VSI.VSIFCloseL. cbn. repeat split. Qed.

Lemma LUMDataset_dtor_world poDS fp w :
  fpImage poDS = Some fp ->
  let w' := LUMDataset_dtor poDS w in
  vsi_files w' = vsi_files w /\
  vsi_handles w' = delete fp (vsi_handles w) /\
  vsi_faults w' = vsi_faults w /\
  vsi_calls w' = S (vsi_calls w) /\
  exists es, cpl_errors w' = es ++ cpl_errors w.
Proof.
  intros Hfp. cbv zeta. unfold LUMDataset_dtor. rewrite Hfp.
  unfold VSI.VSIFCloseL. cbn.
  destruct (vsi_faults w (vsi_calls w)); cbn; repeat split.
  - exists []. reflexivity.
  - eexists [_]. reflexivity.
Qed.

End WorldFacts.

Section DisposeFacts.

(** The destructor of lines 84-92, field by field. *)
Lemma LUMDataset_dtor_closes (poDS : LUMDataset) (w : World) :
  let w' := LUMDataset_dtor poDS w in
  vsi_files w' = vsi_files w /\
  match fpImage poDS with
  | None => w' = w
  | Some fp =>
      vsi_handles w' = delete fp (vsi_handles w) /\
      vsi_calls w' = S (vsi_calls w) /\
      cpl_errors w' =
        match Phase.outcome w 0 with
        | IO_ok => cpl_errors w
        | IO_fail _ => mkEvent CE_Failure CPLE_FileIO "I/O error" [] :: cpl_errors w
        end
  end.
Proof.
  cbv zeta. unfold LUMDataset_dtor, Phase.outcome.
  replace (vsi_calls w + 0)%nat with (vsi_calls w) by lia.
  destruct (fpImage poDS) as [fp|]; [|split; reflexivity].
  unfold VSI.VSIFCloseL, VSI.io_next. cbn.
  destruct (vsi_faults w (vsi_calls w)); cbn; repeat split.
Qed.

End DisposeFacts.

Section OpenFailure.

Variable CPL_LSB : bool.

Lemma Open_eDataType_size hdr :
  GDALGetDataTypeSizeBytes (Open_eDataType hdr) = 1 \/
  GDALGetDataTypeSizeBytes (Open_eDataType hdr) = 2.
Proof. unfold Open_eDataType. destruct (CStr.STARTS_WITH_CI _ _); auto. Qed.

(** The guard of line 238 is the overflow of width times pixel size. *)
Lemma overflow_test nW p :
  p = 1 \/ p = 2 ->
  (nW >? CInt.wrap32 (Z.quot CInt.INT_MAX p)) = true <-> CInt.INT_MAX < nW * p.
Proof.
  assert (H1 : CInt.wrap32 (Z.quot CInt.INT_MAX 1) = 2147483647) by reflexivity.
  assert (H2 : CInt.wrap32 (Z.quot CInt.INT_MAX 2) = 1073741823) by reflexivity.
  rewrite Z.gtb_ltb, Z.ltb_lt. unfold CInt.INT_MAX in *.
  intros [-> | ->]; [rewrite H1 | rewrite H2]; lia.
Qed.

Lemma Open_None_geometry oi w fp :
  Identify oi = true -> fpL oi = Some fp ->
  let hdr := pabyHeader oi in
  let nWidth := fst (Open_dimensions CPL_LSB hdr) in
  let nHeight := snd (Open_dimensions CPL_LSB hdr) in
  let iPixelSize := GDALGetDataTypeSizeBytes (Open_eDataType hdr) in
  CInt.to_int nWidth <= 0 \/ CInt.to_int nHeight <= 0 \/
    CInt.INT_MAX < nWidth * iPixelSize ->
  exists e poDS,
    fpImage poDS = Some fp /\
    err_class e = CE_Failure /\ err_no e = CPLE_AppDefined /\
    Open CPL_LSB oi w =
    (None, take_stream oi,
     LUMDataset_dtor poDS
       (VSI.CPLError (err_class e) (err_no e) (err_fmt e) (err_args e) w)).
Proof.
  intros Hid Hfp. cbv zeta. intros Hbad.
  unfold Open. rewrite Hid, Hfp. cbn [negb].
  destruct (Open_dimensions CPL_LSB (pabyHeader oi)) as [nW nH] eqn:Hdim.
  cbn [fst snd nRasterXSize nRasterYSize fpImage bGeoTransformValid
       adfGeoTransform ds_eAccess papoBands ds_description] in *.
  destruct ((CInt.to_int nW <=? 0) || (CInt.to_int nH <=? 0)) eqn:Hpos.
  - eexists (mkEvent _ _ _ _), _. cbn [err_class err_no err_fmt err_args].
    split; [|split; [|split]]; [| | |reflexivity]; reflexivity.
  - apply orb_false_elim in Hpos. destruct Hpos as [Hw Hh].
    apply Z.leb_gt in Hw, Hh.
    destruct Hbad as [Hbad | [Hbad | Hbad]]; try lia.
    assert (Hgt : (nW >? CInt.wrap32
              (CInt.INT_MAX ÷ GDALGetDataTypeSizeBytes (Open_eDataType (pabyHeader oi))))
             = true)
      by (apply overflow_test; [apply Open_eDataType_size | exact Hbad]).
    rewrite Hgt.
    eexists (mkEvent _ _ _ _), _. cbn [err_class err_no err_fmt err_args].
    split; [|split; [|split]]; [| | |reflexivity]; reflexivity.
Qed.

End OpenFailure.

Section FailureFacts.

Variable CPL_LSB : bool.

(** The three ways [Open] returns null. *)
Lemma Open_None_cases oi w oi' w' :
  Open CPL_LSB oi w = (None, oi', w') ->
  (oi' = oi /\ w' = w /\ (Identify oi = false \/ fpL oi = None)) \/
  (exists fp e poDS,
     Identify oi = true /\ fpL oi = Some fp /\ fpImage poDS = Some fp /\
     err_class e = CE_Failure /\ err_no e = CPLE_AppDefined /\
     oi' = take_stream oi /\
     w' = LUMDataset_dtor poDS
            (VSI.CPLError (err_class e) (err_no e) (err_fmt e) (err_args e) w)).
Proof.
  unfold Open. intros H.
  destruct (Identify oi) eqn:Hid; cbn [negb] in H.
  2: { inversion H. left. auto. }
  destruct (fpL oi) as [fp|] eqn:Hfp.
  2: { inversion H. left. auto. }
  right. exists fp.
  destruct (Open_dimensions CPL_LSB (pabyHeader oi)) as [nW nH].
  cbn [nRasterXSize nRasterYSize fpImage] in H.
  destruct (_ || _).
  - inversion H. eexists (mkEvent _ _ _ _), _.
    cbn [err_class err_no err_fmt err_args].
    repeat split; reflexivity.
  - destruct (_ >? _); [|discriminate].
    inversion H. eexists (mkEvent _ _ _ _), _.
    cbn [err_class err_no err_fmt err_args].
    repeat split; reflexivity.
Qed.

End FailureFacts.

(** C4. [Identify] answers true exactly when at least 12 header bytes and a
    stream are available and bytes 8-11 of the buffer read, letter case
    ignored, as one of the 19 recognised tags. Its answer is a function of
    the probe record alone (it takes no world), does not change when the
    bytes outside 8-11 change, and a probe it rejects leaves [Open] without
    any effect. *)
Theorem Identify_recognised_tag (oi : GDALOpenInfo) :
  (Identify oi = true <->
     12 <= nHeaderBytes oi /\ fpL oi <> None /\
     exists tag, In tag Spec.recognised_tags /\
                 Spec.same_text_ci (Spec.tag_bytes (pabyHeader oi)) tag) /\
  (forall hdr',
     Spec.tag_bytes hdr' = Spec.tag_bytes (pabyHeader oi) ->
     Identify (mkOpenInfo (pszFilename oi) (eAccess oi) (nHeaderBytes oi)
                          hdr' (fpL oi)) = Identify oi) /\
  (forall lsb w, Identify oi = false -> Open lsb oi w = (None, oi, w)).
Proof.
  assert (Hiff : forall o, Identify o = true <->
     12 <= nHeaderBytes o /\ fpL o <> None /\
     exists tag, In tag Spec.recognised_tags /\
                 Spec.same_text_ci (Spec.tag_bytes (pabyHeader o)) tag).
  { intros o. rewrite Identify_existsb, andb_true_iff, negb_true_iff,
      orb_false_iff, Z.ltb_ge, existsb_exists.
    assert (Hnull : is_null (fpL o) = false <-> fpL o <> None)
      by (destruct (fpL o); cbn; split; congruence).
    rewrite Hnull.
    assert (Htag : forall tag, In tag Spec.recognised_tags ->
              (CStr.STARTS_WITH_CI (CStr.advance 8 (pabyHeader o)) tag = true <->
               Spec.same_text_ci (Spec.tag_bytes (pabyHeader o)) tag)).
    { intros tag Hin.
      pose proof recognised_tags_plain as HF.
      rewrite List.Forall_forall in HF. destruct (HF tag Hin) as [Hp Hl].
      rewrite (STARTS_WITH_CI_spec _ _ _ Hp), Hl. reflexivity. }
    split.
    - intros [[H1 H2] (tag & Hin & Hs)]. repeat split; try assumption.
      exists tag. split; [assumption|]. now apply Htag.
    - intros (H1 & H2 & tag & Hin & Hs). repeat split; try assumption.
      exists tag. split; [assumption|]. now apply Htag. }
  split; [apply Hiff|]. split.
  - intros hdr' Heq.
    destruct (Identify oi) eqn:E.
    + apply Hiff. apply Hiff in E. cbn [nHeaderBytes fpL pabyHeader].
      now rewrite Heq.
    + destruct (Identify (mkOpenInfo _ _ _ hdr' _)) eqn:E'; [|reflexivity].
      apply Hiff in E'. cbn [nHeaderBytes fpL pabyHeader] in E'.
      rewrite Heq in E'. apply Hiff in E'. congruence.
  - intros lsb w. apply Open_rejects.
Qed.

Lemma Identify_recognised_tag_witness :
  Identify (Examples.probe Examples.header_4x3_08LI) = true /\
  Identify (Examples.probe Examples.header_4x3_12BI) = true.
Proof.
  split.
  - apply (proj1 (Identify_recognised_tag _)). split; [cbn; lia|].
    split; [discriminate|]. exists "08LI"%string.
    split; [cbn; tauto | reflexivity].
  - apply (proj1 (Identify_recognised_tag _)). split; [cbn; lia|].
    split; [discriminate|]. exists "12BI"%string.
    split; [cbn; tauto | vm_compute; reflexivity].
Defined.

Section HeaderByteOrder.

Variable CPL_LSB : bool.

Lemma order_text_plain o :
  plain_text (Spec.order_text o) /\
  length (list_byte_of_string (Spec.order_text o)) = 2%nat.
Proof.
  unfold plain_text.
  destruct o; (split; [|reflexivity]);
    repeat (constructor; [vm_compute; discriminate|]); constructor.
Qed.

(** The driver's test is the specification's "tagged with the order
    opposite to the host's". *)
Lemma tagged_foreign_spec hdr :
  tagged_foreign CPL_LSB hdr = true <->
  Spec.tag_denotes hdr (Spec.opposite (Spec.native_order CPL_LSB)).
Proof.
  unfold tagged_foreign, Spec.tag_denotes.
  destruct CPL_LSB; cbn [Spec.native_order Spec.opposite].
  - destruct (order_text_plain Spec.BigEndian) as [Hp Hl].
    rewrite (STARTS_WITH_CI_spec hdr 10 _ Hp), Hl. reflexivity.
  - destruct (order_text_plain Spec.LittleEndian) as [Hp Hl].
    rewrite (STARTS_WITH_CI_spec hdr 10 _ Hp), Hl. reflexivity.
Qed.

Lemma tag_denotes_unique hdr o :
  Spec.tag_denotes hdr o -> ~ Spec.tag_denotes hdr (Spec.opposite o).
Proof.
  unfold Spec.tag_denotes, Spec.same_text_ci. intros H1 H2.
  rewrite H1 in H2. destruct o; vm_compute in H2; discriminate.
Qed.

Lemma Open_dimensions_foreign hdr :
  tagged_foreign CPL_LSB hdr = true ->
  Open_dimensions CPL_LSB hdr =
  (Spec.byte_reversed (Spec.raw_width CPL_LSB hdr),
   Spec.byte_reversed (Spec.raw_height CPL_LSB hdr)).
Proof.
  intros H. unfold Open_dimensions. rewrite H.
  rewrite !swapByteOrder_reverses by apply u32_at_range.
  reflexivity.
Qed.

Lemma Open_dimensions_native hdr :
  tagged_foreign CPL_LSB hdr = false ->
  Open_dimensions CPL_LSB hdr =
  (Spec.raw_width CPL_LSB hdr, Spec.raw_height CPL_LSB hdr).
Proof. intros H. unfold Open_dimensions. rewrite H. reflexivity. Qed.

Lemma Open_size oi w ds oi' w' :
  Open CPL_LSB oi w = (Some ds, oi', w') ->
  (nRasterXSize ds, nRasterYSize ds) = Open_dimensions CPL_LSB (pabyHeader oi).
Proof.
  intros H. apply Open_Some in H. destruct H as (fp & H). cbv zeta in H.
  destruct H as (_ & _ & Hw & Hh & _ & Hds & _). subst ds.
  cbn [nRasterXSize nRasterYSize].
  destruct (Open_dimensions_range CPL_LSB (pabyHeader oi)) as [Rw Rh].
  rewrite (to_int_pos _ Rw Hw), (to_int_pos _ Rh Hh).
  symmetry. apply surjective_pairing.
Qed.

End HeaderByteOrder.

(** C5. For a header whose order tag (bytes 10-11) denotes the byte order
    opposite to the host's, the width and height [Open] parses are the
    four-byte reversals of the raw 32-bit values at offsets 0 and 4; when
    the tag denotes the host's own order the raw values are used unchanged;
    and a dataset [Open] returns carries exactly those parsed values as its
    raster size. *)
Theorem Open_dimensions_byte_order (CPL_LSB : bool) (hdr : list byte) :
  (Spec.tag_denotes hdr (Spec.opposite (Spec.native_order CPL_LSB)) ->
   Open_dimensions CPL_LSB hdr =
   (Spec.byte_reversed (Spec.raw_width CPL_LSB hdr),
    Spec.byte_reversed (Spec.raw_height CPL_LSB hdr))) /\
  (Spec.tag_denotes hdr (Spec.native_order CPL_LSB) ->
   Open_dimensions CPL_LSB hdr =
   (Spec.raw_width CPL_LSB hdr, Spec.raw_height CPL_LSB hdr)) /\
  (forall oi w ds oi' w',
     pabyHeader oi = hdr ->
     Open CPL_LSB oi w = (Some ds, oi', w') ->
     (nRasterXSize ds, nRasterYSize ds) = Open_dimensions CPL_LSB hdr).
Proof.
  split; [|split].
  - intros H. apply Open_dimensions_foreign. now apply tagged_foreign_spec.
  - intros H. apply Open_dimensions_native.
    destruct (tagged_foreign CPL_LSB hdr) eqn:E; [|reflexivity].
    apply tagged_foreign_spec in E.
    exfalso. exact (tag_denotes_unique hdr _ H E).
  - intros oi w ds oi' w' <- H. exact (Open_size CPL_LSB oi w ds oi' w' H).
Qed.

Lemma Open_dimensions_byte_order_witness :
  Open_dimensions true Examples.header_4x3_12BI = (4, 3) /\
  Open_dimensions true Examples.header_4x3_08LI = (4, 3) /\
  Spec.raw_width true Examples.header_4x3_12BI = 67108864.
Proof.
  split; [|split].
  - rewrite (proj1 (Open_dimensions_byte_order true Examples.header_4x3_12BI)).
    + reflexivity.
    + vm_compute. reflexivity.
  - rewrite (proj1 (proj2 (Open_dimensions_byte_order true Examples.header_4x3_08LI))).
    + reflexivity.
    + vm_compute. reflexivity.
  - reflexivity.
Defined.

(** C6, as the code has it. When a header that passes [Identify] yields,
    after any byte swap, a width or a height that reads as a non-positive
    [int], or a width times pixel size beyond [INT_MAX], [Open] returns no
    dataset and the probe record no longer holds the stream. The failure is
    reported first: [CPLError] is called with [CE_Failure] while the stream
    is still as it was, no I/O call made. Only then is the adapter
    destroyed, which closes the stream with the one I/O call of this run;
    when that close fails, its own "I/O error" enters the log after the
    report. On return the handle is not open and no file has changed: the
    stream is released after the failure is reported and before [Open]
    returns. *)
Theorem Open_invalid_geometry (CPL_LSB : bool) (oi : GDALOpenInfo) (w : World) :
  Identify oi = true ->
  let hdr := pabyHeader oi in
  let nWidth := fst (Open_dimensions CPL_LSB hdr) in
  let nHeight := snd (Open_dimensions CPL_LSB hdr) in
  let iPixelSize := GDALGetDataTypeSizeBytes (Open_eDataType hdr) in
  CInt.to_int nWidth <= 0 \/ CInt.to_int nHeight <= 0 \/
    CInt.INT_MAX < nWidth * iPixelSize ->
  exists fp oi' w' report poDS,
    fpL oi = Some fp /\
    Open CPL_LSB oi w = (None, oi', w') /\
    fpL oi' = None /\
    err_class report = CE_Failure /\ err_no report = CPLE_AppDefined /\
    fpImage poDS = Some fp /\
    let reported :=
      VSI.CPLError (err_class report) (err_no report) (err_fmt report)
                   (err_args report) w in
    vsi_handles reported = vsi_handles w /\
    vsi_calls reported = vsi_calls w /\
    w' = LUMDataset_dtor poDS reported /\
    vsi_calls w' = S (vsi_calls w) /\
    vsi_handles w' = delete fp (vsi_handles w) /\
    vsi_handles w' !! fp = None /\
    vsi_files w' = vsi_files w /\
    cpl_errors w' =
      match Phase.outcome w 0 with
      | IO_ok => []
      | IO_fail _ => [mkEvent CE_Failure CPLE_FileIO "I/O error" []]
      end ++ report :: cpl_errors w.
Proof.
  intros Hid. cbv zeta. intros Hbad.
  assert (Hfp : exists fp, fpL oi = Some fp).
  { rewrite Identify_existsb, andb_true_iff, negb_true_iff, orb_false_iff in Hid.
    destruct Hid as [[_ Hn] _]. destruct (fpL oi) as [fp|]; [eauto|discriminate]. }
  destruct Hfp as [fp Hfp].
  destruct (Open_None_geometry CPL_LSB oi w fp Hid Hfp Hbad)
    as (e & poDS & Hds & Hc & Hn & Hopen).
  set (reported := VSI.CPLError (err_class e) (err_no e) (err_fmt e)
                                (err_args e) w) in *.
  pose proof (LUMDataset_dtor_closes poDS reported) as Hd. cbv zeta in Hd.
  rewrite Hds in Hd. destruct Hd as (Hfiles & Hhandles & Hcalls & Hlog).
  exists fp, (take_stream oi), (LUMDataset_dtor poDS reported), e, poDS.
  split; [exact Hfp|]. split; [exact Hopen|]. split; [reflexivity|].
  split; [exact Hc|]. split; [exact Hn|]. split; [exact Hds|].
  split; [reflexivity|]. split; [reflexivity|]. split; [reflexivity|].
  split; [exact Hcalls|]. split; [exact Hhandles|].
  split; [rewrite Hhandles; apply lookup_delete_eq|].
  split; [exact Hfiles|].
  rewrite Hlog. subst reported. unfold Phase.outcome. cbn.
  destruct e as [c n f a]. cbn.
  destruct (vsi_faults w (vsi_calls w + 0)); reflexivity.
Qed.

Lemma Open_invalid_geometry_witness :
  exists fp oi' w' report poDS,
    fpL (Examples.probe Examples.header_0x3_08LI) = Some fp /\
    Open true (Examples.probe Examples.header_0x3_08LI)
         (Samples.world_close_fails Examples.header_0x3_08LI) = (None, oi', w') /\
    fpL oi' = None /\
    err_class report = CE_Failure /\ err_no report = CPLE_AppDefined /\
    fpImage poDS = Some fp /\
    let reported :=
      VSI.CPLError (err_class report) (err_no report) (err_fmt report)
                   (err_args report)
                   (Samples.world_close_fails Examples.header_0x3_08LI) in
    vsi_handles reported =
      vsi_handles (Samples.world_close_fails Examples.header_0x3_08LI) /\
    vsi_calls reported = 0%nat /\
    w' = LUMDataset_dtor poDS reported /\
    vsi_calls w' = 1%nat /\
    vsi_handles w' =
      delete fp (vsi_handles (Samples.world_close_fails Examples.header_0x3_08LI)) /\
    vsi_handles w' !! fp = None /\
    vsi_files w' =
      vsi_files (Samples.world_close_fails Examples.header_0x3_08LI) /\
    cpl_errors w' =
      [mkEvent CE_Failure CPLE_FileIO "I/O error" []] ++ report :: [].
Proof.
  apply (Open_invalid_geometry true (Examples.probe Examples.header_0x3_08LI)
           (Samples.world_close_fails Examples.header_0x3_08LI)).
  - vm_compute. reflexivity.
  - left. vm_compute. discriminate.
Defined.

(** C6, as stated, fails: the release does not precede the report. For the
    header of width 0 on a stream whose close fails, the log [Open] leaves
    has the "Invalid dimensions" report older than the "I/O error" of the
    close, so the world it returns is not the one reached by releasing the
    stream and then reporting. *)
Lemma Open_reports_before_release :
  ~ (forall (CPL_LSB : bool) oi w,
       Identify oi = true ->
       CInt.to_int (fst (Open_dimensions CPL_LSB (pabyHeader oi))) <= 0 ->
       exists poDS report,
         fpImage poDS = fpL oi /\
         snd (Open CPL_LSB oi w) = Spec.release_then_report poDS report w).
Proof.
  intros claim.
  destruct (claim true (Examples.probe Examples.header_0x3_08LI)
                  (Samples.world_close_fails Examples.header_0x3_08LI))
    as (poDS & report & Hfp & Heq).
  - vm_compute. reflexivity.
  - vm_compute. discriminate.
  - apply (f_equal cpl_errors) in Heq.
    unfold Spec.release_then_report, LUMDataset_dtor in Heq.
    rewrite Hfp in Heq. vm_compute in Heq.
    inversion Heq.
Qed.

(** C9. Every dataset [Open] returns has its transform flag set, and
    [GetGeoTransform] on it returns [CE_None] and writes exactly
    [0, 1, 0, 0, 0, 1] over the first six cells of the caller's buffer;
    the accessor does not modify the dataset, so the flag stays set. A
    [CE_Failure] from the accessor means the flag is clear, which no
    dataset returned by [Open] has; the freshly constructed adapter is such
    a case. *)
Theorem GetGeoTransform_identity (CPL_LSB : bool) (oi : GDALOpenInfo) (w : World)
        (ds : LUMDataset) (oi' : GDALOpenInfo) (w' : World) :
  Open CPL_LSB oi w = (Some ds, oi', w') ->
  bGeoTransformValid ds = true /\
  (forall buf, GetGeoTransform ds buf =
               (CE_None, Spec.identity_geotransform ++ skipn 6 buf)) /\
  (forall ds0 buf, fst (GetGeoTransform ds0 buf) = CE_Failure ->
                   bGeoTransformValid ds0 = false /\ ds0 <> ds) /\
  (forall buf, GetGeoTransform LUMDataset_ctor buf = (CE_Failure, buf)).
Proof.
  intros H. apply Open_Some in H. destruct H as (fp & H). cbv zeta in H.
  destruct H as (_ & _ & _ & _ & _ & Hds & _).
  assert (Hflag : bGeoTransformValid ds = true) by (subst ds; reflexivity).
  split; [exact Hflag|]. split; [|split].
  - intros buf. unfold GetGeoTransform. rewrite Hflag. subst ds. reflexivity.
  - intros ds0 buf Hfail. unfold GetGeoTransform in Hfail.
    destruct (bGeoTransformValid ds0) eqn:E; [discriminate|].
    split; [reflexivity|]. intros ->. congruence.
  - intros buf. reflexivity.
Qed.

Lemma GetGeoTransform_identity_witness :
  exists ds,
    fst (fst (Open true (Examples.probe Examples.header_4x3_08LI)
                   (Examples.world_of Examples.header_4x3_08LI))) = Some ds /\
    GetGeoTransform ds (repeat d0_0 6) = (CE_None, [d0_0; d1_0; d0_0; d0_0; d0_0; d1_0]).
Proof.
  destruct (Open true (Examples.probe Examples.header_4x3_08LI)
                 (Examples.world_of Examples.header_4x3_08LI))
    as [[ods oi'] w'] eqn:E.
  assert (Hsome : exists ds, ods = Some ds).
  { vm_compute in E. inversion E. eauto. }
  destruct Hsome as [ds ->]. exists ds. split; [reflexivity|].
  destruct (GetGeoTransform_identity true _ _ ds oi' w' E) as (_ & Hget & _).
  rewrite Hget. reflexivity.
Defined.

(** What the band of a successfully opened file is given: the width
    times the pixel size as its image offset, the same value as its line
    stride, and the pixel size as its pixel stride; it shares the dataset's
    stream without owning it. *)
Lemma Open_band_arguments (CPL_LSB : bool) (oi : GDALOpenInfo) (w : World)
        (ds : LUMDataset) (oi' : GDALOpenInfo) (w' : World) :
  Open CPL_LSB oi w = (Some ds, oi', w') ->
  exists b,
    papoBands ds = [b] /\
    let iPixelSize := GDALGetDataTypeSizeBytes (eDataType b) in
    (iPixelSize = 1 \/ iPixelSize = 2) /\
    nImgOffset b = nRasterXSize ds * iPixelSize /\
    nPixelOffset b = iPixelSize /\
    nLineOffset b = nRasterXSize ds * iPixelSize /\
    fpRaw b = fpImage ds /\ bOwnsFP b = OwnFP_NO /\
    eInterp b = GCI_GrayIndex.
Proof.
  intros H. apply Open_Some in H. destruct H as (fp & H). cbv zeta in H.
  destruct H as (_ & _ & Hw & _ & Hov & Hds & _). subst ds.
  eexists. split; [reflexivity|].
  cbn [eDataType nImgOffset nPixelOffset nLineOffset fpRaw bOwnsFP eInterp
       nRasterXSize fpImage].
  destruct (Open_dimensions_range CPL_LSB (pabyHeader oi)) as [Rw _].
  set (nW := fst (Open_dimensions CPL_LSB (pabyHeader oi))) in *.
  rewrite (to_int_pos _ Rw Hw) in *.
  assert (Hp := Open_eDataType_size (pabyHeader oi)).
  remember (GDALGetDataTypeSizeBytes (Open_eDataType (pabyHeader oi))) as p eqn:Ep.
  assert (Hprod : 0 <= nW * p <= CInt.INT_MAX).
  { destruct (Z_le_gt_dec (nW * p) CInt.INT_MAX) as [Hle | Hgt].
    - unfold CInt.is_uint32 in Rw. destruct Hp as [E | E]; rewrite E in *; lia.
    - apply Z.gt_lt, (overflow_test nW p Hp) in Hgt.
      rewrite Z.gtb_ltb in Hgt. apply Z.ltb_lt in Hgt. lia. }
  cbv zeta. split; [exact Hp|].
  split.
  - apply wrap32_small. unfold CInt.is_uint32, CInt.INT_MAX in *. lia.
  - split; [reflexivity|]. split; [|repeat split].
    apply to_int_of_int. unfold CInt.is_int, CInt.INT_MIN, CInt.INT_MAX in *. lia.
Qed.

(** C2 fails on the code. The header is 12 bytes long for [Identify]
    (line 116) and for [Create] (lines 344-369), but [Open] hands its band
    the line stride as image offset (line 249). For the 4 x 3 file with
    8-bit samples [Open] succeeds and the band has image offset 4, pixel
    stride 1 and line stride 4: its first row is read from bytes 4 to 7,
    the height field, and not from byte 12 on. A big-endian build gives
    the 4 x 3 file with 16-bit samples the offset 8. So it is not the case
    that every opened band starts at byte 12. *)
Theorem Open_band_offset_not_12 :
  (exists ds b,
     Open true (Examples.probe Examples.header_4x3_08LI)
          (Examples.world_of Examples.header_4x3_08LI)
     = (Some ds, take_stream (Examples.probe Examples.header_4x3_08LI),
        Examples.world_of Examples.header_4x3_08LI) /\
     papoBands ds = [b] /\
     nImgOffset b = 4 /\ nPixelOffset b = 1 /\ nLineOffset b = 4 /\
     nImgOffset b < 12) /\
  (exists ds b,
     fst (fst (Open false (Examples.probe Examples.header_4x3_12BI)
                    (Examples.world_of Examples.header_4x3_12BI))) = Some ds /\
     papoBands ds = [b] /\
     nImgOffset b = 8 /\ nPixelOffset b = 2 /\ nLineOffset b = 8) /\
  ~ (forall (CPL_LSB : bool) oi w ds oi' w' b,
       Open CPL_LSB oi w = (Some ds, oi', w') ->
       In b (papoBands ds) ->
       nImgOffset b = 12).
Proof.
  split; [|split].
  - destruct (Open true (Examples.probe Examples.header_4x3_08LI)
                   (Examples.world_of Examples.header_4x3_08LI))
      as [[ods oi'] w'] eqn:E.
    assert (Hsome : exists ds, ods = Some ds /\ nRasterXSize ds = 4 /\
                               map eDataType (papoBands ds) = [GDT_Byte])
      by (vm_compute in E; inversion E; eexists; repeat split).
    destruct Hsome as (ds & -> & Hx & Ht).
    destruct (Open_band_arguments true _ _ ds oi' w' E) as (b & Hb & Hlay).
    destruct (Open_Some true _ _ ds oi' w' E) as (fp & HS). cbv zeta in HS.
    destruct HS as (_ & _ & _ & _ & _ & _ & -> & ->).
    rewrite Hb in Ht. inversion Ht as [Hty]. cbv zeta in Hlay.
    rewrite Hty, Hx in Hlay. destruct Hlay as (_ & Hoff & Hpix & Hline & _).
    exists ds, b. change (4 * GDALGetDataTypeSizeBytes GDT_Byte) with 4 in *.
    change (GDALGetDataTypeSizeBytes GDT_Byte) with 1 in *.
    repeat split; try assumption. rewrite Hoff. reflexivity.
  - destruct (Open false (Examples.probe Examples.header_4x3_12BI)
                   (Examples.world_of Examples.header_4x3_12BI))
      as [[ods oi'] w'] eqn:E.
    assert (Hsome : exists ds, ods = Some ds /\ nRasterXSize ds = 4 /\
                               map eDataType (papoBands ds) = [GDT_UInt16])
      by (vm_compute in E; inversion E; eexists; repeat split).
    destruct Hsome as (ds & -> & Hx & Ht).
    destruct (Open_band_arguments false _ _ ds oi' w' E) as (b & Hb & Hlay).
    rewrite Hb in Ht. inversion Ht as [Hty]. cbv zeta in Hlay.
    rewrite Hty, Hx in Hlay. destruct Hlay as (_ & Hoff & Hpix & Hline & _).
    exists ds, b. repeat split; assumption.
  - intros claim.
    pose proof (claim true (Examples.probe Examples.header_4x3_08LI)
                      (Examples.world_of Examples.header_4x3_08LI)) as H.
    vm_compute in H.
    specialize (H _ _ _ _ eq_refl (or_introl eq_refl)).
    discriminate H.
Qed.

(** ** Lemmas: the file layer, call by call *)

Section FileLayerFacts.

Lemma alter_present {A} (f : A -> A) (m : gmap string A) i x :
  m !! i = Some x -> alter f i m = <[i := f x]> m.
Proof.
  intros H. apply map_eq. intros j.
  destruct (decide (i = j)) as [<- | Hne].
  - now rewrite lookup_alter_eq, lookup_insert_eq, H.
  - now rewrite lookup_alter_ne, lookup_insert_ne.
Qed.

Lemma VSIFOpenL_wb_ok name fs hs nx fa c es :
  fa c = IO_ok ->
  VSI.VSIFOpenL_wb name (mkWorld fs hs nx fa c es) =
  (Some nx, mkWorld (<[name := []]> fs) (<[nx := name]> hs) (S nx) fa (S c) es).
Proof. intros H. unfold VSI.VSIFOpenL_wb, VSI.io_next. cbn. now rewrite H. Qed.

Lemma VSIFOpenL_wb_fail name fs hs nx fa c es k :
  fa c = IO_fail k ->
  VSI.VSIFOpenL_wb name (mkWorld fs hs nx fa c es) =
  (None, mkWorld fs hs nx fa (S c) es).
Proof. intros H. unfold VSI.VSIFOpenL_wb, VSI.io_next. cbn. now rewrite H. Qed.

Lemma VSIFWriteL_open data fp name content fs hs nx fa c es :
  hs !! fp = Some name -> fs !! name = Some content ->
  VSI.VSIFWriteL data fp (mkWorld fs hs nx fa c es) =
  (Phase.write_result (fa c),
   mkWorld (<[name := content ++ VSI.written (fa c) data]> fs) hs nx fa (S c) es).
Proof.
  intros Hh Hf. unfold VSI.VSIFWriteL, VSI.io_next, VSI.set_files. cbn.
  rewrite Hh. rewrite (alter_present _ _ _ _ Hf). reflexivity.
Qed.

Lemma VSIFCloseL_mk fp fs hs nx fa c es :
  VSI.VSIFCloseL fp (mkWorld fs hs nx fa c es) =
  (match fa c with IO_ok => 0 | IO_fail _ => -1 end,
   mkWorld fs (delete fp hs) nx fa (S c) es).
Proof. reflexivity. Qed.

Lemma length_written o data :
  (length (VSI.written o data) <= length data)%nat.
Proof.
  destruct o as [|k]; cbn [VSI.written]; [lia|]. rewrite length_firstn. lia.
Qed.

(** A write that left as many bytes as it was given left them all,
    whatever it reported. *)
Lemma written_full o data :
  (length data <= length (VSI.written o data))%nat -> VSI.written o data = data.
Proof.
  destruct o as [|k]; cbn [VSI.written]; [reflexivity|].
  rewrite length_firstn. intros H. apply firstn_all2. lia.
Qed.

End FileLayerFacts.

Section CreateFacts.

Variable CPL_LSB : bool.
Variable CPLGetExtension : string -> string.

Lemma supported_passes eType :
  Spec.supported eType ->
  negb (bool_decide (eType = GDT_Byte)) &&
  negb (bool_decide (eType = GDT_UInt16)) = false.
Proof. intros [-> | ->]; reflexivity. Qed.

Lemma unsupported_fails eType :
  ~ Spec.supported eType ->
  negb (bool_decide (eType = GDT_Byte)) &&
  negb (bool_decide (eType = GDT_UInt16)) = true.
Proof.
  unfold Spec.supported. intros H.
  destruct eType; try reflexivity; exfalso; apply H; auto.
Qed.

Lemma warn_extension_fields name w :
  exists es,
    Phase.warn_extension CPLGetExtension name w =
    mkWorld (vsi_files w) (vsi_handles w) (vsi_next w) (vsi_faults w)
            (vsi_calls w) (es ++ cpl_errors w) /\
    (es = [] \/ exists e, es = [e] /\ err_class e = CE_Warning).
Proof.
  unfold Phase.warn_extension.
  destruct (negb _).
  - eexists [_]. split; [reflexivity|]. right. eexists. split; reflexivity.
  - exists []. split; [destruct w; reflexivity | now left].
Qed.

(** [Create] past its argument checks, for every outcome of its I/O. *)
Lemma Create_valid name nXSize nYSize eType opts w :
  Spec.supported eType ->
  let w0 := Phase.warn_extension CPLGetExtension name w in
  let o := Phase.outcome w in
  Create CPL_LSB CPLGetExtension name nXSize nYSize 1 eType opts w =
  match o 0%nat with
  | IO_fail _ =>
      (None,
       VSI.CPLError CE_Failure CPLE_OpenFailed
         "Attempt to create file `%s' failed." [ArgStr name]
         (snd (VSI.io_next w0)))
  | IO_ok =>
      let content :=
        Phase.written_header CPL_LSB nXSize nYSize eType
                             (o 1%nat) (o 2%nat) (o 3%nat) in
      let w4 := Phase.after_close name content w0 in
      match o 3%nat, o 4%nat with
      | IO_ok, IO_ok => Phase.reopen CPL_LSB name w4
      | _, _ => (None, w4)
      end
  end.
Proof.
  intros Hsup. cbv zeta. unfold Create.
  rewrite (supported_passes _ Hsup). cbn [negb Z.eqb Pos.eqb].
  fold (Phase.warn_extension CPLGetExtension name w).
  destruct (warn_extension_fields name w) as (es & -> & _).
  unfold Phase.outcome, Phase.after_close, Phase.written_header.
  destruct w as [fs hs nx fa c es0]. cbn [vsi_files vsi_handles vsi_next vsi_faults vsi_calls cpl_errors].
  replace (c + 0)%nat with c by lia.
  replace (c + 1)%nat with (S c) by lia.
  replace (c + 2)%nat with (S (S c)) by lia.
  replace (c + 3)%nat with (S (S (S c))) by lia.
  replace (c + 4)%nat with (S (S (S (S c)))) by lia.
  replace (c + 5)%nat with (S (S (S (S (S c))))) by lia.
  destruct (fa c) as [|k0] eqn:E0.
  - rewrite (VSIFOpenL_wb_ok _ _ _ _ _ _ _ E0).
    do 3 (erewrite (VSIFWriteL_open _ nx name);
          [| apply lookup_insert_eq | apply lookup_insert_eq];
          rewrite insert_insert_eq).
    rewrite VSIFCloseL_mk. rewrite delete_insert_eq.
    rewrite <- !app_assoc. cbn [app].
    fold (Phase.reopen CPL_LSB name).
    destruct (fa (S (S (S c)))) eqn:E3; destruct (fa (S (S (S (S c))))) eqn:E4;
      reflexivity.
  - rewrite (VSIFOpenL_wb_fail _ _ _ _ _ _ _ _ E0). reflexivity.
Qed.

End CreateFacts.

(** ** Lemmas: the probe record and the re-open *)

Section ProbeFacts.

Lemma GDALOpenInfo_ctor_ok name acc content fs hs nx fa c es :
  fa c = IO_ok -> fa (S c) = IO_ok -> fs !! name = Some content ->
  GDALOpenInfo_ctor name acc (mkWorld fs hs nx fa c es) =
  (mkOpenInfo name acc (Z.of_nat (length (firstn 1024 content)))
              (firstn 1024 content) (Some nx),
   mkWorld fs (<[nx := name]> hs) (S nx) fa (S (S c)) es).
Proof.
  intros H0 H1 Hf. unfold GDALOpenInfo_ctor, VSI.io_next, VSI.alloc. cbn.
  rewrite H0, Hf. cbn. rewrite H1. reflexivity.
Qed.

(** The probe record never reports more header bytes than the file has,
    and leaves the files alone. *)
Lemma GDALOpenInfo_ctor_bound name acc w :
  let r := GDALOpenInfo_ctor name acc w in
  vsi_files (snd r) = vsi_files w /\
  cpl_errors (snd r) = cpl_errors w /\
  (forall content, vsi_files w !! name = Some content ->
     nHeaderBytes (fst r) <= Z.of_nat (length content)).
Proof.
  cbv zeta. unfold GDALOpenInfo_ctor, VSI.io_next, VSI.alloc. cbn.
  destruct (vsi_faults w (vsi_calls w)); cbn.
  - destruct (vsi_files w !! name) as [content|] eqn:Hf; cbn.
    + destruct (vsi_faults w (S (vsi_calls w))); cbn; repeat split;
        intros c' Hc'; inversion Hc'; subst;
        rewrite ?length_firstn; lia.
    + repeat split. intros c' Hc'. discriminate.
  - repeat split. intros c' Hc'. lia.
Qed.

Lemma Identify_short oi : nHeaderBytes oi < 12 -> Identify oi = false.
Proof.
  intros H. unfold Identify.
  destruct (Z.ltb_spec (nHeaderBytes oi) 12); [reflexivity | lia].
Qed.

Lemma GDALOpenInfo_dtor_files oi w :
  vsi_files (GDALOpenInfo_dtor oi w) = vsi_files w /\
  cpl_errors (GDALOpenInfo_dtor oi w) = cpl_errors w.
Proof.
  unfold GDALOpenInfo_dtor. destruct (fpL oi); [|split; reflexivity].
  split; apply VSIFCloseL_world.
Qed.

Lemma LUMDataset_dtor_files poDS w :
  vsi_files (LUMDataset_dtor poDS w) = vsi_files w.
Proof.
  destruct (fpImage poDS) as [fp|] eqn:E.
  - apply (LUMDataset_dtor_world poDS fp w E).
  - unfold LUMDataset_dtor. now rewrite E.
Qed.

(** [Open] never writes to a file. *)
Lemma Open_files lsb oi w :
  vsi_files (snd (Open lsb oi w)) = vsi_files w.
Proof.
  unfold Open.
  destruct (negb (Identify oi)); [reflexivity|].
  destruct (fpL oi); [|reflexivity].
  destruct (Open_dimensions lsb (pabyHeader oi)) as [nW nH].
  cbn [nRasterXSize nRasterYSize].
  destruct (_ || _); cbn [snd].
  - now rewrite LUMDataset_dtor_files.
  - destruct (_ >? _); cbn [snd]; [|reflexivity].
    now rewrite LUMDataset_dtor_files.
Qed.

Lemma reopen_files lsb name w :
  vsi_files (snd (Phase.reopen lsb name w)) = vsi_files w.
Proof.
  unfold Phase.reopen.
  destruct (GDALOpenInfo_ctor_bound name GA_Update w) as (Hf & _ & _).
  destruct (GDALOpenInfo_ctor name GA_Update w) as [oi w1]. cbn [snd] in Hf.
  pose proof (Open_files lsb oi w1) as Ho.
  destruct (Open lsb oi w1) as [[ods oi'] w2]. cbn [snd] in Ho |- *.
  rewrite (proj1 (GDALOpenInfo_dtor_files oi' w2)). congruence.
Qed.

(** A file shorter than the header cannot be re-opened. *)
Lemma reopen_short lsb name content w :
  vsi_files w !! name = Some content -> (length content < 12)%nat ->
  fst (Phase.reopen lsb name w) = None.
Proof.
  intros Hf Hlen. unfold Phase.reopen.
  destruct (GDALOpenInfo_ctor_bound name GA_Update w) as (_ & _ & Hb).
  specialize (Hb content Hf).
  destruct (GDALOpenInfo_ctor name GA_Update w) as [oi w1]. cbn [fst] in Hb.
  rewrite (Open_rejects lsb oi w1); [reflexivity|].
  apply Identify_short. lia.
Qed.

Lemma Open_succeeds lsb oi w fp :
  Identify oi = true -> fpL oi = Some fp ->
  let hdr := pabyHeader oi in
  let nWidth := fst (Open_dimensions lsb hdr) in
  let nHeight := snd (Open_dimensions lsb hdr) in
  let eDataType := Open_eDataType hdr in
  let iPixelSize := GDALGetDataTypeSizeBytes eDataType in
  0 < CInt.to_int nWidth -> 0 < CInt.to_int nHeight ->
  nWidth * iPixelSize <= CInt.INT_MAX ->
  Open lsb oi w =
  (Some (mkDS (Some fp) true [d0_0; d1_0; d0_0; d0_0; d0_0; d1_0]
              (CInt.to_int nWidth) (CInt.to_int nHeight) (eAccess oi)
              [mkBand 1 (Some fp) (CInt.wrap32 (nWidth * iPixelSize))
                      iPixelSize (CInt.to_int (nWidth * iPixelSize))
                      eDataType (Open_bMSBFirst lsb hdr) OwnFP_NO
                      GCI_GrayIndex]
              (pszFilename oi)),
   take_stream oi, w).
Proof.
  intros Hid Hfp. cbv zeta. intros Hw Hh Hprod.
  apply Z.leb_gt in Hw, Hh.
  assert (Hle : (fst (Open_dimensions lsb (pabyHeader oi)) >? CInt.wrap32
            (CInt.INT_MAX ÷ GDALGetDataTypeSizeBytes (Open_eDataType (pabyHeader oi))))
           = false).
  { destruct (_ >? _) eqn:E; [|reflexivity].
    apply overflow_test in E; [lia | apply Open_eDataType_size]. }
  unfold Open. rewrite Hid, Hfp. cbn [negb].
  destruct (Open_dimensions lsb (pabyHeader oi)) as [nW nH].
  cbn [fst snd nRasterXSize nRasterYSize] in *.
  rewrite Hw, Hh. cbn [orb]. rewrite Hle. reflexivity.
Qed.

End ProbeFacts.

Section HeaderFacts.

Variable CPL_LSB : bool.

Lemma store_u32_explicit v :
  exists b0 b1 b2 b3, Mem.store_u32 CPL_LSB v = [b0; b1; b2; b3].
Proof.
  unfold Mem.store_u32. destruct CPL_LSB; cbn [le_split rev app]; eauto.
Qed.

Lemma Create_szHeader_text t :
  Spec.supported t ->
  Create_szHeader CPL_LSB t =
  list_byte_of_string
    (Spec.depth_text t ++ Spec.order_text (Spec.native_order CPL_LSB)).
Proof. intros [-> | ->]; destruct CPL_LSB; vm_compute; reflexivity. Qed.

Lemma length_header nW nH t : length (Spec.header CPL_LSB nW nH t) = 12%nat.
Proof.
  unfold Spec.header. rewrite !length_app, !length_store_u32.
  destruct t, CPL_LSB; reflexivity.
Qed.

(** What [Identify] and the parse phase of [Open] read from a header in
    the host's own order. *)
Lemma header_parse nW nH t name acc fp :
  Spec.supported t -> CInt.is_uint32 nW -> CInt.is_uint32 nH ->
  let hdr := Spec.header CPL_LSB nW nH t in
  Identify (mkOpenInfo name acc 12 hdr (Some fp)) = true /\
  Open_dimensions CPL_LSB hdr = (nW, nH) /\
  Open_eDataType hdr = t /\
  Open_bMSBFirst CPL_LSB hdr = true.
Proof.
  intros Hsup HW HH. cbv zeta.
  assert (Hw : Mem.load_u32 CPL_LSB (Mem.store_u32 CPL_LSB nW) = nW)
    by (rewrite load_store_u32; now apply wrap32_small).
  assert (Hh : Mem.load_u32 CPL_LSB (Mem.store_u32 CPL_LSB nH) = nH)
    by (rewrite load_store_u32; now apply wrap32_small).
  unfold Spec.header.
  destruct (store_u32_explicit nW) as (a0 & a1 & a2 & a3 & Ea).
  destruct (store_u32_explicit nH) as (c0 & c1 & c2 & c3 & Ec).
  rewrite Ea, Ec in *.
  unfold Open_dimensions, Open_bMSBFirst, Mem.u32_at.
  assert (Hforeign : tagged_foreign CPL_LSB
            ([a0; a1; a2; a3] ++ [c0; c1; c2; c3] ++
             list_byte_of_string
               (Spec.depth_text t ++ Spec.order_text (Spec.native_order CPL_LSB)))
          = false)
    by (destruct Hsup as [-> | ->]; destruct CPL_LSB; vm_compute; reflexivity).
  rewrite Hforeign.
  split; [destruct Hsup as [-> | ->]; destruct CPL_LSB; vm_compute; reflexivity|].
  split; [|split; [destruct Hsup as [-> | ->]; destruct CPL_LSB; vm_compute; reflexivity
                  | reflexivity]].
  change (Mem.sub _ (4 * 0) 4) with [a0; a1; a2; a3].
  change (Mem.sub _ (4 * 1) 4) with [c0; c1; c2; c3].
  now rewrite Hw, Hh.
Qed.

End HeaderFacts.

(** ** Lemmas: the error log is write-only *)

Section LogFrame.

Lemma with_log_same w : Phase.with_log (cpl_errors w) w = w.
Proof. destruct w. reflexivity. Qed.

Lemma frame_VSIFCloseL fp : Phase.log_frame (VSI.VSIFCloseL fp).
Proof. intros w. exists []. intros es. reflexivity. Qed.

Lemma frame_LUMDataset_dtor poDS :
  Phase.log_frame (fun w => (tt, LUMDataset_dtor poDS w)).
Proof.
  intros w. unfold LUMDataset_dtor.
  destruct (fpImage poDS) as [fp|].
  - unfold VSI.VSIFCloseL, VSI.io_next. cbn.
    destruct (vsi_faults w (vsi_calls w)); cbn.
    + exists []. reflexivity.
    + eexists [_]. reflexivity.
  - exists []. reflexivity.
Qed.

Lemma frame_GDALOpenInfo_ctor name acc :
  Phase.log_frame (GDALOpenInfo_ctor name acc).
Proof.
  intros w. exists []. intros es.
  unfold GDALOpenInfo_ctor, VSI.io_next, VSI.alloc. cbn.
  destruct (vsi_faults w (vsi_calls w)); [|reflexivity].
  destruct (vsi_files w !! name); [|reflexivity]. cbn.
  destruct (vsi_faults w (S (vsi_calls w))); reflexivity.
Qed.

Lemma frame_GDALOpenInfo_dtor oi :
  Phase.log_frame (fun w => (tt, GDALOpenInfo_dtor oi w)).
Proof.
  intros w. exists []. intros es. unfold GDALOpenInfo_dtor.
  destruct (fpL oi); reflexivity.
Qed.

Lemma frame_Open lsb oi : Phase.log_frame (Open lsb oi).
Proof.
  intros w. unfold Open.
  destruct (negb (Identify oi)); [exists []; reflexivity|].
  destruct (fpL oi) as [fp|]; [|exists []; reflexivity].
  destruct (Open_dimensions lsb (pabyHeader oi)) as [nW nH].
  cbn [nRasterXSize nRasterYSize].
  match goal with
  | |- context [LUMDataset_dtor ?d _] =>
      destruct (_ || _);
      [destruct (frame_LUMDataset_dtor d
                   (VSI.CPLError CE_Failure CPLE_AppDefined
                      "Invalid dimensions : %d x %d"
                      [ArgInt (CInt.to_int nW); ArgInt (CInt.to_int nH)] w))
         as [new Hnew];
       exists (new ++ [mkEvent CE_Failure CPLE_AppDefined
                         "Invalid dimensions : %d x %d"
                         [ArgInt (CInt.to_int nW); ArgInt (CInt.to_int nH)]]);
       intros es; specialize (Hnew (mkEvent CE_Failure CPLE_AppDefined
                         "Invalid dimensions : %d x %d"
                         [ArgInt (CInt.to_int nW); ArgInt (CInt.to_int nH)] :: es));
       cbn [fst snd] in Hnew |- *; inversion Hnew as [Hd];
       rewrite <- app_assoc; cbn [app];
       unfold VSI.CPLError in *; cbn in *; rewrite Hd; reflexivity
      |]
  end.
  destruct (_ >? _); [|exists []; reflexivity].
  match goal with
  | |- context [LUMDataset_dtor ?d _] =>
      destruct (frame_LUMDataset_dtor d
                  (VSI.CPLError CE_Failure CPLE_AppDefined
                     "Int overflow occurred." [] w))
        as [new Hnew];
      exists (new ++ [mkEvent CE_Failure CPLE_AppDefined
                        "Int overflow occurred." []]);
      intros es; specialize (Hnew (mkEvent CE_Failure CPLE_AppDefined
                        "Int overflow occurred." [] :: es));
      cbn [fst snd] in Hnew |- *; inversion Hnew as [Hd];
      rewrite <- app_assoc; cbn [app];
      unfold VSI.CPLError in *; cbn in *; rewrite Hd; reflexivity
  end.
Qed.

End LogFrame.

Section CreateOutcomes.

Variable CPL_LSB : bool.
Variable CPLGetExtension : string -> string.

Lemma length_Create_szHeader t : length (Create_szHeader CPL_LSB t) = 4%nat.
Proof.
  unfold Create_szHeader.
  destruct CPL_LSB; destruct (bool_decide (t = GDT_Byte)); reflexivity.
Qed.

Lemma written_ok data : VSI.written IO_ok data = data.
Proof. reflexivity. Qed.

(** With the three writes successful the file holds the 12-byte header. *)
Lemma written_header_ok nXSize nYSize t :
  Spec.supported t ->
  Phase.written_header CPL_LSB nXSize nYSize t IO_ok IO_ok IO_ok =
  Spec.header CPL_LSB (CInt.wrap32 nXSize) (CInt.wrap32 nYSize) t.
Proof.
  intros Hsup. unfold Phase.written_header, Spec.header.
  rewrite !written_ok, (Create_szHeader_text CPL_LSB t Hsup). reflexivity.
Qed.

(** Twelve bytes in the file are the whole header, whatever the three
    writes reported. *)
Lemma written_header_full nXSize nYSize t o1 o2 o3 :
  Spec.supported t ->
  (12 <= length (Phase.written_header CPL_LSB nXSize nYSize t o1 o2 o3))%nat ->
  Phase.written_header CPL_LSB nXSize nYSize t o1 o2 o3 =
  Spec.header CPL_LSB (CInt.wrap32 nXSize) (CInt.wrap32 nYSize) t.
Proof.
  intros Hsup. unfold Phase.written_header, Spec.header. rewrite !length_app.
  pose proof (length_written o1 (Mem.store_u32 CPL_LSB (CInt.wrap32 nXSize))) as L1.
  pose proof (length_written o2 (Mem.store_u32 CPL_LSB (CInt.wrap32 nYSize))) as L2.
  pose proof (length_written o3 (Create_szHeader CPL_LSB t)) as L3.
  rewrite length_store_u32 in L1, L2. rewrite length_Create_szHeader in L3.
  intros H12.
  rewrite (written_full o1), (written_full o2), (written_full o3);
    rewrite ?length_store_u32, ?length_Create_szHeader; try lia.
  rewrite (Create_szHeader_text CPL_LSB t Hsup). reflexivity.
Qed.

Lemma after_close_file name content w :
  vsi_files (Phase.after_close name content w) !! name = Some content.
Proof. unfold Phase.after_close. cbn. apply lookup_insert_eq. Qed.

Lemma warn_extension_files name w :
  vsi_files (Phase.warn_extension CPLGetExtension name w) = vsi_files w /\
  vsi_faults (Phase.warn_extension CPLGetExtension name w) = vsi_faults w /\
  vsi_calls (Phase.warn_extension CPLGetExtension name w) = vsi_calls w.
Proof.
  destruct (warn_extension_fields CPLGetExtension name w) as (es & -> & _).
  repeat split.
Qed.

(** With its five I/O calls successful, [Create] is the re-open of a
    world whose destination file holds the header. *)
Lemma Create_reliable name nXSize nYSize t opts w :
  Spec.supported t ->
  Spec.io_reliable_for 5 w ->
  let hdr := Spec.header CPL_LSB (CInt.wrap32 nXSize) (CInt.wrap32 nYSize) t in
  let r := Create CPL_LSB CPLGetExtension name nXSize nYSize 1 t opts w in
  vsi_files (snd r) = <[name := hdr]> (vsi_files w) /\
  exists w4,
    vsi_files w4 = <[name := hdr]> (vsi_files w) /\
    r = Phase.reopen CPL_LSB name w4.
Proof.
  intros Hsup Hio. cbv zeta.
  assert (Ho : forall i, (i < 5)%nat -> Phase.outcome w i = IO_ok)
    by (intros i Hi; apply Hio; lia).
  rewrite (Create_valid CPL_LSB CPLGetExtension name nXSize nYSize
                        t opts w Hsup).
  cbv zeta. rewrite !Ho by lia. rewrite (written_header_ok _ _ _ Hsup).
  destruct (warn_extension_files name w) as (Hf & _ & _).
  split.
  - rewrite reopen_files. unfold Phase.after_close. cbn. now rewrite Hf.
  - eexists. split; [|reflexivity]. unfold Phase.after_close. cbn. now rewrite Hf.
Qed.

End CreateOutcomes.

(** What [Create] itself checks: once the destination is open, a failed
    write of the tag or a failed close makes it return no dataset, whatever
    the two earlier writes did. *)
Lemma Create_checked_failure (CPL_LSB : bool) (CPLGetExtension : string -> string)
        (pszFilename : string) (nXSize nYSize : Z) (eType : GDALDataType)
        (papszOptions : list string) (w : World) :
  Spec.supported eType ->
  Phase.outcome w 0 = IO_ok ->
  Phase.failed (Phase.outcome w 3) \/ Phase.failed (Phase.outcome w 4) ->
  fst (Create CPL_LSB CPLGetExtension pszFilename nXSize nYSize 1 eType
              papszOptions w) = None.
Proof.
  intros Hsup Hopen Hfail.
  rewrite (Create_valid CPL_LSB CPLGetExtension pszFilename nXSize nYSize
                        eType papszOptions w Hsup).
  cbv zeta. rewrite Hopen.
  unfold Phase.failed in Hfail.
  destruct (Phase.outcome w 3) eqn:E3; [|reflexivity].
  destruct (Phase.outcome w 4) eqn:E4; [|reflexivity].
  destruct Hfail; congruence.
Qed.

(** What [Create] does not check is left to the re-open: when fewer than
    12 bytes have reached the file, [Open] rejects it. *)
Lemma Create_short_file_rejected (CPL_LSB : bool)
        (CPLGetExtension : string -> string)
        (pszFilename : string) (nXSize nYSize : Z) (eType : GDALDataType)
        (papszOptions : list string) (w : World) :
  Spec.supported eType ->
  Phase.outcome w 0 = IO_ok ->
  (length (Phase.written_header CPL_LSB nXSize nYSize eType
             (Phase.outcome w 1) (Phase.outcome w 2) (Phase.outcome w 3))
   < 12)%nat ->
  fst (Create CPL_LSB CPLGetExtension pszFilename nXSize nYSize 1 eType
              papszOptions w) = None.
Proof.
  intros Hsup Hopen Hshort.
  rewrite (Create_valid CPL_LSB CPLGetExtension pszFilename nXSize nYSize
                        eType papszOptions w Hsup).
  cbv zeta. rewrite Hopen.
  destruct (Phase.outcome w 3) eqn:E3; [|reflexivity].
  destruct (Phase.outcome w 4) eqn:E4; [|reflexivity].
  apply (reopen_short CPL_LSB pszFilename _ _ (after_close_file _ _ _)).
  exact Hshort.
Qed.

(** C3 fails on the code for the width and for the height. [Create] tests
    what the write of the tag returns (line 369) and what the close returns
    (line 371), but drops what the writes of the width and of the height
    return (lines 344-345). On a little-endian host, creating the 4 x 3
    8-bit file "test.lum" on a file layer that reports the write of the
    width as failed ([VSIFWriteL] returns 0) while the four bytes are in
    the file, [Create] returns a 4 x 3 dataset, not null; the same for the
    write of the height. The same report on the write of the tag or on the
    close does give null. *)
Theorem Create_unchecked_write_failure :
  let create :=
    Create true (fun _ => "lum"%string) "test.lum" 4 3 1 GDT_Byte [] in
  (Phase.write_result (Phase.outcome (Samples.world_misreporting_at 1) 1) = 0 /\
   exists ds,
     fst (create (Samples.world_misreporting_at 1)) = Some ds /\
     nRasterXSize ds = 4 /\ nRasterYSize ds = 3) /\
  (Phase.write_result (Phase.outcome (Samples.world_misreporting_at 2) 2) = 0 /\
   exists ds,
     fst (create (Samples.world_misreporting_at 2)) = Some ds /\
     nRasterXSize ds = 4 /\ nRasterYSize ds = 3) /\
  fst (create (Samples.world_misreporting_at 3)) = None /\
  fst (create (Samples.world_misreporting_at 4)) = None.
Proof.
  cbv zeta. split; [|split; [|split]].
  - split; [reflexivity|].
    destruct (Create true (fun _ => "lum"%string) "test.lum" 4 3 1 GDT_Byte []
                     (Samples.world_misreporting_at 1)) as [ods w'] eqn:E.
    vm_compute in E. inversion E. eexists. repeat split.
  - split; [reflexivity|].
    destruct (Create true (fun _ => "lum"%string) "test.lum" 4 3 1 GDT_Byte []
                     (Samples.world_misreporting_at 2)) as [ods w'] eqn:E.
    vm_compute in E. inversion E. eexists. repeat split.
  - apply Create_checked_failure.
    + left. reflexivity.
    + reflexivity.
    + left. vm_compute. discriminate.
  - apply Create_checked_failure.
    + left. reflexivity.
    + reflexivity.
    + right. vm_compute. discriminate.
Qed.

(** C8. With a supported pixel type, one band and working I/O, [Create]
    leaves in the destination exactly the 12-byte header: the width, then
    the height, each as the host stores a 32-bit integer, then the two
    depth characters ("08" for 8-bit, "12" for 16-bit) and "LI" on a
    little-endian host, "BI" otherwise; and what it returns is what
    re-opening that file in update mode through [Open] returns. *)
Theorem Create_writes_header_then_opens (CPL_LSB : bool)
        (CPLGetExtension : string -> string) (pszFilename : string)
        (nXSize nYSize : Z) (eType : GDALDataType) (papszOptions : list string)
        (w : World) :
  Spec.supported eType ->
  Spec.io_reliable_for 5 w ->
  let hdr := Spec.header CPL_LSB (CInt.wrap32 nXSize) (CInt.wrap32 nYSize) eType in
  let r := Create CPL_LSB CPLGetExtension pszFilename nXSize nYSize 1 eType
                  papszOptions w in
  length hdr = 12%nat /\
  Mem.load_u32 CPL_LSB (Mem.sub hdr 0 4) = CInt.wrap32 nXSize /\
  Mem.load_u32 CPL_LSB (Mem.sub hdr 4 4) = CInt.wrap32 nYSize /\
  skipn 8 hdr =
    list_byte_of_string
      ((match eType with GDT_Byte => "08" | _ => "12" end) ++
       (if CPL_LSB then "LI" else "BI")) /\
  vsi_files (snd r) = <[pszFilename := hdr]> (vsi_files w) /\
  exists w4,
    vsi_files w4 = <[pszFilename := hdr]> (vsi_files w) /\
    r = Phase.reopen CPL_LSB pszFilename w4.
Proof.
  intros Hsup Hio. cbv zeta.
  split; [apply length_header|].
  assert (Hparse : Mem.load_u32 CPL_LSB
            (Mem.sub (Spec.header CPL_LSB (CInt.wrap32 nXSize) (CInt.wrap32 nYSize) eType) 0 4)
            = CInt.wrap32 nXSize /\
          Mem.load_u32 CPL_LSB
            (Mem.sub (Spec.header CPL_LSB (CInt.wrap32 nXSize) (CInt.wrap32 nYSize) eType) 4 4)
            = CInt.wrap32 nYSize /\
          skipn 8 (Spec.header CPL_LSB (CInt.wrap32 nXSize) (CInt.wrap32 nYSize) eType) =
          list_byte_of_string
            ((match eType with GDT_Byte => "08" | _ => "12" end) ++
             (if CPL_LSB then "LI" else "BI"))).
  { pose proof (load_store_u32 CPL_LSB (CInt.wrap32 nXSize)) as Hw.
    pose proof (load_store_u32 CPL_LSB (CInt.wrap32 nYSize)) as Hh.
    rewrite (wrap32_small (CInt.wrap32 nXSize)) in Hw by apply wrap32_range.
    rewrite (wrap32_small (CInt.wrap32 nYSize)) in Hh by apply wrap32_range.
    unfold Spec.header.
    destruct (store_u32_explicit CPL_LSB (CInt.wrap32 nXSize)) as (a0 & a1 & a2 & a3 & Ea).
    destruct (store_u32_explicit CPL_LSB (CInt.wrap32 nYSize)) as (c0 & c1 & c2 & c3 & Ec).
    rewrite Ea, Ec in *.
    change (Mem.sub _ 0 4) with [a0; a1; a2; a3].
    change (Mem.sub _ 4 4) with [c0; c1; c2; c3].
    repeat split; try assumption.
    clear Ea Ec Hw Hh. destruct Hsup as [-> | ->]; destruct CPL_LSB; reflexivity. }
  destruct Hparse as (P1 & P2 & P3).
  split; [exact P1|]. split; [exact P2|]. split; [exact P3|].
  exact (Create_reliable CPL_LSB CPLGetExtension pszFilename nXSize nYSize
                         eType papszOptions w Hsup Hio).
Qed.

Lemma Create_writes_header_then_opens_witness :
  vsi_files (snd (Create true (fun _ => "lum"%string) "test.lum" 4 3 1
                         GDT_UInt16 [] Examples.empty_world))
  = <[ "test.lum"%string :=
        Spec.header true (CInt.wrap32 4) (CInt.wrap32 3) GDT_UInt16 ]> ∅.
Proof.
  apply (Create_writes_header_then_opens true (fun _ => "lum"%string)
           "test.lum" 4 3 GDT_UInt16 [] Examples.empty_world).
  - right. reflexivity.
  - intros k Hk. reflexivity.
Defined.

Section OpenWrittenFile.

Variable CPL_LSB : bool.

Lemma firstn_header nW nH t :
  firstn 1024 (Spec.header CPL_LSB nW nH t) = Spec.header CPL_LSB nW nH t.
Proof. apply firstn_all2. rewrite length_header. lia. Qed.

(** Probing a file that holds a native-order header, with the two I/O
    calls of the probe successful. *)
Lemma probe_header name acc nW nH t fs hs nx fa c es :
  fs !! name = Some (Spec.header CPL_LSB nW nH t) ->
  fa c = IO_ok -> fa (S c) = IO_ok ->
  GDALOpenInfo_ctor name acc (mkWorld fs hs nx fa c es) =
  (mkOpenInfo name acc 12 (Spec.header CPL_LSB nW nH t) (Some nx),
   mkWorld fs (<[nx := name]> hs) (S nx) fa (S (S c)) es).
Proof.
  intros Hf H0 H1.
  rewrite (GDALOpenInfo_ctor_ok name acc _ fs hs nx fa c es H0 H1 Hf).
  rewrite firstn_header, length_header. reflexivity.
Qed.

(** [Open] on such a probe record, for dimensions that fit. *)
Lemma Open_header_ok name acc nW nH t fp w :
  Spec.supported t ->
  0 < nW < 2 ^ 31 -> 0 < nH < 2 ^ 31 ->
  nW * GDALGetDataTypeSizeBytes t <= 2 ^ 31 - 1 ->
  let oi := mkOpenInfo name acc 12 (Spec.header CPL_LSB nW nH t) (Some fp) in
  exists ds,
    Open CPL_LSB oi w = (Some ds, take_stream oi, w) /\
    nRasterXSize ds = nW /\ nRasterYSize ds = nH /\
    map eDataType (papoBands ds) = [t] /\ length (papoBands ds) = 1%nat.
Proof.
  intros Hsup Hw Hh Hfit. cbv zeta.
  assert (RW : CInt.is_uint32 nW) by (unfold CInt.is_uint32; lia).
  assert (RH : CInt.is_uint32 nH) by (unfold CInt.is_uint32; lia).
  destruct (header_parse CPL_LSB nW nH t name acc fp Hsup RW RH)
    as (Hid & Hdim & Hty & Hord).
  cbv zeta in Hid, Hdim, Hty, Hord.
  assert (TW : CInt.to_int nW = nW)
    by (apply to_int_of_int; unfold CInt.is_int, CInt.INT_MIN, CInt.INT_MAX; lia).
  assert (TH : CInt.to_int nH = nH)
    by (apply to_int_of_int; unfold CInt.is_int, CInt.INT_MIN, CInt.INT_MAX; lia).
  eexists. split.
  - apply (Open_succeeds CPL_LSB _ w fp Hid eq_refl);
      cbn [pabyHeader]; rewrite Hdim; cbn [fst snd]; rewrite ?Hty;
      unfold CInt.INT_MAX; lia.
  - cbn [nRasterXSize nRasterYSize papoBands pabyHeader map eDataType length].
    rewrite Hdim, Hty. cbn [fst snd]. rewrite TW, TH. repeat split.
Qed.

(** [Open] on such a probe record, for a non-positive dimension. *)
Lemma Open_header_bad name acc nW nH t fp w :
  Spec.supported t ->
  CInt.is_uint32 nW -> CInt.is_uint32 nH ->
  CInt.to_int nW <= 0 \/ CInt.to_int nH <= 0 ->
  let oi := mkOpenInfo name acc 12 (Spec.header CPL_LSB nW nH t) (Some fp) in
  exists w', Open CPL_LSB oi w = (None, take_stream oi, w').
Proof.
  intros Hsup RW RH Hbad. cbv zeta.
  destruct (header_parse CPL_LSB nW nH t name acc fp Hsup RW RH)
    as (Hid & Hdim & _).
  cbv zeta in Hid, Hdim.
  edestruct (Open_None_geometry CPL_LSB _ w fp Hid eq_refl)
    as (e & poDS & _ & _ & _ & Hopen).
  - cbn [pabyHeader]. rewrite Hdim. cbn [fst snd]. tauto.
  - eexists. exact Hopen.
Qed.

End OpenWrittenFile.

(** C10. [Create] does not check the requested size: with a supported
    pixel type, one band, working I/O and a width or height that is zero or
    negative, it creates or truncates the destination, writes the full
    12-byte header, and only then returns no dataset because the re-open
    rejects the dimensions; the file with that header stays on disk. *)
Theorem Create_invalid_size_leaves_file (CPL_LSB : bool)
        (CPLGetExtension : string -> string) (pszFilename : string)
        (nXSize nYSize : Z) (eType : GDALDataType) (papszOptions : list string)
        (w : World) :
  Spec.supported eType ->
  CInt.is_int nXSize -> CInt.is_int nYSize ->
  nXSize <= 0 \/ nYSize <= 0 ->
  Spec.io_reliable_for 7 w ->
  let r := Create CPL_LSB CPLGetExtension pszFilename nXSize nYSize 1 eType
                  papszOptions w in
  let hdr := Spec.header CPL_LSB (CInt.wrap32 nXSize) (CInt.wrap32 nYSize) eType in
  fst r = None /\
  vsi_files (snd r) !! pszFilename = Some hdr /\
  length hdr = 12%nat /\
  (forall other, other <> pszFilename ->
                 vsi_files (snd r) !! other = vsi_files w !! other).
Proof.
  intros Hsup HX HY Hbad Hio. cbv zeta.
  assert (Ho : forall i, (i < 7)%nat -> Phase.outcome w i = IO_ok)
    by (intros i Hi; apply Hio; lia).
  pose proof (length_header CPL_LSB (CInt.wrap32 nXSize) (CInt.wrap32 nYSize) eType)
    as Hlen.
  destruct (Create_reliable CPL_LSB CPLGetExtension pszFilename
              nXSize nYSize eType papszOptions w Hsup)
    as (Hfiles & _).
  { intros k Hk. apply Hio. lia. }
  cbv zeta in Hfiles.
  split; [|split; [|split]].
  - rewrite (Create_valid CPL_LSB CPLGetExtension pszFilename nXSize nYSize
                          eType papszOptions w Hsup).
    cbv zeta. rewrite !Ho by lia. rewrite (written_header_ok _ _ _ _ Hsup).
    destruct (warn_extension_fields CPLGetExtension pszFilename w) as (es & -> & _).
    unfold Phase.after_close, Phase.reopen.
    cbn [vsi_files vsi_handles vsi_next vsi_faults vsi_calls cpl_errors].
    erewrite probe_header; [| apply lookup_insert_eq | | ].
    + edestruct (Open_header_bad CPL_LSB pszFilename GA_Update
                   (CInt.wrap32 nXSize) (CInt.wrap32 nYSize) eType) as [w' Hopen];
        [exact Hsup | apply wrap32_range | apply wrap32_range | | ].
      * rewrite !to_int_wrap32, !to_int_of_int by assumption. exact Hbad.
      * rewrite Hopen. reflexivity.
    + specialize (Ho 5%nat). unfold Phase.outcome in Ho. apply Ho. lia.
    + specialize (Ho 6%nat). unfold Phase.outcome in Ho.
      replace (S (vsi_calls w + 5)) with (vsi_calls w + 6)%nat by lia.
      apply Ho. lia.
  - rewrite Hfiles. apply lookup_insert_eq.
  - exact Hlen.
  - intros other Hne. rewrite Hfiles. now apply lookup_insert_ne.
Qed.

Lemma Create_invalid_size_leaves_file_witness :
  fst (Create true (fun _ => "lum"%string) "test.lum" 0 3 1 GDT_Byte []
              Examples.empty_world) = None /\
  vsi_files (snd (Create true (fun _ => "lum"%string) "test.lum" 0 3 1 GDT_Byte []
                         Examples.empty_world)) !! "test.lum"%string
  = Some Examples.header_0x3_08LI.
Proof.
  destruct (Create_invalid_size_leaves_file true (fun _ => "lum"%string)
              "test.lum" 0 3 GDT_Byte [] Examples.empty_world)
    as (Hnone & Hfile & _).
  - left. reflexivity.
  - unfold CInt.is_int, CInt.INT_MIN, CInt.INT_MAX. lia.
  - unfold CInt.is_int, CInt.INT_MIN, CInt.INT_MAX. lia.
  - left. lia.
  - intros k Hk. reflexivity.
  - split; [exact Hnone|]. rewrite Hfile. reflexivity.
Defined.

(** C1. Round trip. For a width and a height in (0, 2^31), an 8-bit or
    16-bit unsigned pixel type whose pixel size times the width stays within
    2^31 - 1, one band and working I/O, [Create] returns a dataset of
    exactly that width and height whose single band has exactly that pixel
    type, and opening the file it wrote, in either access mode, returns a
    dataset with the same width, height and band type. *)
Theorem Create_Open_roundtrip (CPL_LSB : bool) (CPLGetExtension : string -> string)
        (pszFilename : string) (width height : Z) (eType : GDALDataType)
        (papszOptions : list string) (acc : GDALAccess) (w : World) :
  0 < width < 2 ^ 31 -> 0 < height < 2 ^ 31 ->
  Spec.supported eType ->
  width * GDALGetDataTypeSizeBytes eType <= 2 ^ 31 - 1 ->
  Spec.io_reliable w ->
  exists ds w',
    Create CPL_LSB CPLGetExtension pszFilename width height 1 eType
           papszOptions w = (Some ds, w') /\
    nRasterXSize ds = width /\ nRasterYSize ds = height /\
    map eDataType (papoBands ds) = [eType] /\
    exists ds2,
      (let '(oi, w1) := GDALOpenInfo_ctor pszFilename acc w' in
       fst (fst (Open CPL_LSB oi w1))) = Some ds2 /\
      nRasterXSize ds2 = width /\ nRasterYSize ds2 = height /\
      map eDataType (papoBands ds2) = [eType].
Proof.
  intros Hw Hh Hsup Hfit Hio.
  assert (Ho : forall i, Phase.outcome w i = IO_ok)
    by (intros i; apply Hio; lia).
  assert (WW : CInt.wrap32 width = width)
    by (apply wrap32_small; unfold CInt.is_uint32; lia).
  assert (WH : CInt.wrap32 height = height)
    by (apply wrap32_small; unfold CInt.is_uint32; lia).
  rewrite (Create_valid CPL_LSB CPLGetExtension pszFilename width height
                        eType papszOptions w Hsup).
  cbv zeta. rewrite !Ho. rewrite (written_header_ok _ _ _ _ Hsup), WW, WH.
  destruct (warn_extension_fields CPLGetExtension pszFilename w) as (es & -> & _).
  unfold Phase.after_close, Phase.reopen.
  cbn [vsi_files vsi_handles vsi_next vsi_faults vsi_calls cpl_errors].
  unfold Phase.outcome in Ho.
  erewrite probe_header; [| apply lookup_insert_eq | | ].
  2: { apply (Ho 5%nat). }
  2: { replace (S (vsi_calls w + 5)) with (vsi_calls w + 6)%nat by lia. apply Ho. }
  match goal with
  | |- context [Open CPL_LSB ?oi ?w1] =>
      destruct (Open_header_ok CPL_LSB pszFilename GA_Update width height eType
                  (S (vsi_next w)) w1 Hsup Hw Hh Hfit)
        as (ds & Hopen & Hx & Hy & Hty & _)
  end.
  cbv zeta in Hopen. rewrite Hopen.
  unfold GDALOpenInfo_dtor. cbn [take_stream fpL].
  eexists ds, _. split; [reflexivity|].
  split; [exact Hx|]. split; [exact Hy|]. split; [exact Hty|].
  erewrite probe_header; [| apply lookup_insert_eq | | ].
  2: { replace (S (S (vsi_calls w + 5))) with (vsi_calls w + 7)%nat by lia. apply Ho. }
  2: { replace (S (S (S (vsi_calls w + 5)))) with (vsi_calls w + 8)%nat by lia. apply Ho. }
  match goal with
  | |- context [Open CPL_LSB ?oi ?w1] =>
      destruct (Open_header_ok CPL_LSB pszFilename acc width height eType
                  (S (S (vsi_next w))) w1 Hsup Hw Hh Hfit)
        as (ds2 & Hopen2 & Hx2 & Hy2 & Hty2 & _)
  end.
  cbv zeta in Hopen2. rewrite Hopen2. cbn [fst].
  exists ds2. repeat split; assumption.
Qed.

Lemma Create_Open_roundtrip_witness :
  exists ds w',
    Create true (fun _ => "lum"%string) "test.lum" 4 3 1 GDT_Byte []
           Examples.empty_world = (Some ds, w') /\
    nRasterXSize ds = 4 /\ nRasterYSize ds = 3 /\
    map eDataType (papoBands ds) = [GDT_Byte] /\
    exists ds2,
      (let '(oi, w1) := GDALOpenInfo_ctor "test.lum" GA_ReadOnly w' in
       fst (fst (Open true oi w1))) = Some ds2 /\
      nRasterXSize ds2 = 4 /\ nRasterYSize ds2 = 3 /\
      map eDataType (papoBands ds2) = [GDT_Byte].
Proof.
  apply (Create_Open_roundtrip true (fun _ => "lum"%string) "test.lum" 4 3
           GDT_Byte [] GA_ReadOnly Examples.empty_world).
  - lia.
  - lia.
  - left. reflexivity.
  - vm_compute. discriminate.
  - intros k Hk. reflexivity.
Defined.

Section ExtensionIndependence.

Variable CPL_LSB : bool.

Lemma frame_reopen name : Phase.log_frame (Phase.reopen CPL_LSB name).
Proof.
  intros w. unfold Phase.reopen.
  destruct (frame_GDALOpenInfo_ctor name GA_Update w) as [n1 H1].
  destruct (GDALOpenInfo_ctor name GA_Update w) as [oi w1] eqn:E1.
  destruct (frame_Open CPL_LSB oi w1) as [n2 H2].
  destruct (Open CPL_LSB oi w1) as [[ods oi'] w2] eqn:E2.
  destruct (frame_GDALOpenInfo_dtor oi' w2) as [n3 H3].
  exists (n3 ++ n2 ++ n1). intros es.
  rewrite H1. cbn [fst snd]. rewrite H2. cbn [fst snd].
  specialize (H3 (n2 ++ n1 ++ es)). cbn [fst snd] in H3.
  inversion H3 as [H3']. rewrite H3'. cbn [fst snd].
  rewrite <- !app_assoc. reflexivity.
Qed.

(** The extension decides one thing only: whether the warning is in the
    log. Everything else [Create] returns or does is the same for every
    extension helper. *)
Lemma Create_extension_frame name nXSize nYSize eType opts w :
  Spec.supported eType ->
  exists new res fs hs,
    forall ext,
      let r := Create CPL_LSB ext name nXSize nYSize 1 eType opts w in
      fst r = res /\ vsi_files (snd r) = fs /\ vsi_handles (snd r) = hs /\
      cpl_errors (snd r) = new ++ cpl_errors (Phase.warn_extension ext name w).
Proof.
  intros Hsup.
  set (content := Phase.written_header CPL_LSB nXSize nYSize eType
                    (Phase.outcome w 1) (Phase.outcome w 2) (Phase.outcome w 3)).
  set (W := Phase.after_close name content w).
  assert (HW : forall ext,
             Phase.after_close name content (Phase.warn_extension ext name w) =
             Phase.with_log (cpl_errors (Phase.warn_extension ext name w)) W).
  { intros ext.
    destruct (warn_extension_fields ext name w) as (es & -> & _). reflexivity. }
  destruct (frame_reopen name W) as [new Hnew].
  destruct (Phase.outcome w 0) eqn:E0.
  - destruct (Phase.outcome w 3) eqn:E3; [destruct (Phase.outcome w 4) eqn:E4|].
    + exists new, (fst (Phase.reopen CPL_LSB name W)),
             (vsi_files (snd (Phase.reopen CPL_LSB name W))),
             (vsi_handles (snd (Phase.reopen CPL_LSB name W))).
      intros ext. cbv zeta.
      rewrite (Create_valid CPL_LSB ext name nXSize nYSize eType opts w Hsup).
      cbv zeta. rewrite E0, E3, E4. fold content. rewrite HW, Hnew.
      repeat split.
    + exists [], None, (vsi_files W), (vsi_handles W).
      intros ext. cbv zeta.
      rewrite (Create_valid CPL_LSB ext name nXSize nYSize eType opts w Hsup).
      cbv zeta. rewrite E0, E3, E4. fold content. rewrite HW.
      repeat split.
    + exists [], None, (vsi_files W), (vsi_handles W).
      intros ext. cbv zeta.
      rewrite (Create_valid CPL_LSB ext name nXSize nYSize eType opts w Hsup).
      cbv zeta. rewrite E0, E3. fold content. rewrite HW.
      repeat split.
  - eexists [_], None, (vsi_files w), (vsi_handles w).
    intros ext. cbv zeta.
    rewrite (Create_valid CPL_LSB ext name nXSize nYSize eType opts w Hsup).
    cbv zeta. rewrite E0.
    destruct (warn_extension_fields ext name w) as (es & -> & _).
    repeat split.
Qed.

End ExtensionIndependence.

Section CreationProceeds.

Variable CPL_LSB : bool.
Variable CPLGetExtension : string -> string.

Lemma Open_calls oi w :
  (vsi_calls w <= vsi_calls (snd (Open CPL_LSB oi w)))%nat.
Proof.
  destruct (Open CPL_LSB oi w) as [[[ds|] oi'] w'] eqn:E; cbn [snd].
  - apply Open_Some in E. destruct E as (fp & E). cbv zeta in E.
    destruct E as (_ & _ & _ & _ & _ & _ & _ & ->). lia.
  - apply Open_None_cases in E.
    destruct E as [(_ & -> & _) | (fp & e & poDS & _ & _ & Hds & _ & _ & _ & ->)];
      [lia|].
    pose proof (LUMDataset_dtor_closes poDS
                  (VSI.CPLError (err_class e) (err_no e) (err_fmt e)
                                (err_args e) w)) as Hd.
    cbv zeta in Hd. rewrite Hds in Hd. destruct Hd as (_ & _ & -> & _).
    cbn. lia.
Qed.

Lemma reopen_calls name w :
  (vsi_calls w <= vsi_calls (snd (Phase.reopen CPL_LSB name w)))%nat.
Proof.
  unfold Phase.reopen.
  assert (H1 : (vsi_calls w <= vsi_calls (snd (GDALOpenInfo_ctor name GA_Update w)))%nat).
  { unfold GDALOpenInfo_ctor, VSI.io_next, VSI.alloc. cbn.
    destruct (vsi_faults w (vsi_calls w)); cbn; [|lia].
    destruct (vsi_files w !! name); cbn; lia. }
  destruct (GDALOpenInfo_ctor name GA_Update w) as [oi w1]. cbn [snd] in H1.
  pose proof (Open_calls oi w1) as H2.
  destruct (Open CPL_LSB oi w1) as [[ods oi'] w2]. cbn [snd] in H2 |- *.
  unfold GDALOpenInfo_dtor. destruct (fpL oi'); [|lia].
  destruct (VSIFCloseL_world v w2) as (_ & _ & _ & _ & Hc & _).
  cbv zeta in Hc. rewrite Hc. lia.
Qed.

(** Past its two argument checks [Create] goes on to open the destination
    whatever the extension is, and what it leaves there is what its three
    writes stored. *)
Lemma Create_proceeds name nXSize nYSize eType opts w :
  Spec.supported eType ->
  let r := Create CPL_LSB CPLGetExtension name nXSize nYSize 1 eType opts w in
  (vsi_calls w < vsi_calls (snd r))%nat /\
  (Phase.outcome w 0 = IO_ok ->
   vsi_files (snd r) =
   <[name := Phase.written_header CPL_LSB nXSize nYSize eType
               (Phase.outcome w 1) (Phase.outcome w 2) (Phase.outcome w 3)]>
     (vsi_files w)).
Proof.
  intros Hsup. cbv zeta.
  rewrite (Create_valid CPL_LSB CPLGetExtension name nXSize nYSize eType opts
                        w Hsup).
  cbv zeta.
  destruct (warn_extension_files CPLGetExtension name w) as (Hf & _ & Hc).
  destruct (Phase.outcome w 0) eqn:E0.
  - split.
    + match goal with
      | |- context [Phase.after_close ?n ?c ?w0] =>
          pose proof (reopen_calls n (Phase.after_close n c w0)) as Hr;
          assert (Hac : vsi_calls (Phase.after_close n c w0) =
                        (vsi_calls w + 5)%nat)
            by (unfold Phase.after_close; cbn; now rewrite Hc)
      end.
      rewrite Hac in Hr.
      destruct (Phase.outcome w 3); [destruct (Phase.outcome w 4)|];
        cbn [snd]; rewrite ?Hac; lia.
    + intros _.
      destruct (Phase.outcome w 3); [destruct (Phase.outcome w 4)|];
        cbn [snd]; rewrite ?reopen_files; unfold Phase.after_close; cbn;
        now rewrite Hf.
  - split; [|discriminate]. cbn. rewrite Hc. lia.
Qed.

(** With working I/O and a size that fits, [Create] returns a dataset of
    the requested size and type. *)
Lemma Create_succeeds name width height eType opts w :
  Spec.supported eType ->
  0 < width < 2 ^ 31 -> 0 < height < 2 ^ 31 ->
  width * GDALGetDataTypeSizeBytes eType <= 2 ^ 31 - 1 ->
  Spec.io_reliable_for 7 w ->
  exists ds,
    fst (Create CPL_LSB CPLGetExtension name width height 1 eType opts w)
    = Some ds /\
    nRasterXSize ds = width /\ nRasterYSize ds = height /\
    map eDataType (papoBands ds) = [eType].
Proof.
  intros Hsup Hw Hh Hfit Hio.
  assert (Ho : forall i, (i < 7)%nat -> Phase.outcome w i = IO_ok)
    by (intros i Hi; apply Hio; lia).
  assert (WW : CInt.wrap32 width = width)
    by (apply wrap32_small; unfold CInt.is_uint32; lia).
  assert (WH : CInt.wrap32 height = height)
    by (apply wrap32_small; unfold CInt.is_uint32; lia).
  rewrite (Create_valid CPL_LSB CPLGetExtension name width height
                        eType opts w Hsup).
  cbv zeta. rewrite !Ho by lia.
  rewrite (written_header_ok _ _ _ _ Hsup), WW, WH.
  destruct (warn_extension_fields CPLGetExtension name w) as (es & -> & _).
  unfold Phase.after_close, Phase.reopen.
  cbn [vsi_files vsi_handles vsi_next vsi_faults vsi_calls cpl_errors].
  erewrite probe_header; [| apply lookup_insert_eq | | ].
  2: { specialize (Ho 5%nat). unfold Phase.outcome in Ho. apply Ho. lia. }
  2: { specialize (Ho 6%nat). unfold Phase.outcome in Ho.
       replace (S (vsi_calls w + 5)) with (vsi_calls w + 6)%nat by lia.
       apply Ho. lia. }
  match goal with
  | |- context [Open CPL_LSB ?oi ?w1] =>
      destruct (Open_header_ok CPL_LSB name GA_Update width height eType
                  (S (vsi_next w)) w1 Hsup Hw Hh Hfit)
        as (ds & Hopen & Hx & Hy & Hty & _)
  end.
  cbv zeta in Hopen. rewrite Hopen. cbn [fst].
  exists ds. repeat split; assumption.
Qed.

End CreationProceeds.

(** C7. A pixel type other than 8-bit or 16-bit unsigned, or a band count
    other than 1, makes [Create] return no dataset having made no I/O call
    at all: no file is created, truncated or written and no handle opened;
    only a [CE_Failure] is logged. With valid arguments the extension of the
    file name has one effect only: when it is not "lum" (letter case
    ignored) a single [CE_Warning] enters the log before anything else
    [Create] logs; the returned dataset, the files and the open handles are
    the same whatever the extension helper answers. And creation does
    proceed, whatever the extension: the destination is opened (an I/O call
    is made); once that open succeeds the destination is created or
    truncated and holds what the three writes stored; with working I/O that
    is the 12-byte header, and for a size that fits [Create] returns a
    dataset of the requested width, height and pixel type. *)
Theorem Create_validation_order (CPL_LSB : bool) (CPLGetExtension : string -> string)
        (pszFilename : string) (nXSize nYSize nBands : Z) (eType : GDALDataType)
        (papszOptions : list string) (w : World) :
  (~ Spec.supported eType \/ nBands <> 1 ->
   let r := Create CPL_LSB CPLGetExtension pszFilename nXSize nYSize nBands
                   eType papszOptions w in
   fst r = None /\
   vsi_files (snd r) = vsi_files w /\
   vsi_handles (snd r) = vsi_handles w /\
   vsi_calls (snd r) = vsi_calls w /\
   exists e, cpl_errors (snd r) = e :: cpl_errors w /\ err_class e = CE_Failure) /\
  (Spec.supported eType -> nBands = 1 ->
   exists new res fs hs,
     forall ext,
       let r := Create CPL_LSB ext pszFilename nXSize nYSize nBands eType
                       papszOptions w in
       fst r = res /\ vsi_files (snd r) = fs /\ vsi_handles (snd r) = hs /\
       cpl_errors (snd r) =
         new ++
         (if CStr.EQUAL (ext pszFilename) "LUM" then []
          else [mkEvent CE_Warning CPLE_AppDefined
                        "Extension for lum file should be .lum" []]) ++
         cpl_errors w) /\
  (Spec.supported eType -> nBands = 1 ->
   let r := Create CPL_LSB CPLGetExtension pszFilename nXSize nYSize nBands
                   eType papszOptions w in
   let o := Phase.outcome w in
   (CStr.EQUAL (CPLGetExtension pszFilename) "LUM" = false ->
    In (mkEvent CE_Warning CPLE_AppDefined
                "Extension for lum file should be .lum" [])
       (cpl_errors (snd r))) /\
   (vsi_calls w < vsi_calls (snd r))%nat /\
   (o 0%nat = IO_ok ->
    vsi_files (snd r) =
    <[pszFilename := Phase.written_header CPL_LSB nXSize nYSize eType
                       (o 1%nat) (o 2%nat) (o 3%nat)]> (vsi_files w)) /\
   (Spec.io_reliable_for 7 w ->
    vsi_files (snd r) =
    <[pszFilename := Spec.header CPL_LSB (CInt.wrap32 nXSize)
                                 (CInt.wrap32 nYSize) eType]> (vsi_files w) /\
    (0 < nXSize < 2 ^ 31 -> 0 < nYSize < 2 ^ 31 ->
     nXSize * GDALGetDataTypeSizeBytes eType <= 2 ^ 31 - 1 ->
     exists ds,
       fst r = Some ds /\
       nRasterXSize ds = nXSize /\ nRasterYSize ds = nYSize /\
       map eDataType (papoBands ds) = [eType]))).
Proof.
  split; [|split].
  - intros Hbad. cbv zeta. unfold Create.
    destruct (negb (bool_decide (eType = GDT_Byte)) &&
              negb (bool_decide (eType = GDT_UInt16))) eqn:Ety.
    + cbn. repeat split. eexists. split; reflexivity.
    + destruct (Z.eqb_spec nBands 1) as [-> | Hne]; cbn [negb].
      * exfalso. destruct Hbad as [Hns | Hnb]; [|congruence].
        rewrite (unsupported_fails _ Hns) in Ety. discriminate.
      * cbn. repeat split. eexists. split; reflexivity.
  - intros Hsup ->.
    destruct (Create_extension_frame CPL_LSB pszFilename nXSize nYSize eType
                papszOptions w Hsup) as (new & res & fs & hs & H).
    exists new, res, fs, hs. intros ext. cbv zeta.
    destruct (H ext) as (H1 & H2 & H3 & H4). cbv zeta in H1, H2, H3, H4.
    repeat split; try assumption.
    rewrite H4. unfold Phase.warn_extension.
    destruct (CStr.EQUAL (ext pszFilename) "LUM"); reflexivity.
  - intros Hsup ->. cbv zeta.
    destruct (Create_proceeds CPL_LSB CPLGetExtension pszFilename nXSize nYSize
                eType papszOptions w Hsup) as (Hcalls & Hfiles).
    cbv zeta in Hcalls, Hfiles.
    split; [|split; [exact Hcalls|split; [exact Hfiles|]]].
    + intros Hext.
      destruct (Create_extension_frame CPL_LSB pszFilename nXSize nYSize eType
                  papszOptions w Hsup) as (new & res & fs & hs & H).
      destruct (H CPLGetExtension) as (_ & _ & _ & H4). cbv zeta in H4.
      rewrite H4. unfold Phase.warn_extension. rewrite Hext. cbn [negb].
      apply in_or_app. right. left. reflexivity.
    + intros Hio. split.
      * rewrite Hfiles by (apply Hio; lia).
        assert (Ho : forall i, (i < 7)%nat -> Phase.outcome w i = IO_ok)
          by (intros i Hi; apply Hio; lia).
        rewrite !Ho by lia. now rewrite (written_header_ok _ _ _ _ Hsup).
      * intros Hw Hh Hfit.
        exact (Create_succeeds CPL_LSB CPLGetExtension pszFilename nXSize nYSize
                 eType papszOptions w Hsup Hw Hh Hfit Hio).
Qed.

Lemma Create_validation_order_witness :
  fst (Create true (fun _ => "lum"%string) "test.lum" 4 3 3 GDT_Byte []
              Examples.empty_world) = None /\
  vsi_files (snd (Create true (fun _ => "lum"%string) "test.lum" 4 3 1
                         GDT_Float32 [] Examples.empty_world)) = ∅ /\
  (exists new res fs hs,
    forall ext,
      let r := Create true ext "test.tif" 4 3 1 GDT_Byte [] Examples.empty_world in
      fst r = res /\ vsi_files (snd r) = fs /\ vsi_handles (snd r) = hs /\
      cpl_errors (snd r) =
        new ++
        (if CStr.EQUAL (ext "test.tif"%string) "LUM" then []
         else [mkEvent CE_Warning CPLE_AppDefined
                       "Extension for lum file should be .lum" []]) ++ []) /\
  (let r := Create true (fun _ => "tif"%string) "test.tif" 4 3 1 GDT_Byte []
                   Examples.empty_world in
   In (mkEvent CE_Warning CPLE_AppDefined
               "Extension for lum file should be .lum" [])
      (cpl_errors (snd r)) /\
   vsi_files (snd r) =
     <[ "test.tif"%string := Spec.header true (CInt.wrap32 4) (CInt.wrap32 3)
                                         GDT_Byte ]> ∅ /\
   exists ds, fst r = Some ds /\ nRasterXSize ds = 4 /\ nRasterYSize ds = 3 /\
              map eDataType (papoBands ds) = [GDT_Byte]).
Proof.
  split; [|split; [|split]].
  - apply (proj1 (Create_validation_order true (fun _ => "lum"%string)
                    "test.lum" 4 3 3 GDT_Byte [] Examples.empty_world)).
    right. lia.
  - apply (proj1 (Create_validation_order true (fun _ => "lum"%string)
                    "test.lum" 4 3 1 GDT_Float32 [] Examples.empty_world)).
    left. intros [H | H]; discriminate.
  - apply (proj1 (proj2 (Create_validation_order true (fun _ => "lum"%string)
                    "test.tif" 4 3 1 GDT_Byte [] Examples.empty_world))).
    + left. reflexivity.
    + reflexivity.
  - cbv zeta.
    destruct (proj2 (proj2 (Create_validation_order true (fun _ => "tif"%string)
                    "test.tif" 4 3 1 GDT_Byte [] Examples.empty_world)))
      as (Hwarn & _ & _ & Hrel).
    + left. reflexivity.
    + reflexivity.
    + cbv zeta in Hrel. destruct Hrel as (Hf & Hds).
      * intros k Hk. reflexivity.
      * split; [apply Hwarn; reflexivity|]. split; [exact Hf|].
        apply Hds; [lia | lia | vm_compute; discriminate].
Defined.

(** * Further properties of the byte swap and of [Open] *)

Section SwapFacts.

Lemma swapByteOrder_other_host lsb b0 b1 b2 b3 :
  swapByteOrder (Mem.load_u32 lsb [b0; b1; b2; b3]) =
  Mem.load_u32 (negb lsb) [b0; b1; b2; b3].
Proof.
  rewrite swapByteOrder_load. unfold Mem.load_u32.
  destruct lsb; reflexivity.
Qed.

End SwapFacts.

(** X1. [swapByteOrder] is an involution on 32-bit values and never leaves
    the 32-bit range: swapping twice gives the value back. *)
Theorem swapByteOrder_involutive (v : Z) :
  CInt.is_uint32 v ->
  CInt.is_uint32 (swapByteOrder v) /\ swapByteOrder (swapByteOrder v) = v.
Proof.
  intros Hv. split; [now apply swapByteOrder_range|].
  rewrite (swapByteOrder_reverses (swapByteOrder v))
    by now apply swapByteOrder_range.
  rewrite (swapByteOrder_reverses v Hv). unfold Spec.byte_reversed.
  pose proof (split_le_combine (rev (le_split 4 v))) as Hs.
  rewrite length_rev, length_le_split in Hs. rewrite Hs, rev_involutive.
  rewrite le_combine_split. apply Z.mod_small. exact Hv.
Qed.

Lemma swapByteOrder_involutive_witness :
  swapByteOrder (swapByteOrder 0x11223344) = 0x11223344 /\
  swapByteOrder 0x11223344 = 0x44332211.
Proof.
  split.
  - apply (swapByteOrder_involutive 0x11223344).
    unfold CInt.is_uint32. lia.
  - reflexivity.
Defined.

Section TaggedFacts.

(** With an order tag present, the parse reads the dimensions in the byte
    order the tag names, whatever the host. *)
Lemma Open_dimensions_tagged lsb hdr (o : Spec.ByteOrder) :
  Spec.tag_denotes hdr o ->
  Open_dimensions lsb hdr =
  (Mem.load_u32 (match o with Spec.LittleEndian => true
                            | Spec.BigEndian => false end) (Mem.sub hdr 0 4),
   Mem.load_u32 (match o with Spec.LittleEndian => true
                            | Spec.BigEndian => false end) (Mem.sub hdr 4 4)).
Proof.
  intros Htag. unfold Open_dimensions, Mem.u32_at.
  change (4 * 0)%nat with 0%nat. change (4 * 1)%nat with 4%nat.
  destruct (tagged_foreign lsb hdr) eqn:E.
  - apply tagged_foreign_spec in E.
    rewrite !sub_4, !swapByteOrder_other_host.
    destruct lsb, o; cbn [negb]; try reflexivity;
      exfalso; exact (tag_denotes_unique hdr _ Htag E).
  - destruct lsb, o; try reflexivity; exfalso.
    + assert (T : tagged_foreign true hdr = true)
        by (apply (tagged_foreign_spec true); exact Htag).
      congruence.
    + assert (T : tagged_foreign false hdr = true)
        by (apply (tagged_foreign_spec false); exact Htag).
      congruence.
Qed.

End TaggedFacts.

(** X2. Host independence of the header parse: when the order tag reads
    "BI" or "LI", a little-endian build and a big-endian build of [Open]
    parse the same width and height from the same bytes, namely the
    big-endian reading of bytes 0-3 and 4-7 for "BI" and the little-endian
    reading for "LI". *)
Theorem Open_dimensions_host_independent (hdr : list byte) (o : Spec.ByteOrder) :
  Spec.tag_denotes hdr o ->
  let reader := match o with Spec.LittleEndian => true | Spec.BigEndian => false end in
  Open_dimensions true hdr = Open_dimensions false hdr /\
  Open_dimensions true hdr =
    (Mem.load_u32 reader (Mem.sub hdr 0 4), Mem.load_u32 reader (Mem.sub hdr 4 4)).
Proof.
  intros Htag. cbv zeta.
  rewrite (Open_dimensions_tagged true hdr o Htag),
          (Open_dimensions_tagged false hdr o Htag).
  split; reflexivity.
Qed.

Lemma Open_dimensions_host_independent_witness :
  Open_dimensions true Examples.header_4x3_12BI =
  Open_dimensions false Examples.header_4x3_12BI /\
  Open_dimensions false Examples.header_4x3_12BI = (4, 3).
Proof.
  destruct (Open_dimensions_host_independent Examples.header_4x3_12BI
              Spec.BigEndian) as [H1 H2].
  - vm_compute. reflexivity.
  - split; [exact H1|]. rewrite <- H1, H2. reflexivity.
Defined.

Section ParseFacts.

Variable CPL_LSB : bool.

Lemma Identify_tag_iff oi :
  Identify oi = true <->
  12 <= nHeaderBytes oi /\ fpL oi <> None /\
  exists tag, In tag Spec.recognised_tags /\
              Spec.same_text_ci (Spec.tag_bytes (pabyHeader oi)) tag.
Proof.
  rewrite Identify_existsb, andb_true_iff, negb_true_iff,
    orb_false_iff, Z.ltb_ge, existsb_exists.
  assert (Hnull : is_null (fpL oi) = false <-> fpL oi <> None)
    by (destruct (fpL oi); cbn; split; congruence).
  rewrite Hnull.
  assert (Htag : forall tag, In tag Spec.recognised_tags ->
            (CStr.STARTS_WITH_CI (CStr.advance 8 (pabyHeader oi)) tag = true <->
             Spec.same_text_ci (Spec.tag_bytes (pabyHeader oi)) tag)).
  { intros tag Hin.
    pose proof recognised_tags_plain as HF.
    rewrite List.Forall_forall in HF. destruct (HF tag Hin) as [Hp Hl].
    rewrite (STARTS_WITH_CI_spec _ _ _ Hp), Hl. reflexivity. }
  split.
  - intros [[H1 H2] (tag & Hin & Hs)]. repeat split; try assumption.
    exists tag. split; [assumption|]. now apply Htag.
  - intros (H1 & H2 & tag & Hin & Hs). repeat split; try assumption.
    exists tag. split; [assumption|]. now apply Htag.
Qed.

Lemma depth08_plain :
  plain_text "08" /\ length (list_byte_of_string "08") = 2%nat.
Proof.
  unfold plain_text. split; [|reflexivity].
  repeat (constructor; [vm_compute; discriminate|]). constructor.
Qed.

(** The two-character test of lines 227-234 on the bytes it reads. *)
Lemma Open_eDataType_spec hdr :
  (Open_eDataType hdr = GDT_Byte <-> Spec.same_text_ci (Mem.sub hdr 8 2) "08") /\
  (Open_eDataType hdr = GDT_Byte \/ Open_eDataType hdr = GDT_UInt16).
Proof.
  unfold Open_eDataType. destruct depth08_plain as [Hp Hl].
  pose proof (STARTS_WITH_CI_spec hdr 8 "08" Hp) as H. rewrite Hl in H.
  destruct (CStr.STARTS_WITH_CI (CStr.advance 8 hdr) "08").
  - split; [|now left]. split; [intros _; now apply H | reflexivity].
  - split; [|now right]. split; [discriminate|].
    intros Hs. apply H in Hs. discriminate.
Qed.

Lemma Open_bMSBFirst_spec hdr :
  Open_bMSBFirst CPL_LSB hdr = false <->
  Spec.tag_denotes hdr (Spec.opposite (Spec.native_order CPL_LSB)).
Proof.
  unfold Open_bMSBFirst. rewrite <- tagged_foreign_spec.
  destruct (tagged_foreign CPL_LSB hdr); split; congruence.
Qed.


End ParseFacts.



(** X4. The band [Open] builds: its sample type is [GDT_Byte] exactly when
    bytes 8-9 read "08" and [GDT_UInt16] for every other accepted tag, never
    anything else; its native-order flag is false exactly when the order tag
    denotes the byte order opposite to the host's. *)
Theorem Open_band_type_and_order (CPL_LSB : bool) (oi : GDALOpenInfo) (w : World)
        (ds : LUMDataset) (oi' : GDALOpenInfo) (w' : World) :
  Open CPL_LSB oi w = (Some ds, oi', w') ->
  exists b,
    papoBands ds = [b] /\
    (eDataType b = GDT_Byte <->
     Spec.same_text_ci (Mem.sub (pabyHeader oi) 8 2) "08") /\
    (eDataType b = GDT_Byte \/ eDataType b = GDT_UInt16) /\
    (bNativeOrder b = false <->
     Spec.tag_denotes (pabyHeader oi)
                      (Spec.opposite (Spec.native_order CPL_LSB))).
Proof.
  intros H. apply Open_Some in H. destruct H as (fp & H). cbv zeta in H.
  destruct H as (_ & _ & _ & _ & _ & Hds & _). subst ds.
  eexists. split; [reflexivity|]. cbn [eDataType bNativeOrder].
  destruct (Open_eDataType_spec (pabyHeader oi)) as [H1 H2].
  split; [exact H1|]. split; [exact H2|].
  apply Open_bMSBFirst_spec.
Qed.

Lemma Open_band_type_and_order_witness :
  exists ds b,
    fst (fst (Open true (Examples.probe Examples.header_4x3_12BI)
                   (Examples.world_of Examples.header_4x3_12BI))) = Some ds /\
    papoBands ds = [b] /\ eDataType b = GDT_UInt16 /\ bNativeOrder b = false.
Proof.
  destruct (Open true (Examples.probe Examples.header_4x3_12BI)
                 (Examples.world_of Examples.header_4x3_12BI))
    as [[ods oi'] w'] eqn:E.
  assert (Hsome : exists ds, ods = Some ds) by (vm_compute in E; inversion E; eauto).
  destruct Hsome as [ds ->]. exists ds.
  destruct (Open_band_type_and_order true _ _ ds oi' w' E)
    as (b & Hb & Hbyte & Hty & Hord).
  exists b. split; [reflexivity|]. split; [exact Hb|]. split.
  - destruct Hty as [Hty | Hty]; [|exact Hty].
    apply Hbyte in Hty. vm_compute in Hty. discriminate.
  - apply Hord. vm_compute. reflexivity.
Defined.

(** X5. Every dataset [Open] returns has a width and a height in
    [1, INT_MAX] and a line stride (width times pixel size) that fits an
    [int]: the guards of lines 191 and 238 leave nothing else through. *)
Theorem Open_size_bounds (CPL_LSB : bool) (oi : GDALOpenInfo) (w : World)
        (ds : LUMDataset) (oi' : GDALOpenInfo) (w' : World) :
  Open CPL_LSB oi w = (Some ds, oi', w') ->
  0 < nRasterXSize ds <= CInt.INT_MAX /\
  0 < nRasterYSize ds <= CInt.INT_MAX /\
  forall b, In b (papoBands ds) ->
    0 < nLineOffset b <= CInt.INT_MAX /\
    nLineOffset b = nRasterXSize ds * nPixelOffset b.
Proof.
  intros H. apply Open_Some in H. destruct H as (fp & H). cbv zeta in H.
  destruct H as (_ & _ & Hw & Hh & Hov & Hds & _). subst ds.
  cbn [nRasterXSize nRasterYSize papoBands].
  destruct (Open_dimensions_range CPL_LSB (pabyHeader oi)) as [Rw Rh].
  pose proof (to_int_range (fst (Open_dimensions CPL_LSB (pabyHeader oi)))) as Iw.
  pose proof (to_int_range (snd (Open_dimensions CPL_LSB (pabyHeader oi)))) as Ih.
  unfold CInt.is_int in Iw, Ih.
  split; [lia|]. split; [lia|].
  intros b [<- | []]. cbn [nLineOffset nPixelOffset].
  pose proof (to_int_pos _ Rw Hw) as Ew. rewrite Ew in *.
  set (nW := fst (Open_dimensions CPL_LSB (pabyHeader oi))) in *.
  assert (Hp := Open_eDataType_size (pabyHeader oi)).
  remember (GDALGetDataTypeSizeBytes (Open_eDataType (pabyHeader oi))) as p eqn:Ep.
  assert (Hprod : 0 < nW * p <= CInt.INT_MAX).
  { destruct (Z_le_gt_dec (nW * p) CInt.INT_MAX) as [Hle | Hgt].
    - clear Ep. destruct Hp as [E | E]; subst p; lia.
    - apply Z.gt_lt, (overflow_test nW p Hp) in Hgt.
      rewrite Z.gtb_ltb in Hgt. apply Z.ltb_lt in Hgt. lia. }
  rewrite to_int_of_int
    by (unfold CInt.is_int, CInt.INT_MIN, CInt.INT_MAX in *; lia).
  split; [exact Hprod | reflexivity].
Qed.

Lemma Open_size_bounds_witness :
  exists ds,
    fst (fst (Open true (Examples.probe Examples.header_4x3_08LI)
                   (Examples.world_of Examples.header_4x3_08LI))) = Some ds /\
    0 < nRasterXSize ds <= CInt.INT_MAX /\ 0 < nRasterYSize ds <= CInt.INT_MAX.
Proof.
  destruct (Open true (Examples.probe Examples.header_4x3_08LI)
                 (Examples.world_of Examples.header_4x3_08LI))
    as [[ods oi'] w'] eqn:E.
  assert (Hsome : exists ds, ods = Some ds) by (vm_compute in E; inversion E; eauto).
  destruct Hsome as [ds ->]. exists ds.
  destruct (Open_size_bounds true _ _ ds oi' w' E) as (Hx & Hy & _).
  split; [reflexivity|]. split; assumption.
Defined.

(** * Streams: who holds them and who closes them *)

(** X6. A successful [Open] moves the stream from the probe record to the
    dataset: the record's stream field is cleared while its other fields
    stay, the dataset holds the very stream the record held, its band reads
    from that same stream without owning it, and the access mode and the
    file name are copied. The record's destructor then finds nothing to
    close, so destroying the record leaves the dataset's stream as it is:
    the stream has one owner, the dataset. *)
Theorem Open_takes_stream (CPL_LSB : bool) (oi : GDALOpenInfo) (w : World)
        (ds : LUMDataset) (oi' : GDALOpenInfo) (w' : World) :
  Open CPL_LSB oi w = (Some ds, oi', w') ->
  fpL oi' = None /\ fpImage ds = fpL oi /\ fpImage ds <> None /\
  pabyHeader oi' = pabyHeader oi /\ nHeaderBytes oi' = nHeaderBytes oi /\
  pszFilename oi' = pszFilename oi /\ eAccess oi' = eAccess oi /\
  ds_eAccess ds = eAccess oi /\ ds_description ds = pszFilename oi /\
  (forall b, In b (papoBands ds) ->
             fpRaw b = fpImage ds /\ bOwnsFP b = OwnFP_NO) /\
  (forall w0, GDALOpenInfo_dtor oi' w0 = w0).
Proof.
  intros H. apply Open_Some in H. destruct H as (fp & H). cbv zeta in H.
  destruct H as (_ & Hfp & _ & _ & _ & Hds & Hoi & Hw). subst ds oi' w'.
  cbn [fpImage ds_eAccess ds_description papoBands take_stream fpL pabyHeader
       nHeaderBytes pszFilename eAccess].
  rewrite Hfp. repeat split; try reflexivity; try discriminate.
  - destruct H as [<- | []]. reflexivity.
  - destruct H as [<- | []]. reflexivity.
Qed.

Lemma Open_takes_stream_witness :
  exists ds oi',
    fst (Open true (Examples.probe Examples.header_4x3_08LI)
              (Examples.world_of Examples.header_4x3_08LI))
    = (Some ds, oi') /\
    fpL oi' = None /\ fpImage ds = Some 0%nat.
Proof.
  destruct (Open true (Examples.probe Examples.header_4x3_08LI)
                 (Examples.world_of Examples.header_4x3_08LI))
    as [[ods oi'] w'] eqn:E.
  assert (Hsome : exists ds, ods = Some ds) by (vm_compute in E; inversion E; eauto).
  destruct Hsome as [ds ->]. exists ds, oi'.
  destruct (Open_takes_stream true _ _ ds oi' w' E) as (Hnone & Hfp & _).
  split; [reflexivity|]. split; [exact Hnone | exact Hfp].
Defined.

(** X7. A failed [Open] never leaks the stream and never writes: whichever
    way it returns null (tag not recognised, no stream, bad size, stride
    overflow), no file has changed, and once the probe record is destroyed
    the stream it was given is closed while every other open handle is
    still open: the stream is closed exactly once, by the dataset's
    destructor if [Open] had taken it, by the record's otherwise. *)
Theorem Open_failure_releases_stream (CPL_LSB : bool) (oi : GDALOpenInfo)
        (w : World) (oi' : GDALOpenInfo) (w' : World) :
  Open CPL_LSB oi w = (None, oi', w') ->
  let w'' := GDALOpenInfo_dtor oi' w' in
  vsi_files w'' = vsi_files w /\
  vsi_handles w'' =
    match fpL oi with
    | Some fp => delete fp (vsi_handles w)
    | None => vsi_handles w
    end /\
  (vsi_calls w'' <= S (vsi_calls w))%nat.
Proof.
  intros H. cbv zeta. apply Open_None_cases in H.
  destruct H as [(-> & -> & _) | (fp & e & poDS & _ & Hfp & Hds & _ & _ & -> & ->)].
  - unfold GDALOpenInfo_dtor. destruct (fpL oi) as [fp|].
    + destruct (VSIFCloseL_world fp w) as (Hf & Hh & _ & _ & Hc & _).
      cbv zeta in Hf, Hh, Hc. rewrite Hf, Hh, Hc. repeat split. lia.
    + repeat split. lia.
  - unfold GDALOpenInfo_dtor. cbn [take_stream fpL]. rewrite Hfp.
    destruct (LUMDataset_dtor_world poDS fp
                (VSI.CPLError (err_class e) (err_no e) (err_fmt e) (err_args e) w) Hds)
      as (Hf & Hh & _ & Hc & _).
    cbv zeta in Hf, Hh, Hc. rewrite Hf, Hh, Hc. cbn. repeat split. lia.
Qed.

Lemma Open_failure_releases_stream_witness :
  vsi_handles
    (GDALOpenInfo_dtor
       (snd (fst (Open true (Examples.probe Examples.header_0x3_08LI)
                       (Examples.world_of Examples.header_0x3_08LI))))
       (snd (Open true (Examples.probe Examples.header_0x3_08LI)
                  (Examples.world_of Examples.header_0x3_08LI))))
  = delete 0%nat (vsi_handles (Examples.world_of Examples.header_0x3_08LI)).
Proof.
  destruct (Open true (Examples.probe Examples.header_0x3_08LI)
                 (Examples.world_of Examples.header_0x3_08LI))
    as [[ods oi'] w'] eqn:E.
  assert (Hnone : ods = None) by (vm_compute in E; inversion E; reflexivity).
  subst ods. cbn [fst snd].
  destruct (Open_failure_releases_stream true _ _ oi' w' E) as (_ & Hh & _).
  exact Hh.
Defined.

(** X8. Open, then dispose. When [Open] has returned a dataset, destroying
    the probe record and then the dataset makes exactly one close call, on
    the stream the probe record was given: afterwards that handle is not
    open, every other handle is, and no file has changed. A [CE_Failure]
    with [CPLE_FileIO] is logged exactly when that close reports failure. *)
Theorem Open_then_dispose (CPL_LSB : bool) (oi : GDALOpenInfo) (w : World)
        (ds : LUMDataset) (oi' : GDALOpenInfo) (w' : World) :
  Open CPL_LSB oi w = (Some ds, oi', w') ->
  let w'' := LUMDataset_dtor ds (GDALOpenInfo_dtor oi' w') in
  exists fp,
    fpL oi = Some fp /\
    vsi_files w'' = vsi_files w /\
    vsi_handles w'' = delete fp (vsi_handles w) /\
    vsi_calls w'' = S (vsi_calls w) /\
    cpl_errors w'' =
      match Phase.outcome w 0 with
      | IO_ok => cpl_errors w
      | IO_fail _ => mkEvent CE_Failure CPLE_FileIO "I/O error" [] :: cpl_errors w
      end.
Proof.
  intros H. cbv zeta. apply Open_Some in H. destruct H as (fp & H).
  cbv zeta in H. destruct H as (_ & Hfp & _ & _ & _ & Hds & -> & ->).
  exists fp. split; [exact Hfp|].
  unfold GDALOpenInfo_dtor. cbn [take_stream fpL].
  pose proof (LUMDataset_dtor_closes ds w) as Hd. cbv zeta in Hd.
  assert (Himg : fpImage ds = Some fp) by (subst ds; reflexivity).
  rewrite Himg in Hd. destruct Hd as (Hf & Hh & Hc & He).
  repeat split; assumption.
Qed.

Lemma Open_then_dispose_witness :
  exists ds oi' w',
    Open true (Examples.probe Examples.header_4x3_08LI)
         (Examples.world_of Examples.header_4x3_08LI) = (Some ds, oi', w') /\
    vsi_handles (LUMDataset_dtor ds (GDALOpenInfo_dtor oi' w')) = ∅.
Proof.
  destruct (Open true (Examples.probe Examples.header_4x3_08LI)
                 (Examples.world_of Examples.header_4x3_08LI))
    as [[ods oi'] w'] eqn:E.
  assert (Hsome : exists ds, ods = Some ds) by (vm_compute in E; inversion E; eauto).
  destruct Hsome as [ds ->]. exists ds, oi', w'. split; [reflexivity|].
  destruct (Open_then_dispose true _ _ ds oi' w' E) as (fp & Hfp & _ & Hh & _).
  rewrite Hh. inversion Hfp. subst fp. vm_compute. reflexivity.
Defined.

Section HeaderOnlyFacts.

Variable CPL_LSB : bool.

Lemma STARTS_WITH_CI_sub_eq h h' k (t : string) :
  plain_text t ->
  Mem.sub h' k (length (list_byte_of_string t)) =
  Mem.sub h k (length (list_byte_of_string t)) ->
  CStr.STARTS_WITH_CI (CStr.advance k h') t =
  CStr.STARTS_WITH_CI (CStr.advance k h) t.
Proof.
  intros Hp Heq.
  pose proof (STARTS_WITH_CI_spec h k t Hp) as H1.
  pose proof (STARTS_WITH_CI_spec h' k t Hp) as H2.
  rewrite Heq in H2.
  destruct (CStr.STARTS_WITH_CI (CStr.advance k h) t);
    destruct (CStr.STARTS_WITH_CI (CStr.advance k h') t); try reflexivity.
  - assert (false = true) by (apply H2, H1; reflexivity). discriminate.
  - assert (false = true) by (apply H1, H2; reflexivity). discriminate.
Qed.

(** Everything [Identify] and the parse phase read lies in bytes 0-11. *)
Lemma parse_reads_header h h' :
  Mem.sub h' 0 12 = Mem.sub h 0 12 ->
  Spec.tag_bytes h' = Spec.tag_bytes h /\
  Open_dimensions CPL_LSB h' = Open_dimensions CPL_LSB h /\
  Open_eDataType h' = Open_eDataType h /\
  Open_bMSBFirst CPL_LSB h' = Open_bMSBFirst CPL_LSB h.
Proof.
  intros H. cbv [Mem.sub seq map] in H.
  inversion H as [[E0 E1 E2 E3 E4 E5 E6 E7 E8 E9 E10 E11]]. clear H.
  assert (T : Spec.tag_bytes h' = Spec.tag_bytes h)
    by (unfold Spec.tag_bytes; rewrite !sub_4; congruence).
  assert (F : tagged_foreign CPL_LSB h' = tagged_foreign CPL_LSB h).
  { unfold tagged_foreign.
    destruct CPL_LSB;
      [destruct (order_text_plain Spec.BigEndian) as [Hp Hl]
      |destruct (order_text_plain Spec.LittleEndian) as [Hp Hl]];
      cbn [Spec.order_text] in Hp, Hl;
      apply (STARTS_WITH_CI_sub_eq h h' 10 _ Hp); rewrite Hl;
      cbv [Mem.sub seq map]; congruence. }
  split; [exact T|]. split; [|split].
  - unfold Open_dimensions, Mem.u32_at. rewrite F.
    change (4 * 0)%nat with 0%nat. change (4 * 1)%nat with 4%nat.
    rewrite !sub_4, E0, E1, E2, E3, E4, E5, E6, E7. reflexivity.
  - unfold Open_eDataType. destruct depth08_plain as [Hp Hl].
    rewrite (STARTS_WITH_CI_sub_eq h h' 8 _ Hp); [reflexivity|].
    rewrite Hl. cbv [Mem.sub seq map]. congruence.
  - unfold Open_bMSBFirst. now rewrite F.
Qed.

End HeaderOnlyFacts.

(** X9. [Open] reads nothing but the 12-byte header: two probe records that
    agree on bytes 0-11 of their buffers (and on their other fields) get the
    same dataset, or the same refusal, and leave the same world, whatever
    pixel data follows the header in the buffer. *)
Theorem Open_reads_only_header (CPL_LSB : bool) (oi : GDALOpenInfo)
        (hdr' : list byte) (w : World) :
  Mem.sub hdr' 0 12 = Mem.sub (pabyHeader oi) 0 12 ->
  let oi2 := mkOpenInfo (pszFilename oi) (eAccess oi) (nHeaderBytes oi) hdr'
                        (fpL oi) in
  fst (fst (Open CPL_LSB oi2 w)) = fst (fst (Open CPL_LSB oi w)) /\
  snd (Open CPL_LSB oi2 w) = snd (Open CPL_LSB oi w).
Proof.
  intros Hsub. cbv zeta.
  destruct (parse_reads_header CPL_LSB (pabyHeader oi) hdr' Hsub)
    as (Htag & Hdim & Hty & Hord).
  assert (Hid : Identify (mkOpenInfo (pszFilename oi) (eAccess oi)
                            (nHeaderBytes oi) hdr' (fpL oi)) = Identify oi).
  { destruct (Identify oi) eqn:E.
    - apply Identify_tag_iff. apply Identify_tag_iff in E.
      cbn [nHeaderBytes fpL pabyHeader]. now rewrite Htag.
    - destruct (Identify (mkOpenInfo _ _ _ hdr' _)) eqn:E'; [|reflexivity].
      apply Identify_tag_iff in E'. cbn [nHeaderBytes fpL pabyHeader] in E'.
      rewrite Htag in E'. apply Identify_tag_iff in E'. congruence. }
  unfold Open. rewrite Hid.
  cbn [fpL pabyHeader eAccess pszFilename take_stream].
  rewrite Hdim, Hty, Hord.
  destruct (negb (Identify oi)); [split; reflexivity|].
  destruct (fpL oi); [|split; reflexivity].
  destruct (Open_dimensions CPL_LSB (pabyHeader oi)) as [nW nH].
  cbn [nRasterXSize nRasterYSize].
  destruct (_ || _); [split; reflexivity|].
  destruct (_ >? _); split; reflexivity.
Qed.

Lemma Open_reads_only_header_witness :
  fst (fst (Open true (Examples.probe Samples.file_4x3_with_pixels)
                 (Examples.world_of Samples.file_4x3_with_pixels)))
  = fst (fst (Open true (Examples.probe Examples.header_4x3_08LI)
                   (Examples.world_of Samples.file_4x3_with_pixels))).
Proof.
  apply (Open_reads_only_header true (Examples.probe Examples.header_4x3_08LI)
           Samples.file_4x3_with_pixels
           (Examples.world_of Samples.file_4x3_with_pixels)).
  vm_compute. reflexivity.
Defined.

(** X10. [Identify] ignores letter case in the tag: replacing bytes 8-11 by
    bytes that are equal to them after upper-casing (for instance "08li" or
    "flol" for "08LI" or "FLOL") does not change its answer. *)
Theorem Identify_case_insensitive (oi : GDALOpenInfo) (hdr' : list byte) :
  map Spec.toupper (Spec.tag_bytes hdr') =
  map Spec.toupper (Spec.tag_bytes (pabyHeader oi)) ->
  Identify (mkOpenInfo (pszFilename oi) (eAccess oi) (nHeaderBytes oi) hdr'
                       (fpL oi)) = Identify oi.
Proof.
  intros Heq.
  assert (Hsame : forall tag,
            Spec.same_text_ci (Spec.tag_bytes hdr') tag <->
            Spec.same_text_ci (Spec.tag_bytes (pabyHeader oi)) tag)
    by (intros tag; unfold Spec.same_text_ci; now rewrite Heq).
  destruct (Identify oi) eqn:E.
  - apply Identify_tag_iff. apply Identify_tag_iff in E.
    cbn [nHeaderBytes fpL pabyHeader].
    destruct E as (H1 & H2 & tag & Hin & Hs).
    repeat split; try assumption. exists tag. split; [assumption|].
    now apply Hsame.
  - destruct (Identify (mkOpenInfo _ _ _ hdr' _)) eqn:E'; [|reflexivity].
    apply Identify_tag_iff in E'. cbn [nHeaderBytes fpL pabyHeader] in E'.
    destruct E' as (H1 & H2 & tag & Hin & Hs).
    assert (Identify oi = true); [|congruence].
    apply Identify_tag_iff. repeat split; try assumption.
    exists tag. split; [assumption|]. now apply Hsame.
Qed.

Lemma Identify_case_insensitive_witness :
  Identify (Examples.probe Samples.header_4x3_08li) =
  Identify (Examples.probe Examples.header_4x3_08LI).
Proof.
  apply (Identify_case_insensitive (Examples.probe Examples.header_4x3_08LI)
           Samples.header_4x3_08li).
  vm_compute. reflexivity.
Defined.

(** * Further properties of [Create] *)

Section ReopenFacts.

Variable CPL_LSB : bool.

(** The probe record either has no stream, or a fresh one on an existing
    file together with a prefix of that file as header. *)
Lemma GDALOpenInfo_ctor_cases name acc w :
  let oi := fst (GDALOpenInfo_ctor name acc w) in
  let w1 := snd (GDALOpenInfo_ctor name acc w) in
  pszFilename oi = name /\ eAccess oi = acc /\
  vsi_files w1 = vsi_files w /\ cpl_errors w1 = cpl_errors w /\
  ((fpL oi = None /\ nHeaderBytes oi = 0 /\
    vsi_handles w1 = vsi_handles w /\ vsi_next w1 = vsi_next w) \/
   (exists content k,
      vsi_files w !! name = Some content /\
      fpL oi = Some (vsi_next w) /\
      pabyHeader oi = firstn k content /\
      nHeaderBytes oi = Z.of_nat (length (pabyHeader oi)) /\
      vsi_handles w1 = <[vsi_next w := name]> (vsi_handles w) /\
      vsi_next w1 = S (vsi_next w))).
Proof.
  cbv zeta. unfold GDALOpenInfo_ctor, VSI.io_next, VSI.alloc. cbn.
  destruct (vsi_faults w (vsi_calls w)); cbn.
  - destruct (vsi_files w !! name) as [content|] eqn:Hf; cbn.
    + destruct (vsi_faults w (S (vsi_calls w))) as [|k]; cbn;
        repeat split; right.
      * exists content, 1024%nat. repeat split.
      * exists content, (Nat.min k 1024). rewrite firstn_firstn. repeat split.
    + repeat split. left. repeat split.
  - repeat split. left. repeat split.
Qed.

(** The re-open, for every outcome of its I/O: a dataset comes only from a
    successful [Open] on a fresh stream, which stays open; otherwise no
    stream stays open. *)
Lemma reopen_cases name w :
  let r := Phase.reopen CPL_LSB name w in
  match fst r with
  | Some ds =>
      exists content k,
        vsi_files w !! name = Some content /\
        (12 <= length (firstn k content))%nat /\
        Open CPL_LSB
             (mkOpenInfo name GA_Update
                         (Z.of_nat (length (firstn k content)))
                         (firstn k content) (Some (vsi_next w)))
             (snd r)
        = (Some ds,
           mkOpenInfo name GA_Update (Z.of_nat (length (firstn k content)))
                      (firstn k content) None,
           snd r) /\
        vsi_handles (snd r) = <[vsi_next w := name]> (vsi_handles w) /\
        vsi_next (snd r) = S (vsi_next w)
  | None =>
      (vsi_handles (snd r) = vsi_handles w /\ vsi_next (snd r) = vsi_next w) \/
      (vsi_handles (snd r) =
         delete (vsi_next w) (<[vsi_next w := name]> (vsi_handles w)) /\
       vsi_next (snd r) = S (vsi_next w))
  end.
Proof.
  cbv zeta. unfold Phase.reopen.
  pose proof (GDALOpenInfo_ctor_cases name GA_Update w) as Hc. cbv zeta in Hc.
  destruct (GDALOpenInfo_ctor name GA_Update w) as [oi w1]. cbn [fst snd] in Hc.
  destruct Hc as (Hname & Hacc & _ & _ & Hc).
  destruct (Open CPL_LSB oi w1) as [[ods oi'] w2] eqn:Hopen. cbn [fst snd].
  destruct ods as [ds|].
  - pose proof Hopen as Hsome. apply Open_Some in Hsome.
    destruct Hsome as (fp & Hsome). cbv zeta in Hsome.
    destruct Hsome as (Hid & Hfp & _ & _ & _ & _ & -> & ->).
    destruct Hc as [(Hnone & _) | (content & k & Hf & Hfp' & Hhdr & Hn & Hh & Hnx)];
      [congruence|].
    unfold GDALOpenInfo_dtor. cbn [take_stream fpL].
    exists content, k. split; [exact Hf|].
    assert (H12 : (12 <= length (firstn k content))%nat).
    { rewrite <- Hhdr. destruct (Z.ltb_spec (nHeaderBytes oi) 12) as [Hlt|Hge].
      - rewrite (Identify_short oi Hlt) in Hid. discriminate.
      - lia. }
    split; [exact H12|]. split; [|split; assumption].
    destruct oi as [n0 a0 nh0 hd0 fp0].
    cbn [pszFilename eAccess nHeaderBytes pabyHeader fpL take_stream] in *.
    subst. exact Hopen.
  - apply Open_None_cases in Hopen.
    destruct Hc as [(Hnone & _ & Hh & Hnx) | (content & k & Hf & Hfp' & Hhdr & Hn & Hh & Hnx)].
    + left.
      destruct Hopen as [(-> & -> & _) | (fp & e & poDS & _ & Hfp & _)];
        [|congruence].
      unfold GDALOpenInfo_dtor. rewrite Hnone. split; assumption.
    + right.
      destruct Hopen as [(-> & -> & _) | (fp & e & poDS & _ & Hfp & Hds & _ & _ & -> & ->)].
      * unfold GDALOpenInfo_dtor. rewrite Hfp'.
        destruct (VSIFCloseL_world (vsi_next w) w1) as (_ & Hh' & Hn' & _).
        cbv zeta in Hh', Hn'. rewrite Hh', Hn', Hh, Hnx. split; reflexivity.
      * unfold GDALOpenInfo_dtor. cbn [take_stream fpL].
        assert (fp = vsi_next w) by congruence. subst fp.
        destruct (LUMDataset_dtor_closes poDS
                    (VSI.CPLError (err_class e) (err_no e) (err_fmt e) (err_args e) w1))
          as (_ & Hd).
        cbv zeta in Hd. rewrite Hds in Hd. destruct Hd as (Hh' & _).
        rewrite Hh'. cbn [VSI.CPLError vsi_handles]. rewrite Hh. split; [reflexivity|].
        unfold LUMDataset_dtor. rewrite Hds.
        unfold VSI.VSIFCloseL, VSI.io_next. cbn.
        destruct (vsi_faults w1 (vsi_calls w1)); cbn; exact Hnx.
Qed.

End ReopenFacts.

Section CreateCases.

Variable CPL_LSB : bool.
Variable CPLGetExtension : string -> string.

Lemma Create_args_cases (t : GDALDataType) (nBands : Z) :
  (Spec.supported t /\ nBands = 1) \/ (~ Spec.supported t \/ nBands <> 1).
Proof.
  destruct (Z.eq_dec nBands 1) as [-> | Hne]; [|right; now right].
  unfold Spec.supported.
  destruct t; try (left; split; [solve [auto] | reflexivity]);
    right; left; intros [H | H]; discriminate.
Qed.

(** The two argument checks of lines 300-318 return before any I/O. *)
Lemma Create_rejected name nXSize nYSize nBands t opts w :
  ~ Spec.supported t \/ nBands <> 1 ->
  exists e,
    err_class e = CE_Failure /\
    Create CPL_LSB CPLGetExtension name nXSize nYSize nBands t opts w =
    (None, VSI.CPLError (err_class e) (err_no e) (err_fmt e) (err_args e) w).
Proof.
  intros Hbad. unfold Create.
  destruct (negb (bool_decide (t = GDT_Byte)) &&
            negb (bool_decide (t = GDT_UInt16))) eqn:Ety.
  - eexists (mkEvent _ _ _ _). split; reflexivity.
  - destruct (Z.eqb_spec nBands 1) as [-> | Hne]; cbn [negb].
    + exfalso. destruct Hbad as [Hns | Hnb]; [|congruence].
      rewrite (unsupported_fails _ Hns) in Ety. discriminate.
    + eexists (mkEvent _ _ _ _). split; reflexivity.
Qed.

Lemma warn_extension_world name w :
  Phase.warn_extension CPLGetExtension name w =
  Phase.with_log (cpl_errors (Phase.warn_extension CPLGetExtension name w)) w.
Proof.
  destruct (warn_extension_fields CPLGetExtension name w) as (es & -> & _).
  reflexivity.
Qed.

End CreateCases.

(** X11. [Create] and open handles, for every argument and every outcome
    of its I/O. In a world whose handles were handed out in order, [Create]
    never leaks: when it returns no dataset the set of open handles is
    exactly what it was, and when it returns a dataset exactly one handle
    has been added, a fresh one on the destination file, held by the
    dataset and shared with its band. The handle it wrote the header
    through is closed in every case. *)
Theorem Create_handle_balance (CPL_LSB : bool) (CPLGetExtension : string -> string)
        (pszFilename : string) (nXSize nYSize nBands : Z) (eType : GDALDataType)
        (papszOptions : list string) (w : World) :
  Inv.handles_fresh w ->
  let r := Create CPL_LSB CPLGetExtension pszFilename nXSize nYSize nBands
                  eType papszOptions w in
  Inv.handles_fresh (snd r) /\
  match fst r with
  | None => vsi_handles (snd r) = vsi_handles w
  | Some ds =>
      exists fp,
        fpImage ds = Some fp /\
        vsi_handles w !! fp = None /\
        vsi_handles (snd r) = <[fp := pszFilename]> (vsi_handles w) /\
        forall b, In b (papoBands ds) -> fpRaw b = Some fp
  end.
Proof.
  intros Hfresh. cbv zeta.
  destruct (Create_args_cases eType nBands) as [[Hsup ->] | Hbad].
  2: { destruct (Create_rejected CPL_LSB CPLGetExtension pszFilename nXSize
                   nYSize nBands eType papszOptions w Hbad) as (e & _ & ->).
       split; [exact Hfresh | reflexivity]. }
  rewrite (Create_valid CPL_LSB CPLGetExtension pszFilename nXSize nYSize
                        eType papszOptions w Hsup).
  cbv zeta. rewrite (warn_extension_world CPLGetExtension pszFilename w).
  set (es := cpl_errors (Phase.warn_extension CPLGetExtension pszFilename w)).
  assert (Hnx : vsi_handles w !! vsi_next w = None) by (apply Hfresh; lia).
  destruct (Phase.outcome w 0).
  2: { cbn [fst snd]. split; [exact Hfresh | reflexivity]. }
  set (content := Phase.written_header _ _ _ _ _ _ _).
  set (w4 := Phase.after_close pszFilename content (Phase.with_log es w)).
  assert (H4h : vsi_handles w4 = vsi_handles w)
    by (unfold w4, Phase.after_close; cbn; now apply delete_id).
  assert (H4n : vsi_next w4 = S (vsi_next w)) by reflexivity.
  assert (H4f : Inv.handles_fresh w4).
  { intros h Hh. rewrite H4h. apply Hfresh. rewrite H4n in Hh. lia. }
  assert (Hreopen :
    Inv.handles_fresh (snd (Phase.reopen CPL_LSB pszFilename w4)) /\
    match fst (Phase.reopen CPL_LSB pszFilename w4) with
    | None => vsi_handles (snd (Phase.reopen CPL_LSB pszFilename w4)) = vsi_handles w
    | Some ds =>
        exists fp,
          fpImage ds = Some fp /\
          vsi_handles w !! fp = None /\
          vsi_handles (snd (Phase.reopen CPL_LSB pszFilename w4))
            = <[fp := pszFilename]> (vsi_handles w) /\
          forall b, In b (papoBands ds) -> fpRaw b = Some fp
    end).
  { pose proof (reopen_cases CPL_LSB pszFilename w4) as Hc. cbv zeta in Hc.
    destruct (fst (Phase.reopen CPL_LSB pszFilename w4)) as [ds|].
    - destruct Hc as (c & k & _ & _ & Hopen & Hh & Hn).
      rewrite H4h, H4n in Hh. rewrite H4n in Hn.
      assert (Hs : vsi_handles w !! S (vsi_next w) = None) by (apply Hfresh; lia).
      split.
      + intros h Hge. rewrite Hh, Hn in *.
        rewrite lookup_insert_ne by lia. apply Hfresh. lia.
      + exists (S (vsi_next w)).
        apply Open_Some in Hopen. destruct Hopen as (fp & Hopen).
        cbv zeta in Hopen. cbn [fpL] in Hopen.
        destruct Hopen as (_ & Hfp & _ & _ & _ & Hds & _).
        inversion Hfp. subst fp. rewrite H4n in Hds.
        split; [subst ds; reflexivity|]. split; [exact Hs|].
        split; [exact Hh|].
        intros b Hin. subst ds. destruct Hin as [<- | []]. reflexivity.
    - destruct Hc as [[Hh Hn] | [Hh Hn]].
      + split; [|congruence].
        intros h Hge. rewrite Hh, H4h. apply Hfresh. rewrite Hn, H4n in Hge. lia.
      + rewrite delete_insert_eq, H4h, H4n in Hh.
        rewrite delete_id in Hh by (apply Hfresh; lia).
        split; [|exact Hh].
        intros h Hge. rewrite Hh. apply Hfresh. rewrite Hn, H4n in Hge. lia. }
  destruct (Phase.outcome w 3); [destruct (Phase.outcome w 4)|];
    try exact Hreopen; cbn [fst snd]; split; assumption.
Qed.

Lemma Create_handle_balance_witness :
  vsi_handles (snd (Create true (fun _ => "lum"%string) "test.lum" 0 3 1
                           GDT_Byte [] Examples.empty_world)) = ∅ /\
  vsi_handles (snd (Create true (fun _ => "lum"%string) "test.lum" 4 3 1
                           GDT_Byte [] (Samples.world_failing_at 2))) = ∅.
Proof.
  split.
  - pose proof (Create_handle_balance true (fun _ => "lum"%string) "test.lum"
                  0 3 1 GDT_Byte [] Examples.empty_world) as H.
    cbv zeta in H. destruct H as [_ H]; [intros h _; reflexivity|].
    destruct (fst (Create true _ "test.lum" 0 3 1 GDT_Byte [] Examples.empty_world))
      eqn:E; [vm_compute in E; discriminate | exact H].
  - pose proof (Create_handle_balance true (fun _ => "lum"%string) "test.lum"
                  4 3 1 GDT_Byte [] (Samples.world_failing_at 2)) as H.
    cbv zeta in H. destruct H as [_ H]; [intros h _; reflexivity|].
    destruct (fst (Create true _ "test.lum" 4 3 1 GDT_Byte []
                          (Samples.world_failing_at 2)))
      eqn:E; [vm_compute in E; discriminate | exact H].
Defined.

(** X12. [Create] and the file system, for every argument and every
    outcome of its I/O: no file other than the destination is ever changed;
    the destination itself is untouched when the arguments are refused or
    the open fails; and once the open has succeeded nothing of its former
    content survives: it holds exactly the bytes of this call's three
    writes that reached it, at most 12. *)
Theorem Create_touches_only_destination (CPL_LSB : bool)
        (CPLGetExtension : string -> string) (pszFilename : string)
        (nXSize nYSize nBands : Z) (eType : GDALDataType)
        (papszOptions : list string) (w : World) :
  let r := Create CPL_LSB CPLGetExtension pszFilename nXSize nYSize nBands
                  eType papszOptions w in
  let o := Phase.outcome w in
  (forall other, other <> pszFilename ->
                 vsi_files (snd r) !! other = vsi_files w !! other) /\
  (~ Spec.supported eType \/ nBands <> 1 \/ Phase.failed (o 0%nat) ->
   vsi_files (snd r) = vsi_files w) /\
  (Spec.supported eType -> nBands = 1 -> o 0%nat = IO_ok ->
   let content := Phase.written_header CPL_LSB nXSize nYSize eType
                                       (o 1%nat) (o 2%nat) (o 3%nat) in
   vsi_files (snd r) !! pszFilename = Some content /\
   (length content <= 12)%nat).
Proof.
  cbv zeta.
  assert (Hvalid : Spec.supported eType -> nBands = 1 ->
            vsi_files (snd (Create CPL_LSB CPLGetExtension pszFilename nXSize
                                   nYSize nBands eType papszOptions w)) =
            match Phase.outcome w 0 with
            | IO_ok => <[pszFilename :=
                           Phase.written_header CPL_LSB nXSize nYSize eType
                             (Phase.outcome w 1) (Phase.outcome w 2)
                             (Phase.outcome w 3)]> (vsi_files w)
            | IO_fail _ => vsi_files w
            end).
  { intros Hsup ->.
    rewrite (Create_valid CPL_LSB CPLGetExtension pszFilename nXSize nYSize
                          eType papszOptions w Hsup).
    cbv zeta. rewrite (warn_extension_world CPLGetExtension pszFilename w).
    destruct (Phase.outcome w 0); [|reflexivity].
    destruct (Phase.outcome w 3); [destruct (Phase.outcome w 4)|];
      rewrite ?reopen_files; reflexivity. }
  destruct (Create_args_cases eType nBands) as [[Hsup Hb] | Hbad].
  - specialize (Hvalid Hsup Hb). split; [|split].
    + intros other Hne. rewrite Hvalid.
      destruct (Phase.outcome w 0); [|reflexivity].
      now apply lookup_insert_ne.
    + intros [Hns | [Hnb | Hf]]; try contradiction.
      rewrite Hvalid. unfold Phase.failed in Hf.
      destruct (Phase.outcome w 0); [congruence | reflexivity].
    + intros _ _ Ho. rewrite Hvalid, Ho. split; [apply lookup_insert_eq|].
      unfold Phase.written_header. rewrite !length_app.
      pose proof (length_written (Phase.outcome w 1)
                    (Mem.store_u32 CPL_LSB (CInt.wrap32 nXSize))) as L1.
      pose proof (length_written (Phase.outcome w 2)
                    (Mem.store_u32 CPL_LSB (CInt.wrap32 nYSize))) as L2.
      pose proof (length_written (Phase.outcome w 3)
                    (Create_szHeader CPL_LSB eType)) as L3.
      rewrite length_store_u32 in *. rewrite length_Create_szHeader in L3. lia.
  - destruct (Create_rejected CPL_LSB CPLGetExtension pszFilename nXSize
                nYSize nBands eType papszOptions w Hbad) as (e & _ & ->).
    split; [|split].
    + intros other _. reflexivity.
    + intros _. reflexivity.
    + intros Hsup Hb. exfalso. destruct Hbad; contradiction.
Qed.

Lemma Create_touches_only_destination_witness :
  vsi_files (snd (Create true (fun _ => "lum"%string) "other.lum" 4 3 1
                         GDT_Byte [] (Examples.world_of Examples.header_4x3_12BI)))
    !! "test.lum"%string = Some Examples.header_4x3_12BI /\
  vsi_files (snd (Create true (fun _ => "lum"%string) "test.lum" 4 3 1
                         GDT_Int16 [] (Examples.world_of Examples.header_4x3_12BI)))
  = vsi_files (Examples.world_of Examples.header_4x3_12BI).
Proof.
  split.
  - rewrite (proj1 (Create_touches_only_destination true (fun _ => "lum"%string)
                      "other.lum" 4 3 1 GDT_Byte []
                      (Examples.world_of Examples.header_4x3_12BI)))
      by discriminate.
    reflexivity.
  - apply (proj1 (proj2 (Create_touches_only_destination true
                           (fun _ => "lum"%string) "test.lum" 4 3 1 GDT_Int16 []
                           (Examples.world_of Examples.header_4x3_12BI)))).
    left. intros [H | H]; discriminate.
Defined.

(** X13. What [Create] reports when its I/O fails (supported type, one
    band). A failed open of the destination is logged as [CE_Failure] with
    [CPLE_OpenFailed] and the file name, after one I/O call. A failed write
    of the tag or a failed close is not logged at all: [Create] returns no
    dataset after its five I/O calls and the log holds nothing beyond the
    extension warning, if there was one. *)
Theorem Create_error_reporting (CPL_LSB : bool) (CPLGetExtension : string -> string)
        (pszFilename : string) (nXSize nYSize : Z) (eType : GDALDataType)
        (papszOptions : list string) (w : World) :
  Spec.supported eType ->
  let r := Create CPL_LSB CPLGetExtension pszFilename nXSize nYSize 1 eType
                  papszOptions w in
  let o := Phase.outcome w in
  let base := cpl_errors (Phase.warn_extension CPLGetExtension pszFilename w) in
  (Phase.failed (o 0%nat) ->
   fst r = None /\
   cpl_errors (snd r) =
     mkEvent CE_Failure CPLE_OpenFailed "Attempt to create file `%s' failed."
             [ArgStr pszFilename] :: base /\
   vsi_calls (snd r) = S (vsi_calls w)) /\
  (o 0%nat = IO_ok -> Phase.failed (o 3%nat) \/ Phase.failed (o 4%nat) ->
   fst r = None /\
   cpl_errors (snd r) = base /\
   vsi_calls (snd r) = (vsi_calls w + 5)%nat).
Proof.
  intros Hsup. cbv zeta.
  rewrite (Create_valid CPL_LSB CPLGetExtension pszFilename nXSize nYSize
                        eType papszOptions w Hsup).
  cbv zeta. rewrite (warn_extension_world CPLGetExtension pszFilename w).
  set (es := cpl_errors (Phase.warn_extension CPLGetExtension pszFilename w)).
  unfold Phase.failed. split.
  - intros Hf. destruct (Phase.outcome w 0); [congruence|].
    repeat split.
  - intros -> Hf.
    destruct (Phase.outcome w 3); [destruct (Phase.outcome w 4)|];
      [destruct Hf; congruence | | ]; repeat split.
Qed.

Lemma Create_error_reporting_witness :
  map err_no (cpl_errors (snd (Create true (fun _ => "lum"%string) "test.lum"
                                      4 3 1 GDT_Byte [] Samples.broken_world)))
  = [CPLE_OpenFailed] /\
  cpl_errors (snd (Create true (fun _ => "lum"%string) "test.lum"
                          4 3 1 GDT_Byte [] (Samples.world_failing_at 3))) = [].
Proof.
  split.
  - destruct (proj1 (Create_error_reporting true (fun _ => "lum"%string)
                       "test.lum" 4 3 GDT_Byte [] Samples.broken_world
                       (or_introl eq_refl))) as (_ & Hlog & _).
    + vm_compute. discriminate.
    + rewrite Hlog. reflexivity.
  - destruct (proj2 (Create_error_reporting true (fun _ => "lum"%string)
                       "test.lum" 4 3 GDT_Byte [] (Samples.world_failing_at 3)
                       (or_introl eq_refl))) as (_ & Hlog & _).
    + reflexivity.
    + left. vm_compute. discriminate.
    + rewrite Hlog. reflexivity.
Defined.

Section SoundnessFacts.

Variable CPL_LSB : bool.

Lemma header_tag_native nW nH t :
  Spec.supported t ->
  Spec.tag_denotes (Spec.header CPL_LSB nW nH t) (Spec.native_order CPL_LSB).
Proof.
  intros Hsup. unfold Spec.header.
  destruct (store_u32_explicit CPL_LSB nW) as (a0 & a1 & a2 & a3 & ->).
  destruct (store_u32_explicit CPL_LSB nH) as (c0 & c1 & c2 & c3 & ->).
  destruct Hsup as [-> | ->]; destruct CPL_LSB; vm_compute; reflexivity.
Qed.

Lemma firstn_full {A} (l : list A) k n :
  length l = n -> (n <= length (firstn k l))%nat -> firstn k l = l.
Proof.
  intros Hl Hk. rewrite length_firstn in Hk. apply firstn_all2. lia.
Qed.

End SoundnessFacts.

(** X14. [Create] returns a dataset only when everything was in order, for
    every outcome of its I/O: the pixel type is 8-bit or 16-bit unsigned,
    the band count is 1, the width and height are positive and the line
    stride fits an [int]; the dataset then has exactly the requested size
    and pixel type, is in update mode, carries the file name, reads its
    samples in native order, and the destination holds the full 12-byte
    header. *)
Theorem Create_Some_sound (CPL_LSB : bool) (CPLGetExtension : string -> string)
        (pszFilename : string) (nXSize nYSize nBands : Z) (eType : GDALDataType)
        (papszOptions : list string) (w : World) (ds : LUMDataset) (w' : World) :
  CInt.is_int nXSize -> CInt.is_int nYSize ->
  Create CPL_LSB CPLGetExtension pszFilename nXSize nYSize nBands eType
         papszOptions w = (Some ds, w') ->
  Spec.supported eType /\ nBands = 1 /\
  0 < nXSize /\ 0 < nYSize /\
  nXSize * GDALGetDataTypeSizeBytes eType <= CInt.INT_MAX /\
  nRasterXSize ds = nXSize /\ nRasterYSize ds = nYSize /\
  map eDataType (papoBands ds) = [eType] /\
  map bNativeOrder (papoBands ds) = [true] /\
  ds_eAccess ds = GA_Update /\ ds_description ds = pszFilename /\
  vsi_files w' !! pszFilename =
    Some (Spec.header CPL_LSB (CInt.wrap32 nXSize) (CInt.wrap32 nYSize) eType).
Proof.
  intros HX HY Hcreate.
  destruct (Create_args_cases eType nBands) as [[Hsup ->] | Hbad].
  2: { destruct (Create_rejected CPL_LSB CPLGetExtension pszFilename nXSize
                   nYSize nBands eType papszOptions w Hbad) as (e & _ & Heq).
       rewrite Heq in Hcreate. discriminate. }
  split; [exact Hsup|]. split; [reflexivity|].
  rewrite (Create_valid CPL_LSB CPLGetExtension pszFilename nXSize nYSize
                        eType papszOptions w Hsup) in Hcreate.
  cbv zeta in Hcreate.
  destruct (Phase.outcome w 0); [|discriminate].
  destruct (Phase.outcome w 3) eqn:E3; [|discriminate].
  destruct (Phase.outcome w 4) eqn:E4; [|discriminate].
  set (w0 := Phase.warn_extension CPLGetExtension pszFilename w) in *.
  assert (Hfull :
            Phase.written_header CPL_LSB nXSize nYSize eType
              (Phase.outcome w 1) (Phase.outcome w 2) IO_ok =
            Spec.header CPL_LSB (CInt.wrap32 nXSize) (CInt.wrap32 nYSize) eType).
  { apply (written_header_full CPL_LSB _ _ _ _ _ _ Hsup).
    match type of Hcreate with
    | Phase.reopen _ _ (Phase.after_close _ ?c ?w00) = _ =>
        destruct (Nat.lt_ge_cases (length c) 12) as [Hshort | Hge];
          [|exact Hge];
        pose proof (reopen_short CPL_LSB pszFilename c
                      (Phase.after_close pszFilename c w00)
                      (after_close_file pszFilename c w00) Hshort) as Hnone
    end.
    rewrite Hcreate in Hnone. discriminate. }
  rewrite Hfull in Hcreate.
  set (hdr := Spec.header CPL_LSB (CInt.wrap32 nXSize) (CInt.wrap32 nYSize) eType) in *.
  assert (Hfile : vsi_files w' !! pszFilename = Some hdr).
  { pose proof (reopen_files CPL_LSB pszFilename (Phase.after_close pszFilename hdr w0))
      as Hf.
    rewrite Hcreate in Hf. cbn [snd] in Hf. rewrite Hf. apply after_close_file. }
  pose proof (reopen_cases CPL_LSB pszFilename (Phase.after_close pszFilename hdr w0))
    as Hc.
  cbv zeta in Hc. rewrite Hcreate in Hc. cbn [fst snd] in Hc.
  destruct Hc as (c & k & Hlook & H12 & Hopen & _).
  rewrite after_close_file in Hlook. inversion Hlook. subst c.
  assert (Hlen : length hdr = 12%nat) by apply length_header.
  rewrite (firstn_full hdr k 12 Hlen H12) in Hopen.
  rewrite Hlen in Hopen. change (Z.of_nat 12) with 12 in Hopen.
  destruct (header_parse CPL_LSB (CInt.wrap32 nXSize) (CInt.wrap32 nYSize) eType
              pszFilename GA_Update
              (vsi_next (Phase.after_close pszFilename hdr w0)) Hsup
              (wrap32_range nXSize) (wrap32_range nYSize))
    as (_ & Hdim & Hty & Hord).
  cbv zeta in Hdim, Hty, Hord. fold hdr in Hdim, Hty, Hord.
  apply Open_Some in Hopen. destruct Hopen as (fp & Hopen). cbv zeta in Hopen.
  cbn [pabyHeader eAccess] in Hopen.
  rewrite Hdim, Hty, Hord in Hopen. cbn [fst snd] in Hopen.
  rewrite !to_int_wrap32, !to_int_of_int in Hopen by assumption.
  destruct Hopen as (_ & _ & Hw & Hh & Hov & Hds & _).
  assert (WX : CInt.wrap32 nXSize = nXSize)
    by (apply wrap32_small; unfold CInt.is_uint32, CInt.is_int, CInt.INT_MAX in *; lia).
  rewrite WX in Hov.
  assert (Hfit : nXSize * GDALGetDataTypeSizeBytes eType <= CInt.INT_MAX).
  { destruct (Z_le_gt_dec (nXSize * GDALGetDataTypeSizeBytes eType) CInt.INT_MAX)
      as [Hle | Hgt]; [exact Hle|].
    apply Z.gt_lt in Hgt. apply overflow_test in Hgt.
    - rewrite Z.gtb_ltb in Hgt. apply Z.ltb_lt in Hgt. lia.
    - destruct Hsup as [-> | ->]; [left | right]; reflexivity. }
  subst ds. cbn [nRasterXSize nRasterYSize papoBands map eDataType bNativeOrder
                 ds_eAccess ds_description].
  repeat split; solve [assumption | reflexivity].
Qed.

Lemma Create_Some_sound_witness :
  exists ds w',
    Create true (fun _ => "lum"%string) "test.lum" 4 3 1 GDT_UInt16 []
           Examples.empty_world = (Some ds, w') /\
    nRasterXSize ds = 4 /\ nRasterYSize ds = 3 /\ ds_eAccess ds = GA_Update.
Proof.
  destruct (Create true (fun _ => "lum"%string) "test.lum" 4 3 1 GDT_UInt16 []
                   Examples.empty_world) as [ods w'] eqn:E.
  assert (Hsome : exists ds, ods = Some ds) by (vm_compute in E; inversion E; eauto).
  destruct Hsome as [ds ->]. exists ds, w'. split; [reflexivity|].
  destruct (Create_Some_sound true (fun _ => "lum"%string) "test.lum" 4 3 1 GDT_UInt16 []
              Examples.empty_world ds w')
    as (_ & _ & _ & _ & _ & Hx & Hy & _ & _ & Ha & _).
  - unfold CInt.is_int, CInt.INT_MIN, CInt.INT_MAX. lia.
  - unfold CInt.is_int, CInt.INT_MIN, CInt.INT_MAX. lia.
  - exact E.
  - repeat split; assumption.
Defined.

(** X15. Files travel between hosts. The file [Create] writes on a host of
    one byte order (working I/O, sizes that fit) is accepted by the [Open]
    of a build for the other byte order, which returns a dataset of the
    same width, height and pixel type, with its band flagged as not in
    native order. *)
Theorem Create_file_opens_on_other_host (CPL_LSB : bool)
        (CPLGetExtension : string -> string) (pszFilename : string)
        (width height : Z) (eType : GDALDataType) (papszOptions : list string)
        (acc : GDALAccess) (fp : VSILFILE) (w w2 : World) :
  0 < width < 2 ^ 31 -> 0 < height < 2 ^ 31 ->
  Spec.supported eType ->
  width * GDALGetDataTypeSizeBytes eType <= 2 ^ 31 - 1 ->
  Spec.io_reliable_for 5 w ->
  exists hdr ds,
    vsi_files (snd (Create CPL_LSB CPLGetExtension pszFilename width height 1
                           eType papszOptions w)) !! pszFilename = Some hdr /\
    Open (negb CPL_LSB) (mkOpenInfo pszFilename acc 12 hdr (Some fp)) w2 =
      (Some ds, mkOpenInfo pszFilename acc 12 hdr None, w2) /\
    nRasterXSize ds = width /\ nRasterYSize ds = height /\
    map eDataType (papoBands ds) = [eType] /\
    map bNativeOrder (papoBands ds) = [false].
Proof.
  intros Hw Hh Hsup Hfit Hio.
  assert (RW : CInt.is_uint32 width) by (unfold CInt.is_uint32; lia).
  assert (RH : CInt.is_uint32 height) by (unfold CInt.is_uint32; lia).
  destruct (Create_reliable CPL_LSB CPLGetExtension pszFilename width height
              eType papszOptions w Hsup Hio) as (Hfiles & _).
  cbv zeta in Hfiles.
  rewrite (wrap32_small width RW), (wrap32_small height RH) in Hfiles.
  set (hdr := Spec.header CPL_LSB width height eType) in *.
  destruct (header_parse CPL_LSB width height eType pszFilename acc fp Hsup RW RH)
    as (Hid & Hdim & Hty & _).
  cbv zeta in Hid, Hdim, Hty. fold hdr in Hid, Hdim, Hty.
  pose proof (header_tag_native CPL_LSB width height eType Hsup) as Htag.
  fold hdr in Htag.
  assert (Hdim' : Open_dimensions (negb CPL_LSB) hdr = (width, height)).
  { rewrite (Open_dimensions_tagged (negb CPL_LSB) hdr _ Htag).
    rewrite <- (Open_dimensions_tagged CPL_LSB hdr _ Htag). exact Hdim. }
  assert (Hord : Open_bMSBFirst (negb CPL_LSB) hdr = false).
  { apply Open_bMSBFirst_spec.
    replace (Spec.opposite (Spec.native_order (negb CPL_LSB)))
      with (Spec.native_order CPL_LSB) by (destruct CPL_LSB; reflexivity).
    exact Htag. }
  assert (TW : CInt.to_int width = width)
    by (apply to_int_of_int; unfold CInt.is_int, CInt.INT_MIN, CInt.INT_MAX; lia).
  assert (TH : CInt.to_int height = height)
    by (apply to_int_of_int; unfold CInt.is_int, CInt.INT_MIN, CInt.INT_MAX; lia).
  exists hdr. eexists. split; [rewrite Hfiles; apply lookup_insert_eq|].
  split.
  - apply (Open_succeeds (negb CPL_LSB)
             (mkOpenInfo pszFilename acc 12 hdr (Some fp)) w2 fp Hid eq_refl);
      cbn [pabyHeader]; rewrite Hdim'; cbn [fst snd]; rewrite ?Hty;
      unfold CInt.INT_MAX; lia.
  - cbn [nRasterXSize nRasterYSize papoBands pabyHeader map eDataType
         bNativeOrder].
    rewrite Hdim', Hty, Hord. cbn [fst snd]. rewrite TW, TH. repeat split.
Qed.

Lemma Create_file_opens_on_other_host_witness :
  exists hdr ds,
    vsi_files (snd (Create true (fun _ => "lum"%string) "test.lum" 4 3 1
                           GDT_UInt16 [] Examples.empty_world))
      !! "test.lum"%string = Some hdr /\
    Open false (mkOpenInfo "test.lum" GA_ReadOnly 12 hdr (Some 0%nat))
         Examples.empty_world =
      (Some ds, mkOpenInfo "test.lum" GA_ReadOnly 12 hdr None,
       Examples.empty_world) /\
    nRasterXSize ds = 4 /\ nRasterYSize ds = 3 /\
    map eDataType (papoBands ds) = [GDT_UInt16] /\
    map bNativeOrder (papoBands ds) = [false].
Proof.
  apply (Create_file_opens_on_other_host true (fun _ => "lum"%string)
           "test.lum" 4 3 GDT_UInt16 [] GA_ReadOnly 0%nat
           Examples.empty_world Examples.empty_world).
  - lia.
  - lia.
  - right. reflexivity.
  - vm_compute. discriminate.
  - intros k Hk. reflexivity.
Defined.

(** * The driver registration *)

Section RegistryFacts.

Lemma GDALGetDriverByName_app name dm d :
  Drv.GDALGetDriverByName name dm = None ->
  Drv.GDALGetDriverByName name (dm ++ [d]) =
  if CStr.EQUAL (drv_description d) name then Some d else None.
Proof.
  induction dm as [|d0 dm IH]; intros H; cbn [app Drv.GDALGetDriverByName] in *.
  - reflexivity.
  - destruct (CStr.EQUAL (drv_description d0) name); [discriminate|].
    now apply IH.
Qed.

(** [strcasecmp] cannot tell apart two texts that agree after lower-casing. *)
Lemma equal_ci_lower (l a b : list byte) :
  map CStr.tolower a = map CStr.tolower b ->
  CStr.equal_ci l a = CStr.equal_ci l b.
Proof.
  revert a b. induction l as [|c l IH]; intros [|x a] [|y b] H;
    cbn [map] in H; try discriminate; try reflexivity.
  inversion H as [[Hxy Hab]]. cbn [CStr.equal_ci].
  unfold CStr.char_eq_ci. rewrite Hxy, (IH a b Hab). reflexivity.
Qed.

Lemma GDALGetDriverByName_case (a b : string) dm :
  map CStr.tolower (list_byte_of_string a) =
  map CStr.tolower (list_byte_of_string b) ->
  Drv.GDALGetDriverByName a dm = Drv.GDALGetDriverByName b dm.
Proof.
  intros H. induction dm as [|d dm IH]; [reflexivity|].
  cbn [Drv.GDALGetDriverByName]. unfold CStr.EQUAL.
  rewrite (equal_ci_lower _ _ _ H), IH. reflexivity.
Qed.

(** The guard and the registration of [GDALRegister_LUM] in one equation. *)
Lemma GDALRegister_LUM_eq lsb ext dm :
  GDALRegister_LUM lsb ext dm =
  match Drv.GDALGetDriverByName "LUM" dm with
  | Some _ => dm
  | None => dm ++ [Inv.LUM_driver lsb ext]
  end.
Proof.
  unfold GDALRegister_LUM.
  destruct (Drv.GDALGetDriverByName "LUM" dm) eqn:E; cbn [is_null negb];
    [reflexivity|].
  cbv zeta. unfold Drv.RegisterDriver.
  cbn [drv_description Drv.SetDescription Drv.SetMetadataItem
       Drv.new_GDALDriver drv_metadata pfnOpen pfnCreate pfnIdentify].
  rewrite E. reflexivity.
Qed.

End RegistryFacts.

(** X16. [GDALRegister_LUM] is safe to call any number of times. It never
    removes, replaces or reorders a registered driver; when a driver named
    "LUM" (in any letter case) is already registered it changes nothing;
    otherwise it appends exactly one driver, which a look-up of "LUM" then
    finds, named "LUM", with extension "lum", raster and virtual-I/O
    capability "YES", and [Open], [Create] and [Identify] as its entry
    points. A second call is always without effect. *)
Theorem GDALRegister_LUM_idempotent (CPL_LSB : bool)
        (CPLGetExtension : string -> string) (dm : list GDALDriver) :
  let dm' := GDALRegister_LUM CPL_LSB CPLGetExtension dm in
  GDALRegister_LUM CPL_LSB CPLGetExtension dm' = dm' /\
  (exists tail, dm' = dm ++ tail /\ (length tail <= 1)%nat) /\
  (Drv.GDALGetDriverByName "LUM" dm <> None -> dm' = dm) /\
  (Drv.GDALGetDriverByName "LUM" dm = None ->
   exists d,
     dm' = dm ++ [d] /\
     Drv.GDALGetDriverByName "LUM" dm' = Some d /\
     Drv.GDALGetDriverByName "lum" dm' = Some d /\
     drv_description d = "LUM"%string /\
     drv_metadata d !! Drv.GDAL_DMD_EXTENSION = Some "lum"%string /\
     drv_metadata d !! Drv.GDAL_DCAP_RASTER = Some "YES"%string /\
     drv_metadata d !! Drv.GDAL_DCAP_VIRTUALIO = Some "YES"%string /\
     drv_metadata d !! Drv.GDAL_DMD_LONGNAME = Some "LUM (.lum)"%string /\
     pfnOpen d = Some (Open CPL_LSB) /\
     pfnCreate d = Some (Create CPL_LSB CPLGetExtension) /\
     pfnIdentify d = Some Identify).
Proof.
  cbv zeta. rewrite !GDALRegister_LUM_eq.
  destruct (Drv.GDALGetDriverByName "LUM" dm) as [d0|] eqn:E.
  - rewrite E. split; [reflexivity|]. split; [|split].
    + exists []. split; [now rewrite app_nil_r | cbn; lia].
    + reflexivity.
    + discriminate.
  - set (drv := Inv.LUM_driver CPL_LSB CPLGetExtension).
    assert (Hfind : Drv.GDALGetDriverByName "LUM" (dm ++ [drv]) = Some drv)
      by (rewrite (GDALGetDriverByName_app _ _ _ E); reflexivity).
    assert (Hfind' : Drv.GDALGetDriverByName "lum" (dm ++ [drv]) = Some drv).
    { assert (E' : Drv.GDALGetDriverByName "lum" dm = None)
        by (rewrite (GDALGetDriverByName_case "lum" "LUM" dm eq_refl); exact E).
      rewrite (GDALGetDriverByName_app _ _ _ E'). reflexivity. }
    rewrite Hfind. split; [reflexivity|]. split; [|split].
    + exists [drv]. split; [reflexivity | cbn; lia].
    + congruence.
    + intros _. exists drv. repeat split; try assumption; reflexivity.
Qed.

Lemma GDALRegister_LUM_idempotent_witness :
  length (GDALRegister_LUM true (fun _ => "lum"%string)
            (GDALRegister_LUM true (fun _ => "lum"%string) [])) = 1%nat /\
  GDALRegister_LUM true (fun _ => "lum"%string)
    [Drv.SetDescription "lum" Drv.new_GDALDriver]
  = [Drv.SetDescription "lum" Drv.new_GDALDriver].
Proof.
  split.
  - rewrite (proj1 (GDALRegister_LUM_idempotent true (fun _ => "lum"%string) [])).
    reflexivity.
  - apply (proj1 (proj2 (proj2 (GDALRegister_LUM_idempotent true
                                  (fun _ => "lum"%string)
                                  [Drv.SetDescription "lum" Drv.new_GDALDriver])))).
    vm_compute. discriminate.
Defined.



(** X18. The exact success criterion of [Open]. For a probe [Identify]
    accepts, [Open] returns a dataset if and only if the parsed width and
    height read as positive [int]s and the width times the pixel size does
    not exceed [INT_MAX]; for a probe [Identify] rejects it never does. *)
Theorem Open_success_criterion (CPL_LSB : bool) (oi : GDALOpenInfo) (w : World) :
  let hdr := pabyHeader oi in
  let nWidth := fst (Open_dimensions CPL_LSB hdr) in
  let nHeight := snd (Open_dimensions CPL_LSB hdr) in
  let iPixelSize := GDALGetDataTypeSizeBytes (Open_eDataType hdr) in
  (Identify oi = true ->
   ((exists ds, fst (fst (Open CPL_LSB oi w)) = Some ds) <->
    0 < CInt.to_int nWidth /\ 0 < CInt.to_int nHeight /\
    nWidth * iPixelSize <= CInt.INT_MAX)) /\
  (Identify oi = false -> fst (fst (Open CPL_LSB oi w)) = None).
Proof.
  cbv zeta. split.
  - intros Hid.
    assert (Hfp : exists fp, fpL oi = Some fp).
    { apply Identify_tag_iff in Hid. destruct Hid as (_ & Hn & _).
      destruct (fpL oi) as [fp|]; [eauto | congruence]. }
    destruct Hfp as [fp Hfp]. split.
    + intros [ds Hds].
      destruct (Open CPL_LSB oi w) as [[ods oi'] w'] eqn:E. cbn [fst] in Hds.
      subst ods. apply Open_Some in E. destruct E as (fp' & E). cbv zeta in E.
      destruct E as (_ & _ & Hw & Hh & Hov & _).
      split; [exact Hw|]. split; [exact Hh|].
      destruct (Z_le_gt_dec
                  (fst (Open_dimensions CPL_LSB (pabyHeader oi)) *
                   GDALGetDataTypeSizeBytes (Open_eDataType (pabyHeader oi)))
                  CInt.INT_MAX) as [Hle | Hgt]; [exact Hle|].
      apply Z.gt_lt in Hgt.
      apply (overflow_test _ _ (Open_eDataType_size (pabyHeader oi))) in Hgt.
      rewrite Z.gtb_ltb in Hgt. apply Z.ltb_lt in Hgt. lia.
    + intros (Hw & Hh & Hfit).
      rewrite (Open_succeeds CPL_LSB oi w fp Hid Hfp Hw Hh Hfit).
      eexists. reflexivity.
  - intros Hid. rewrite (Open_rejects CPL_LSB oi w Hid). reflexivity.
Qed.

Lemma Open_success_criterion_witness :
  (exists ds, fst (fst (Open true (Examples.probe Examples.header_4x3_08LI)
                             (Examples.world_of Examples.header_4x3_08LI)))
              = Some ds) /\
  ~ (exists ds, fst (fst (Open true (Examples.probe Examples.header_0x3_08LI)
                               (Examples.world_of Examples.header_0x3_08LI)))
                = Some ds).
Proof.
  split.
  - apply (proj1 (Open_success_criterion true
                    (Examples.probe Examples.header_4x3_08LI)
                    (Examples.world_of Examples.header_4x3_08LI))).
    + vm_compute. reflexivity.
    + vm_compute. repeat split; discriminate.
  - intros H.
    apply (proj1 (Open_success_criterion true
                    (Examples.probe Examples.header_0x3_08LI)
                    (Examples.world_of Examples.header_0x3_08LI))) in H.
    + destruct H as (Hw & _). vm_compute in Hw. discriminate.
    + vm_compute. reflexivity.
Defined.
